(** * Transactional catalog versioning: the [CatalogSet] of [src/catalog/catalog_set.cpp]

    A shallow embedding of the name directory ([CatalogEntryMap]), of the
    version chains it owns and of the [CatalogSet] operations that create,
    read, alter, drop, undo, clean up and scan versions, followed by the
    properties of the specification that were checked against it.

    Conventions of the embedding.
    - [transaction_t] is an unsigned 64-bit integer that the code only
      compares; it is an [N].
    - A [unique_ptr<CatalogEntry>] owns its pointee, so a chain of [child]
      links is an inductive value ([Node]); the raw [parent] pointer of a
      node always designates its owner, so it is the position one step
      nearer to the head, and it is null exactly for the head.
    - A [CatalogEntry &] argument is an [EntryRef]: the directory key of the
      chain and the depth of the node below the head.
    - Exceptions, dereferences of a null link, references that designate
      no node and running out of recursion fuel are the abnormal outcomes of
      the monad [M]; the state reached when an exception is thrown is kept.
    - A [D_ASSERT] is the no-op of a release build; what it asserts is a
      hypothesis where a property needs it.
    - Locks are not modelled: the operations run one at a time. *)

From Stdlib Require Import NArith Ascii String.
From stdpp Require Import base option list strings gmap fin_maps.

Local Open Scope string_scope.
Local Open Scope N_scope.
Local Open Scope list_scope.

(** ** Names *)

(** Modelled from the spec: [StringUtil::Lower] and [StringUtil::CIEquals]
    live outside the source files at hand; the directory is keyed by
    "case-insensitive object name", which for the ASCII names of the catalog
    is equality after lowering the letters A..Z. *)
Definition Lower_ascii (c : ascii) : ascii :=
  let n := N_of_ascii c in
  if (65 <=? n) && (n <=? 90) then ascii_of_N (n + 32) else c.

Fixpoint Lower (s : string) : string :=
  match s with
  | EmptyString => EmptyString
  | String c rest => String (Lower_ascii c) (Lower rest)
  end.

Definition CIEquals (a b : string) : bool := String.eqb (Lower a) (Lower b).

(** ** Version nodes *)

Inductive CatalogType : Set :=
| INVALID | TABLE_ENTRY | SCHEMA_ENTRY | VIEW_ENTRY | INDEX_ENTRY
| SEQUENCE_ENTRY | TYPE_ENTRY | MACRO_ENTRY | DELETED_ENTRY | RENAMED_ENTRY
| DEPENDENCY_ENTRY | DEPENDENCY_SET.

Definition CatalogType_eqb (a b : CatalogType) : bool :=
  match a, b with
  | INVALID, INVALID | TABLE_ENTRY, TABLE_ENTRY | SCHEMA_ENTRY, SCHEMA_ENTRY
  | VIEW_ENTRY, VIEW_ENTRY | INDEX_ENTRY, INDEX_ENTRY
  | SEQUENCE_ENTRY, SEQUENCE_ENTRY | TYPE_ENTRY, TYPE_ENTRY
  | MACRO_ENTRY, MACRO_ENTRY | DELETED_ENTRY, DELETED_ENTRY
  | RENAMED_ENTRY, RENAMED_ENTRY | DEPENDENCY_ENTRY, DEPENDENCY_ENTRY
  | DEPENDENCY_SET, DEPENDENCY_SET => true
  | _, _ => false
  end.

Definition transaction_t := N.

(** The fields of a [CatalogEntry] that the catalog set reads or writes.
    [oid] stands for the object behind the entry. *)
Record CatalogEntry : Type := mkEntry {
  name : string;
  type : CatalogType;
  oid : N;
  internal : bool;
  temporary : bool;
  deleted : bool;
  timestamp : transaction_t
}.

Definition set_timestamp (ts : transaction_t) (e : CatalogEntry) : CatalogEntry :=
  {| name := name e; type := type e; oid := oid e; internal := internal e;
     temporary := temporary e; deleted := deleted e; timestamp := ts |}.

(** Modelled from the spec: the constructor of [InCatalogEntry] is outside
    the source files at hand; a fresh entry carries its kind tag and name,
    with the three flags cleared. *)
Definition InCatalogEntry (t : CatalogType) (n : string) : CatalogEntry :=
  {| name := n; type := t; oid := 0; internal := false; temporary := false;
     deleted := false; timestamp := 0 |}.

Definition set_deleted (d : bool) (e : CatalogEntry) : CatalogEntry :=
  {| name := name e; type := type e; oid := oid e; internal := internal e;
     temporary := temporary e; deleted := d; timestamp := timestamp e |}.

(** Modelled from the spec: the link methods of [CatalogEntry] ([Child],
    [HasChild], [SetChild], [TakeChild], [Parent], [HasParent], [SetAsRoot])
    are defined outside the source files at hand.  "Every node except the
    head has exactly one parent; ownership of a non-head node is held by
    its parent node (or, for the head, by the directory entry)": a node
    owns the next-older version through [child], and [SetAsRoot] is a
    notification to the object that leaves the links alone. *)
#[local] Unset Elimination Schemes.
Inductive Node : Type :=
| mkNode (entry : CatalogEntry) (child : option Node).
#[local] Set Elimination Schemes.

Definition entry (n : Node) : CatalogEntry := let 'mkNode e _ := n in e.
Definition Child (n : Node) : option Node := let 'mkNode _ c := n in c.
Definition HasChild (n : Node) : bool :=
  match Child n with Some _ => true | None => false end.
(** [SetChild] replaces the owned child; [TakeChild] gives it up. *)
Definition SetChild (n : Node) (c : option Node) : Node := mkNode (entry n) c.
Definition TakeChild (n : Node) : option Node * Node := (Child n, mkNode (entry n) None).

(** Induction along the [child] links. *)
Fixpoint Node_chain_ind (P : Node -> Prop)
    (Hlast : forall e, P (mkNode e None))
    (Hlink : forall e c, P c -> P (mkNode e (Some c)))
    (n : Node) : P n :=
  match n with
  | mkNode e None => Hlast e
  | mkNode e (Some c) => Hlink e c (Node_chain_ind P Hlast Hlink c)
  end.

(** The versions of a chain, newest first. *)
Fixpoint versions (n : Node) : list CatalogEntry :=
  match n with
  | mkNode e None => [e]
  | mkNode e (Some c) => e :: versions c
  end.

(** The node [d] child links below [n]. *)
Fixpoint node_at (d : nat) (n : Node) : option Node :=
  match d with
  | O => Some n
  | S d' => match n with
            | mkNode _ None => None
            | mkNode _ (Some c) => node_at d' c
            end
  end.

(** The chain [n] after the node at depth [S d] has handed its child to its
    parent, the node at depth [d] ([parent->SetChild(std::move(child))]). *)
Fixpoint splice_below (d : nat) (n : Node) : Node :=
  match n with
  | mkNode e None => n
  | mkNode e (Some c) =>
      match d with
      | O => mkNode e (Child c)
      | S d' => mkNode e (Some (splice_below d' c))
      end
  end.

(** ** Snapshots *)

(** [transaction] and [context] are optional handles; only their presence
    matters to the catalog set. *)
Record CatalogTransaction : Type := mkTransaction {
  transaction_id : transaction_t;
  start_time : transaction_t;
  transaction : bool;
  context : bool
}.

(** ** Outcomes *)

Inductive Exception : Set :=
| Internal_EntryAlreadyExists        (* CatalogEntryMap::AddEntry *)
| Internal_EntryDoesNotExist         (* CatalogEntryMap::UpdateEntry *)
| Internal_DropWithoutChain          (* CatalogEntryMap::DropEntry *)
| Internal_InternalInNonSystem       (* CreateEntry, first check *)
| Internal_NonInternalInSystem       (* CreateEntry, second check *)
| Internal_TemporaryInNonTemporary   (* CreateEntry, third check *)
| InvalidInput_NonTemporaryInTemporary (* CreateEntry, fourth check *)
| Internal_AlterWithoutContext       (* AlterEntry *)
| Transaction_ConflictOnCreate       (* CreateEntry *)
| Transaction_ConflictOnAlter        (* GetEntryInternal *)
| Catalog_AlterInternal              (* AlterEntry *)
| Catalog_DropInternal               (* DropDependencies, DropEntryInternal *)
| Catalog_RenameTargetExists         (* AlterEntry *)
| Collaborator_Raised.               (* raised inside a collaborator *)

Inductive ExceptionClass : Set :=
| InternalException | InvalidInputException | TransactionException
| CatalogException | CollaboratorException.

Definition exception_class (e : Exception) : ExceptionClass :=
  match e with
  | Internal_EntryAlreadyExists | Internal_EntryDoesNotExist
  | Internal_DropWithoutChain | Internal_InternalInNonSystem
  | Internal_NonInternalInSystem | Internal_TemporaryInNonTemporary
  | Internal_AlterWithoutContext => InternalException
  | InvalidInput_NonTemporaryInTemporary => InvalidInputException
  | Transaction_ConflictOnCreate | Transaction_ConflictOnAlter => TransactionException
  | Catalog_AlterInternal | Catalog_DropInternal | Catalog_RenameTargetExists =>
      CatalogException
  | Collaborator_Raised => CollaboratorException
  end.

Inductive Fault : Set :=
| NullDereference      (* a missing parent link is dereferenced *)
| DanglingReference.   (* the argument designates no node of the set *)

Inductive Outcome (A : Type) : Type :=
| Ret (a : A)
| Throw (e : Exception)
| Crash (f : Fault)
| OutOfFuel.
Arguments Ret {A} a.
Arguments Throw {A} e.
Arguments Crash {A} f.
Arguments OutOfFuel {A}.

(** ** Collaborators *)

(** Modelled from the spec: the dependency manager is an external
    collaborator; each of the entry points [AddObject], [AlterObject] and
    [DropObject] either returns or raises. *)
Record DependencyManager : Type := mkDependencyManager {
  AddObject : CatalogTransaction -> CatalogEntry -> list string -> option Exception;
  AlterObject : CatalogTransaction -> CatalogEntry -> CatalogEntry -> option Exception;
  DropObject : CatalogTransaction -> CatalogEntry -> bool -> option Exception
}.

Record DuckCatalog : Type := mkCatalog {
  IsSystemCatalog : bool;
  IsTemporaryCatalog : bool;
  GetDependencyManager : DependencyManager
}.

(** Modelled from the spec: the default generator is an external
    collaborator, "[CreateDefaultEntry(context, name) -> optional object]"
    with a one-shot "all materialized" flag. *)
Record DefaultGenerator : Type := mkDefaults {
  created_all_entries : bool;
  default_entry : string -> option CatalogEntry   (* CreateDefaultEntry(context, name) *)
}.

(** Modelled from the spec: "[Alter(context, spec) -> optional
    replacement]" is the object's own capability.  The alter request comes
    with the answer of that capability to it: a replacement, a refusal, or
    an exception. *)
Record AlterInfo : Type := mkAlterInfo {
  allow_internal : bool;
  object_AlterEntry : CatalogEntry -> Outcome (option CatalogEntry)
}.

Inductive CollaboratorCall : Type :=
| Call_AddObject (e : CatalogEntry)
| Call_DropObject (e : CatalogEntry) (cascade : bool)
| Call_AlterObject (old new : CatalogEntry)
| Call_AlterEntry (e : CatalogEntry)
| Call_UndoAlter (e : CatalogEntry)
| Call_SetAsRoot (e : CatalogEntry)
| Call_ModifyCatalog.

(** What [DuckTransaction::PushCatalogEntry] receives: the superseded
    version and whether a serialized alter request comes with it. *)
Record UndoRecord : Type := mkUndo {
  superseded : CatalogEntry;
  with_alter_info : bool
}.

(** ** State and monad *)

(** The catalog set with the collaborators it talks to: the directory
    [map] (keys are lowered names), the undo log of the active transaction
    and the calls made to collaborators, oldest first. *)
Record CatalogSet : Type := mkSet {
  catalog : DuckCatalog;
  defaults : option DefaultGenerator;
  map : gmap string Node;
  undo_buffer : list UndoRecord;
  calls : list CollaboratorCall
}.

Definition with_map (m : gmap string Node) (s : CatalogSet) : CatalogSet :=
  {| catalog := catalog s; defaults := defaults s; map := m;
     undo_buffer := undo_buffer s; calls := calls s |}.

Definition M (A : Type) : Type := CatalogSet -> Outcome A * CatalogSet.

Definition ret {A} (a : A) : M A := fun s => (Ret a, s).
Definition throw {A} (e : Exception) : M A := fun s => (Throw e, s).
Definition crash {A} (f : Fault) : M A := fun s => (Crash f, s).
Definition out_of_fuel {A} : M A := fun s => (OutOfFuel, s).
Definition bind {A B} (c : M A) (k : A -> M B) : M B :=
  fun s =>
    match c s with
    | (Ret a, s') => k a s'
    | (Throw e, s') => (Throw e, s')
    | (Crash f, s') => (Crash f, s')
    | (OutOfFuel, s') => (OutOfFuel, s')
    end.
Definition get : M CatalogSet := fun s => (Ret s, s).
Definition put_map (m : gmap string Node) : M unit := fun s => (Ret tt, with_map m s).

Notation "'let*' x ':=' c 'in' k" := (bind c (fun x => k))
  (at level 10, x name, c at level 100, k at level 200).
Notation "c ;; k" := (bind c (fun _ => k))
  (at level 100, k at level 200, right associativity).

Definition call (c : CollaboratorCall) : M unit :=
  fun s => (Ret tt,
            {| catalog := catalog s; defaults := defaults s; map := map s;
               undo_buffer := undo_buffer s; calls := calls s ++ [c] |}).

Definition PushCatalogEntry (n : Node) (payload : bool) : M unit :=
  fun s => (Ret tt,
            {| catalog := catalog s; defaults := defaults s; map := map s;
               undo_buffer := undo_buffer s ++ [mkUndo (entry n) payload];
               calls := calls s |}).

(** The answer of a collaborator, as it is. *)
Definition answer {A} (o : Outcome A) : M A := fun s => (o, s).

(** A collaborator that may raise. *)
Definition may_raise (r : option Exception) : M unit :=
  match r with
  | Some e => throw e
  | None => ret tt
  end.

(** ** The name directory, [CatalogEntryMap] *)

Definition map_GetEntry (m : gmap string Node) (n : string) : option Node :=
  m !! Lower n.

Definition AddEntry (e : CatalogEntry) : M unit :=
  let* s := get in
  match map_GetEntry (map s) (name e) with
  | Some _ => throw Internal_EntryAlreadyExists
  | None => put_map (<[Lower (name e) := mkNode e None]> (map s))
  end.

Definition UpdateEntry (e : CatalogEntry) : M unit :=
  let* s := get in
  match map_GetEntry (map s) (name e) with
  | None => throw Internal_EntryDoesNotExist
  | Some existing => put_map (<[Lower (name e) := mkNode e (Some existing)]> (map s))
  end.

(** A reference to a node of the set. *)
Record EntryRef : Type := mkRef {
  ref_key : string;
  ref_depth : nat
}.

Definition resolve (m : gmap string Node) (r : EntryRef) : option Node :=
  m !! ref_key r ≫= node_at (ref_depth r).

(** Modelled from the spec: the parent link is null for the head and
    designates the owner otherwise. *)
Definition Parent (r : EntryRef) : option EntryRef :=
  match ref_depth r with
  | O => None
  | S d => Some (mkRef (ref_key r) d)
  end.
Definition HasParent (r : EntryRef) : bool :=
  match Parent r with Some _ => true | None => false end.

(** [CatalogEntryMap::DropEntry]. The chain is looked up under the name
    the node carries. A head gives up its child and the directory slot of
    that name is overwritten with the child, or erased when there is none;
    an inner node is replaced by its child in its parent.  The two
    [D_ASSERT]s are no-ops of a release build: they state that the looked-up
    chain is the one the node heads. *)
Definition DropEntry_map (r : EntryRef) : M unit :=
  let* s := get in
  match resolve (map s) r with
  | None => crash DanglingReference
  | Some n =>
      match map_GetEntry (map s) (name (entry n)) with
      | None => throw Internal_DropWithoutChain
      | Some _ =>
          match ref_depth r with
          | O =>
              let taken := <[ref_key r := snd (TakeChild n)]> (map s) in
              match fst (TakeChild n) with
              | Some c => put_map (<[Lower (name (entry n)) := c]> taken)
              | None => put_map (delete (Lower (name (entry n))) taken)
              end
          | S d =>
              match map s !! ref_key r with
              | Some head => put_map (<[ref_key r := splice_below d head]> (map s))
              | None => crash DanglingReference
              end
          end
      end
  end.

(** ** The catalog set *)

Section Operations.

(** Two constants declared outside the source files at hand: the threshold
    from which a timestamp is a transaction-local id, and the name of the
    implicit default schema. *)
Variable TRANSACTION_ID_START : transaction_t.
Variable DEFAULT_SCHEMA : string.

Definition IsDependencyEntry (e : CatalogEntry) : bool :=
  CatalogType_eqb (type e) DEPENDENCY_ENTRY || CatalogType_eqb (type e) DEPENDENCY_SET.

Definition HasConflict (tx : CatalogTransaction) (ts : transaction_t) : bool :=
  ((TRANSACTION_ID_START <=? ts) && negb (ts =? transaction_id tx))
  || ((ts <? TRANSACTION_ID_START) && (start_time tx <? ts)).

Definition UseTimestamp (tx : CatalogTransaction) (ts : transaction_t) : bool :=
  if ts =? transaction_id tx then true
  else if ts <? start_time tx then true
  else false.

Fixpoint GetEntryForTransaction (tx : CatalogTransaction) (current : Node) : Node :=
  match current with
  | mkNode e None => current
  | mkNode e (Some c) =>
      if UseTimestamp tx (timestamp e) then current
      else GetEntryForTransaction tx c
  end.

Fixpoint GetCommittedEntry (current : Node) : Node :=
  match current with
  | mkNode e None => current
  | mkNode e (Some c) =>
      if timestamp e <? TRANSACTION_ID_START then current
      else GetCommittedEntry c
  end.

(** The checks at the top of [CreateEntry]: the exception raised, if any. *)
Definition CreateEntry_validate (cat : DuckCatalog) (entry_name : string)
    (value : CatalogEntry) : option Exception :=
  if internal value && negb (IsSystemCatalog cat)
     && negb (String.eqb entry_name DEFAULT_SCHEMA)
  then Some Internal_InternalInNonSystem
  else if negb (internal value) then
    if negb (temporary value) && IsSystemCatalog cat && negb (IsDependencyEntry value)
    then Some Internal_NonInternalInSystem
    else if temporary value && negb (IsTemporaryCatalog cat)
    then Some Internal_TemporaryInNonTemporary
    else if negb (temporary value) && IsTemporaryCatalog cat
            && negb (String.eqb entry_name DEFAULT_SCHEMA)
    then Some InvalidInput_NonTemporaryInTemporary
    else None
  else None.

Definition CreateEntryInternal (tx : CatalogTransaction) (e : CatalogEntry)
    : M (option CatalogEntry) :=
  let* s := get in
  match map_GetEntry (map s) (name e) with
  | Some _ => ret None
  | None =>
      let e' := set_timestamp 0 e in
      AddEntry e' ;; ret (Some e')
  end.

(** [CreateDefaultEntry]; [retry] is the closing call
    [GetEntry(transaction, name)]. *)
Definition CreateDefaultEntry (retry : M (option CatalogEntry))
    (tx : CatalogTransaction) (entry_name : string) : M (option CatalogEntry) :=
  let* s := get in
  match defaults s with
  | None => ret None
  | Some g =>
      if created_all_entries g then ret None
      else if negb (context tx) then ret None
      else
        match default_entry g entry_name with
        | None => ret None
        | Some e =>
            let* result := CreateEntryInternal tx e in
            match result with
            | Some r => ret (Some r)
            | None => retry
            end
        end
  end.

Fixpoint GetEntry (fuel : nat) (tx : CatalogTransaction) (entry_name : string)
    : M (option CatalogEntry) :=
  match fuel with
  | O => out_of_fuel
  | S fuel' =>
      let* s := get in
      match map_GetEntry (map s) entry_name with
      | Some catalog_entry =>
          let current := GetEntryForTransaction tx catalog_entry in
          if deleted (entry current) then ret None
          else ret (Some (entry current))
      | None => CreateDefaultEntry (GetEntry fuel' tx entry_name) tx entry_name
      end
  end.

(** [PushCatalogEntry(value_ptr->Child(), ...)] for the head just published
    under the name of [value]. *)
Definition PushChildOfHead (value : CatalogEntry) (payload : bool) : M unit :=
  let* s := get in
  match map_GetEntry (map s) (name value) ≫= Child with
  | Some c => PushCatalogEntry c payload
  | None => crash NullDereference
  end.

Definition CreateEntry (fuel : nat) (tx : CatalogTransaction) (entry_name : string)
    (value : CatalogEntry) (dependencies : list string) : M bool :=
  let* s := get in
  may_raise (CreateEntry_validate (catalog s) entry_name value) ;;
  let value := set_timestamp (transaction_id tx) value in
  call (Call_AddObject value) ;;
  may_raise (AddObject (GetDependencyManager (catalog s)) tx value dependencies) ;;
  let publish : M bool :=
    UpdateEntry value ;;
    (if transaction tx then PushChildOfHead value false else ret tt) ;;
    ret true in
  let* s := get in
  match map_GetEntry (map s) entry_name with
  | None =>
      let* e := CreateDefaultEntry (GetEntry fuel tx entry_name) tx entry_name in
      match e with
      | Some _ => ret false
      | None =>
          let dummy_node :=
            set_deleted true (set_timestamp 0 (InCatalogEntry INVALID entry_name)) in
          AddEntry dummy_node ;; publish
      end
  | Some current =>
      if HasConflict tx (timestamp (entry current))
      then throw Transaction_ConflictOnCreate
      else if negb (deleted (entry current)) then ret false
      else publish
  end.

Definition GetEntryInternal_entry (tx : CatalogTransaction) (catalog_entry : Node)
    : M (option Node) :=
  if HasConflict tx (timestamp (entry catalog_entry))
  then throw Transaction_ConflictOnAlter
  else if deleted (entry catalog_entry) then ret None
  else ret (Some catalog_entry).

Definition GetEntryInternal (tx : CatalogTransaction) (entry_name : string)
    : M (option Node) :=
  let* s := get in
  match map_GetEntry (map s) entry_name with
  | None => ret None
  | Some entry_value => GetEntryInternal_entry tx entry_value
  end.

Definition DropDependencies (fuel : nat) (tx : CatalogTransaction)
    (entry_name : string) (cascade allow_drop_internal : bool) : M bool :=
  let* found := GetEntry fuel tx entry_name in
  match found with
  | None => ret false
  | Some e =>
      if internal e && negb allow_drop_internal then throw Catalog_DropInternal
      else
        let* s := get in
        call (Call_DropObject e cascade) ;;
        may_raise (DropObject (GetDependencyManager (catalog s)) tx e cascade) ;;
        ret true
  end.

Definition DropEntryInternal (tx : CatalogTransaction) (entry_name : string)
    (allow_drop_internal : bool) (tombstone_type : CatalogType) : M bool :=
  let* found := GetEntryInternal tx entry_name in
  match found with
  | None => ret false
  | Some n =>
      if internal (entry n) && negb allow_drop_internal then throw Catalog_DropInternal
      else
        let value :=
          set_deleted true
            (set_timestamp (transaction_id tx)
               (InCatalogEntry tombstone_type (name (entry n)))) in
        UpdateEntry value ;;
        (if transaction tx then PushChildOfHead value false else ret tt) ;;
        ret true
  end.

(** Modelled from the spec: the default of [tombstone_type] is given in a
    header outside the source files at hand; [DropEntry] "publishes a plain
    tombstone". *)
Definition DropEntry (fuel : nat) (tx : CatalogTransaction) (entry_name : string)
    (cascade allow_drop_internal : bool) : M bool :=
  let* ok := DropDependencies fuel tx entry_name cascade allow_drop_internal in
  if negb ok then ret false
  else DropEntryInternal tx entry_name allow_drop_internal DELETED_ENTRY.

Definition AlterEntry (fuel : nat) (tx : CatalogTransaction) (entry_name : string)
    (alter_info : AlterInfo) : M bool :=
  let* found := GetEntryInternal tx entry_name in
  match found with
  | None => ret false
  | Some n =>
      let e := entry n in
      if negb (allow_internal alter_info) && internal e then throw Catalog_AlterInternal
      else
        let original_name := name e in
        if negb (context tx) then throw Internal_AlterWithoutContext
        else
          call (Call_AlterEntry e) ;;
          let* altered := answer (object_AlterEntry alter_info e) in
          match altered with
          | None => ret true
          | Some v =>
              let value := set_timestamp (transaction_id tx) v in
              let name_changed := negb (CIEquals (name value) original_name) in
              (if name_changed then
                 let* s := get in
                 match map_GetEntry (map s) (name value) with
                 | Some entry_value =>
                     let original_entry := GetEntryForTransaction tx entry_value in
                     if negb (deleted (entry original_entry))
                     then call (Call_UndoAlter e) ;; throw Catalog_RenameTargetExists
                     else ret tt
                 | None => ret tt
                 end ;;
                 DropEntryInternal tx original_name false RENAMED_ENTRY ;;
                 let renamed_node :=
                   set_deleted false
                     (set_timestamp (transaction_id tx)
                        (InCatalogEntry RENAMED_ENTRY (name value))) in
                 CreateEntry fuel tx (name value) renamed_node [] ;;
                 GetEntryInternal tx (name value) ;;
                 UpdateEntry value
               else UpdateEntry value) ;;
              (if transaction tx then PushChildOfHead value true else ret tt) ;;
              let* s := get in
              call (Call_AlterObject e value) ;;
              may_raise (AlterObject (GetDependencyManager (catalog s)) tx e value) ;;
              ret true
          end
  end.

(** [Undo(entry)]: [entry] is the version to restore, its parent the
    version rolled back.  Once the parent is dropped, [entry] sits where
    the parent was: one step nearer to the head of its chain, or at the
    head of the chain stored under the parent's name. *)
Definition Undo (r : EntryRef) : M unit :=
  match Parent r with
  | None => crash NullDereference
  | Some to_be_removed =>
      let* s := get in
      match resolve (map s) r, resolve (map s) to_be_removed with
      | Some n, Some p =>
          (if negb (HasParent to_be_removed) then call (Call_SetAsRoot (entry n))
           else ret tt) ;;
          DropEntry_map to_be_removed ;;
          (if CatalogType_eqb (type (entry n)) INVALID then
             DropEntry_map
               (match ref_depth to_be_removed with
                | O => mkRef (Lower (name (entry p))) O
                | S _ => to_be_removed
                end)
           else ret tt) ;;
          call Call_ModifyCatalog
      | _, _ => crash DanglingReference
      end
  end.

(** [CleanupEntry(catalog_entry)]: the parent link is dereferenced first. *)
Definition CleanupEntry (r : EntryRef) : M unit :=
  match Parent r with
  | None => crash NullDereference
  | Some parent =>
      DropEntry_map r ;;
      let* s := get in
      match resolve (map s) parent with
      | None => crash DanglingReference
      | Some p =>
          if deleted (entry p) && negb (HasChild p) && negb (HasParent parent)
          then DropEntry_map parent
          else ret tt
      end
  end.

(** What the untransacted [Scan] does for one chain. *)
Definition Scan_chain {S : Type} (callback : CatalogEntry -> S -> S)
    (acc : S) (head : Node) : S :=
  let commited_entry := GetCommittedEntry head in
  if negb (deleted (entry commited_entry)) then callback (entry commited_entry) acc
  else acc.

(** [Scan(callback)]: every chain of the directory, in the order the
    directory enumerates them. *)
Definition Scan {S : Type} (callback : CatalogEntry -> S -> S) (acc : S)
    (s : CatalogSet) : S :=
  fold_left (fun acc kv => Scan_chain callback acc (snd kv)) (map_to_list (map s)) acc.

(** ** The rules as the specification words them *)

(** "A version is visible if its timestamp equals [snapshot.transaction_id]
    (self-authored) or is committed strictly before [snapshot.start_time]";
    the code's own comment reads [timestamp < start_time] as "committed
    before we started the transaction". *)
Definition visible (tx : CatalogTransaction) (e : CatalogEntry) : bool :=
  (timestamp e =? transaction_id tx) || (timestamp e <? start_time tx).

(** "Walk from head toward older versions; stop walking at the first
    visible version." *)
Definition GetVisible (tx : CatalogTransaction) (chain : list CatalogEntry)
    : option CatalogEntry :=
  List.find (visible tx) chain.

(** "If that version is a tombstone, the name is absent to this snapshot";
    otherwise the version is the answer. *)
Definition GetEntry_as_specified (tx : CatalogTransaction)
    (chain : list CatalogEntry) : option CatalogEntry :=
  match GetVisible tx chain with
  | Some v => if deleted v then None else Some v
  | None => None
  end.

(** The first version of [chain] that satisfies [p], and the oldest version
    of the chain when none does: where the two walks of the code stop. *)
Definition first_or_oldest (p : CatalogEntry -> bool) (chain : list CatalogEntry)
    : option CatalogEntry :=
  match List.find p chain with
  | Some v => Some v
  | None => last chain
  end.

(** "A committed timestamp": below the threshold. *)
Definition committed (e : CatalogEntry) : bool :=
  timestamp e <? TRANSACTION_ID_START.

(** "Visits, per chain, the newest version with a committed timestamp that
    is non-deleted", and nothing for a chain that has no such version. *)
Definition Scan_chain_as_specified {S : Type} (callback : CatalogEntry -> S -> S)
    (acc : S) (chain : list CatalogEntry) : S :=
  match List.find committed chain with
  | Some v => if deleted v then acc else callback v acc
  | None => acc
  end.

(** The same with the walk of the code, which ends at the oldest version. *)
Definition Scan_chain_resolved {S : Type} (callback : CatalogEntry -> S -> S)
    (acc : S) (chain : list CatalogEntry) : S :=
  match first_or_oldest committed chain with
  | Some v => if deleted v then acc else callback v acc
  | None => acc
  end.

(** "[HasConflict] is true iff [ts] is transaction-local and differs from
    [snapshot.transaction_id], or [ts] is committed and greater than
    [snapshot.start_time]." *)
Definition conflict_as_specified (tx : CatalogTransaction) (ts : transaction_t) : Prop :=
  (TRANSACTION_ID_START <= ts /\ ts <> transaction_id tx)
  \/ (ts < TRANSACTION_ID_START /\ start_time tx < ts).

(** The three conditions under which, by the specification, [CreateEntry]
    raises an invariant violation. *)
Definition invariant_violation_as_specified (cat : DuckCatalog)
    (entry_name : string) (value : CatalogEntry) : bool :=
  (internal value && negb (IsSystemCatalog cat)
   && negb (String.eqb entry_name DEFAULT_SCHEMA))
  || (negb (internal value) && negb (temporary value) && IsSystemCatalog cat
      && negb (IsDependencyEntry value))
  || (temporary value && negb (IsTemporaryCatalog cat)).

(** The conditions of the code: the third one only concerns candidates
    that are not internal, and a fourth check raises an invalid-input
    error. *)
Definition invariant_violation (cat : DuckCatalog) (entry_name : string)
    (value : CatalogEntry) : bool :=
  (internal value && negb (IsSystemCatalog cat)
   && negb (String.eqb entry_name DEFAULT_SCHEMA))
  || (negb (internal value) && negb (temporary value) && IsSystemCatalog cat
      && negb (IsDependencyEntry value))
  || (negb (internal value) && temporary value && negb (IsTemporaryCatalog cat)).

Definition invalid_input (cat : DuckCatalog) (entry_name : string)
    (value : CatalogEntry) : bool :=
  negb (internal value) && negb (temporary value) && IsTemporaryCatalog cat
  && negb (String.eqb entry_name DEFAULT_SCHEMA).

(** What the default generator yields for a name and a snapshot. *)
Definition default_for (s : CatalogSet) (tx : CatalogTransaction)
    (entry_name : string) : option CatalogEntry :=
  match defaults s with
  | None => None
  | Some g =>
      if created_all_entries g then None
      else if negb (context tx) then None
      else default_entry g entry_name
  end.

(** The placeholder at the bottom of a chain that [CreateEntry] starts. *)
Definition placeholder (entry_name : string) : CatalogEntry :=
  set_deleted true (set_timestamp 0 (InCatalogEntry INVALID entry_name)).

Definition with_calls (c : list CollaboratorCall) (s : CatalogSet) : CatalogSet :=
  {| catalog := catalog s; defaults := defaults s; map := map s;
     undo_buffer := undo_buffer s; calls := c |}.

Definition with_undo_buffer (u : list UndoRecord) (s : CatalogSet) : CatalogSet :=
  {| catalog := catalog s; defaults := defaults s; map := map s;
     undo_buffer := u; calls := calls s |}.

(** The set after [CreateEntry] told the dependency manager of the
    candidate. *)
Definition announced (tx : CatalogTransaction) (value : CatalogEntry)
    (s : CatalogSet) : CatalogSet :=
  with_calls (calls s ++ [Call_AddObject (set_timestamp (transaction_id tx) value)]) s.

(** The set after [value] was published on top of [below] under the key
    [key], the superseded head being pushed to the undo log when the
    snapshot carries an active transaction. *)
Definition published (tx : CatalogTransaction) (key : string)
    (value : CatalogEntry) (below : Node) (payload : bool) (s : CatalogSet)
    : CatalogSet :=
  {| catalog := catalog s; defaults := defaults s;
     map := <[key := mkNode value (Some below)]> (map s);
     undo_buffer := if transaction tx
                    then undo_buffer s ++ [mkUndo (entry below) payload]
                    else undo_buffer s;
     calls := calls s |}.

(** No operation replaces the catalog or the default generator. *)
Definition preserves_env {A} (c : M A) : Prop :=
  forall s, catalog (snd (c s)) = catalog s /\ defaults (snd (c s)) = defaults s.

(** ** Instances *)

(** The values of DuckDB for the two constants, a dependency manager that
    never objects, three catalogs and a few snapshots, objects and sets. *)
Definition duckdb_TRANSACTION_ID_START : transaction_t := 4611686018427388000.
Definition duckdb_DEFAULT_SCHEMA : string := "main".

Definition quiet_manager : DependencyManager :=
  mkDependencyManager (fun _ _ _ => None) (fun _ _ _ => None) (fun _ _ _ => None).
Definition main_catalog : DuckCatalog := mkCatalog false false quiet_manager.
Definition temp_catalog : DuckCatalog := mkCatalog false true quiet_manager.
Definition system_catalog : DuckCatalog := mkCatalog true false quiet_manager.

Definition table (n : string) (id : N) (ts : transaction_t) : CatalogEntry :=
  mkEntry n TABLE_ENTRY id false false false ts.
Definition tombstone (n : string) (ts : transaction_t) : CatalogEntry :=
  mkEntry n DELETED_ENTRY 0 false false true ts.

(** Two live transactions, started at 7 and at 9, and the system snapshot,
    which has neither a transaction nor a session context. *)
Definition tx7 : CatalogTransaction :=
  mkTransaction (duckdb_TRANSACTION_ID_START + 1) 7 true true.
Definition tx9 : CatalogTransaction :=
  mkTransaction (duckdb_TRANSACTION_ID_START + 2) 9 true true.
Definition system_snapshot : CatalogTransaction := mkTransaction 1 1 false false.

Definition set_of (cat : DuckCatalog) (m : gmap string Node) : CatalogSet :=
  mkSet cat None m [] [].

Definition empty_main : CatalogSet := set_of main_catalog ∅.
Definition empty_temp : CatalogSet := set_of temp_catalog ∅.
Definition empty_system : CatalogSet := set_of system_catalog ∅.

(** "t1" was committed at 5 and the placeholder cleaned up since. *)
Definition committed_t1 : Node := mkNode (table "t1" 1 5) None.
Definition set_committed_t1 : CatalogSet :=
  set_of main_catalog {[ "t1" := committed_t1 ]}.

(** "t1" altered at 10 over the version committed at 5. *)
Definition altered_t1 : Node :=
  mkNode (table "t1" 2 10)
    (Some (mkNode (table "t1" 1 5) (Some (mkNode (placeholder "t1") None)))).
Definition set_altered_t1 : CatalogSet :=
  set_of main_catalog {[ "t1" := altered_t1 ]}.

(** An uncommitted version alone in its chain. *)
Definition uncommitted_t1 : Node :=
  mkNode (table "t1" 1 (duckdb_TRANSACTION_ID_START + 1)) None.
Definition set_uncommitted_t1 : CatalogSet :=
  set_of main_catalog {[ "t1" := uncommitted_t1 ]}.

(** "t1", committed at 5, was dropped by a transaction that committed
    at 10. *)
Definition dropped_at_10_t1 : Node :=
  mkNode (tombstone "t1" 10)
    (Some (mkNode (table "t1" 1 5) (Some (mkNode (placeholder "t1") None)))).
Definition set_dropped_at_10_t1 : CatalogSet :=
  set_of main_catalog {[ "t1" := dropped_at_10_t1 ]}.

(** "t1", committed at 5, was dropped by the transaction started at 7,
    which has not committed. *)
Definition dropped_t1 : Node :=
  mkNode (tombstone "t1" (duckdb_TRANSACTION_ID_START + 1))
    (Some (mkNode (table "t1" 1 5) (Some (mkNode (placeholder "t1") None)))).
Definition set_dropped_t1 : CatalogSet :=
  set_of main_catalog {[ "t1" := dropped_t1 ]}.

(** The same name created and dropped by the transaction started at 7. *)
Definition recreated_t1 : Node :=
  mkNode (tombstone "t1" (duckdb_TRANSACTION_ID_START + 1))
    (Some (mkNode (table "t1" 1 (duckdb_TRANSACTION_ID_START + 1))
             (Some (mkNode (placeholder "t1") None)))).
Definition set_recreated_t1 : CatalogSet :=
  set_of main_catalog {[ "t1" := recreated_t1 ]}.

(** "t1" created by the transaction of id [TRANSACTION_ID_START + 1], not
    committed. *)
Definition created_t1 : Node :=
  mkNode (table "t1" 1 (duckdb_TRANSACTION_ID_START + 1))
    (Some (mkNode (placeholder "t1") None)).
Definition set_created_t1 : CatalogSet :=
  mkSet main_catalog None {[ "t1" := created_t1 ]}
    [mkUndo (placeholder "t1") false]
    [Call_AddObject (table "t1" 1 (duckdb_TRANSACTION_ID_START + 1))].

(** Two committed tables, "a" and "b". *)
Definition set_a_b : CatalogSet :=
  set_of main_catalog
    {[ "a" := mkNode (table "a" 1 5) (Some (mkNode (placeholder "a") None));
       "b" := mkNode (table "b" 2 6) (Some (mkNode (placeholder "b") None)) ]}.

Definition rename_to (n : string) : AlterInfo :=
  mkAlterInfo false
    (fun e => Ret (Some (mkEntry n (type e) (oid e) (internal e) (temporary e)
                           (deleted e) (timestamp e)))).
Definition declined_alter : AlterInfo := mkAlterInfo false (fun _ => Ret None).

(** A set whose default generator knows the macro "x". *)
Definition default_x : CatalogEntry := mkEntry "x" MACRO_ENTRY 9 true false false 0.
Definition defaults_x : DefaultGenerator :=
  mkDefaults false (fun n => if String.eqb (Lower n) "x" then Some default_x else None).
Definition set_with_default_x : CatalogSet :=
  mkSet main_catalog (Some defaults_x) ∅ [] [].

(** ** Committing, and the invariant of the directory *)

(** The chain [n] with the timestamp of the node at depth [d] set to [ts]. *)
Fixpoint set_timestamp_at (d : nat) (ts : transaction_t) (n : Node) : Node :=
  match n with
  | mkNode e c =>
      match d with
      | O => mkNode (set_timestamp ts e) c
      | S d' =>
          match c with
          | Some c' => mkNode e (Some (set_timestamp_at d' ts c'))
          | None => n
          end
      end
  end.

(** [UpdateTimestamp(entry, timestamp)]: [entry.timestamp = timestamp]. *)
Definition UpdateTimestamp (r : EntryRef) (ts : transaction_t) : M unit :=
  let* s := get in
  match map s !! ref_key r with
  | Some head =>
      match node_at (ref_depth r) head with
      | Some _ => put_map (<[ref_key r := set_timestamp_at (ref_depth r) ts head]> (map s))
      | None => crash DanglingReference
      end
  | None => crash DanglingReference
  end.

(** What the [D_ASSERT]s of [GetEntry], [Undo] and [DropEntry] state: every
    version of a chain carries, up to case, the name the chain is stored
    under. *)
Definition chain_named (key : string) (n : Node) : Prop :=
  Forall (fun e => Lower (name e) = key) (versions n).

Definition directory_named (m : gmap string Node) : Prop :=
  forall key head, m !! key = Some head -> chain_named key head.

Definition preserves_names {A} (c : M A) : Prop :=
  forall s, directory_named (map s) -> directory_named (map (snd (c s))).

(** "t1" committed at 5, above its placeholder. *)
Definition live_t1 : Node :=
  mkNode (table "t1" 1 5) (Some (mkNode (placeholder "t1") None)).
Definition set_live_t1 : CatalogSet := set_of main_catalog {[ "t1" := live_t1 ]}.

(** An alter request that the object answers under the same name. *)
Definition renumber : AlterInfo :=
  mkAlterInfo false
    (fun e => Ret (Some (mkEntry (name e) (type e) (oid e + 1) (internal e)
                           (temporary e) (deleted e) (timestamp e)))).

(** An internal macro "f", and a request to rename it that allows internal
    entries. *)
Definition internal_f : Node := mkNode (mkEntry "f" MACRO_ENTRY 1 true false false 0) None.
Definition set_internal_f : CatalogSet := set_of system_catalog {[ "f" := internal_f ]}.
Definition rename_internal_to (n : string) : AlterInfo :=
  mkAlterInfo true
    (fun e => Ret (Some (mkEntry n (type e) (oid e) (internal e) (temporary e)
                           (deleted e) (timestamp e)))).

(** A dependency manager that refuses every drop, and "t1" under it. *)
Definition refusing_manager : DependencyManager :=
  mkDependencyManager (fun _ _ _ => None) (fun _ _ _ => None)
    (fun _ _ _ => Some Collaborator_Raised).
Definition set_guarded_t1 : CatalogSet :=
  set_of (mkCatalog false false refusing_manager) {[ "t1" := live_t1 ]}.
(** A transaction that started at 6, before the commit at 8. *)
Definition tx6 : CatalogTransaction :=
  mkTransaction (duckdb_TRANSACTION_ID_START + 3) 6 true true.

(** ** Running the monad *)

Lemma run_ret {A B} (a : A) (k : A -> M B) (s : CatalogSet) :
  (let* x := ret a in k x) s = k a s.
Proof. reflexivity. Qed.

Lemma run_get {B} (k : CatalogSet -> M B) (s : CatalogSet) :
  (let* x := get in k x) s = k s s.
Proof. reflexivity. Qed.

Lemma run_throw {A B} (e : Exception) (k : A -> M B) (s : CatalogSet) :
  (let* x := throw e in k x) s = (Throw e, s).
Proof. reflexivity. Qed.

Lemma run_crash {A B} (f : Fault) (k : A -> M B) (s : CatalogSet) :
  (let* x := crash f in k x) s = (Crash f, s).
Proof. reflexivity. Qed.

Lemma run_call {B} (c : CollaboratorCall) (k : unit -> M B) (s : CatalogSet) :
  (let* x := call c in k x) s = k tt (with_calls (calls s ++ [c]) s).
Proof. reflexivity. Qed.

Lemma run_put_map {B} (m : gmap string Node) (k : unit -> M B) (s : CatalogSet) :
  (let* x := put_map m in k x) s = k tt (with_map m s).
Proof. reflexivity. Qed.

Lemma run_push {B} (n : Node) (payload : bool) (k : unit -> M B) (s : CatalogSet) :
  (let* x := PushCatalogEntry n payload in k x) s
  = k tt (with_undo_buffer (undo_buffer s ++ [mkUndo (entry n) payload]) s).
Proof. reflexivity. Qed.

Lemma run_answer {A B} (o : Outcome A) (k : A -> M B) (s : CatalogSet) :
  (let* x := answer o in k x) s
  = match o with
    | Ret a => k a s
    | Throw e => (Throw e, s)
    | Crash f => (Crash f, s)
    | OutOfFuel => (OutOfFuel, s)
    end.
Proof. unfold bind, answer. destruct o; reflexivity. Qed.

Lemma run_assoc {A B C} (c : M A) (k : A -> M B) (h : B -> M C) (s : CatalogSet) :
  (let* y := (let* x := c in k x) in h y) s = (let* x := c in let* y := k x in h y) s.
Proof. unfold bind. destruct (c s) as [[a|e|f|] s']; reflexivity. Qed.

Lemma with_map_fields (m : gmap string Node) (s : CatalogSet) :
  catalog (with_map m s) = catalog s /\ defaults (with_map m s) = defaults s
  /\ map (with_map m s) = m /\ undo_buffer (with_map m s) = undo_buffer s
  /\ calls (with_map m s) = calls s.
Proof. repeat split. Qed.

Create Rewrite HintDb run.
Hint Rewrite @run_ret @run_get @run_throw @run_crash @run_call @run_put_map
  @run_push : run.

Ltac run := repeat (autorewrite with run; cbn [may_raise map catalog defaults
  undo_buffer calls with_map with_calls with_undo_buffer]).

(** ** Chains *)

Lemma versions_head (n : Node) : exists rest, versions n = entry n :: rest.
Proof. destruct n as [e [c|]]; simpl; eauto. Qed.

Lemma visible_UseTimestamp (tx : CatalogTransaction) (e : CatalogEntry) :
  visible tx e = UseTimestamp tx (timestamp e).
Proof.
  unfold visible, UseTimestamp.
  destruct (timestamp e =? transaction_id tx); [reflexivity|].
  destruct (timestamp e <? start_time tx); reflexivity.
Qed.

(** For a snapshot whose start time is itself a committed timestamp, a
    timestamp before the start time is a committed one. *)
Lemma visible_committed_before (tx : CatalogTransaction) (e : CatalogEntry) :
  start_time tx <= TRANSACTION_ID_START ->
  visible tx e
  = orb (timestamp e =? transaction_id tx)
        (andb (committed e) (timestamp e <? start_time tx)).
Proof.
  intros Hstart. unfold visible, committed.
  destruct (timestamp e <? start_time tx) eqn:Hbefore;
    [|rewrite andb_false_r; reflexivity].
  apply N.ltb_lt in Hbefore.
  assert (Hc : (timestamp e <? TRANSACTION_ID_START) = true)
    by (apply N.ltb_lt; eapply N.lt_le_trans; eassumption).
  rewrite Hc. reflexivity.
Qed.

Lemma last_versions_cons (e : CatalogEntry) (c : Node) :
  last (e :: versions c) = last (versions c).
Proof. destruct (versions_head c) as [rest ->]. reflexivity. Qed.

Lemma GetEntryForTransaction_first_or_oldest (tx : CatalogTransaction) (n : Node) :
  first_or_oldest (visible tx) (versions n) = Some (entry (GetEntryForTransaction tx n)).
Proof.
  induction n as [e|e c IH] using Node_chain_ind; unfold first_or_oldest in *; simpl.
  - rewrite visible_UseTimestamp. destruct (UseTimestamp tx (timestamp e)); reflexivity.
  - rewrite visible_UseTimestamp.
    destruct (UseTimestamp tx (timestamp e)); [reflexivity|].
    rewrite last_versions_cons. exact IH.
Qed.

Lemma GetCommittedEntry_first_or_oldest (n : Node) :
  first_or_oldest committed (versions n) = Some (entry (GetCommittedEntry n)).
Proof.
  induction n as [e|e c IH] using Node_chain_ind; unfold first_or_oldest, committed in *; simpl.
  - destruct (timestamp e <? TRANSACTION_ID_START); reflexivity.
  - destruct (timestamp e <? TRANSACTION_ID_START); [reflexivity|].
    rewrite last_versions_cons. exact IH.
Qed.

Lemma Scan_chain_resolves {S : Type} (callback : CatalogEntry -> S -> S)
    (acc : S) (head : Node) :
  Scan_chain callback acc head = Scan_chain_resolved callback acc (versions head).
Proof.
  unfold Scan_chain, Scan_chain_resolved.
  rewrite GetCommittedEntry_first_or_oldest.
  destruct (deleted (entry (GetCommittedEntry head))); reflexivity.
Qed.

(** ** Reading a name *)

Lemma GetEntry_found (fuel : nat) (tx : CatalogTransaction) (entry_name : string)
    (s : CatalogSet) (head : Node) :
  map_GetEntry (map s) entry_name = Some head ->
  GetEntry (S fuel) tx entry_name s =
    (Ret (if deleted (entry (GetEntryForTransaction tx head)) then None
          else Some (entry (GetEntryForTransaction tx head))), s).
Proof.
  intros Hhead. simpl. unfold bind, get. rewrite Hhead.
  destruct (deleted (entry (GetEntryForTransaction tx head))); reflexivity.
Qed.

(** C1, as amended.  [GetEntry] on a name that has a chain walks from the
    head toward older versions and stops at the first version whose
    timestamp is the snapshot's [transaction_id] or lies strictly before
    its [start_time], or at the oldest version of the chain when no version
    is visible; it answers absent when the version it stops at is a
    tombstone and that version otherwise, and it leaves the set as it was.
    A newer version that the snapshot cannot see, put on top of the chain,
    does not change the answer. *)
Theorem GetEntry_resolves_first_visible_or_oldest
    (fuel : nat) (tx : CatalogTransaction) (entry_name : string)
    (s : CatalogSet) (head : Node) :
  map_GetEntry (map s) entry_name = Some head ->
  exists stop,
    first_or_oldest (visible tx) (versions head) = Some stop
    /\ GetEntry (S fuel) tx entry_name s =
         (Ret (if deleted stop then None else Some stop), s)
    /\ forall newer s',
         visible tx newer = false ->
         map_GetEntry (map s') entry_name = Some (mkNode newer (Some head)) ->
         GetEntry (S fuel) tx entry_name s' =
           (Ret (if deleted stop then None else Some stop), s').
Proof.
  intros Hhead. exists (entry (GetEntryForTransaction tx head)).
  split; [apply GetEntryForTransaction_first_or_oldest|].
  split; [apply GetEntry_found; exact Hhead|].
  intros newer s' Hnew Hhead'.
  rewrite (GetEntry_found _ _ _ _ _ Hhead'). simpl.
  rewrite <- visible_UseTimestamp, Hnew. reflexivity.
Qed.

(** ** Scanning without a snapshot *)

Lemma fold_left_ext_in {A B : Type} (f g : A -> B -> A) (l : list B) (a : A) :
  (forall a b, f a b = g a b) -> fold_left f l a = fold_left g l a.
Proof.
  intros Hfg. revert a. induction l as [|b l IH]; intros a; simpl; [reflexivity|].
  rewrite Hfg. apply IH.
Qed.

(** C8, as amended.  For every chain of the set the untransacted [Scan]
    walks from the head to the newest version with a committed timestamp,
    or to the oldest version of the chain when no version is committed, and
    invokes the visitor on the version it reaches exactly when that version
    is not deleted. *)
Theorem Scan_visits_newest_committed_or_oldest {S : Type}
    (callback : CatalogEntry -> S -> S) (acc : S) (s : CatalogSet) :
  Scan callback acc s =
    fold_left (fun acc kv => Scan_chain_resolved callback acc (versions (snd kv)))
      (map_to_list (map s)) acc.
Proof.
  unfold Scan. apply fold_left_ext_in.
  intros a kv. apply Scan_chain_resolves.
Qed.

(** ** The conflict rule and the checks of [CreateEntry] *)

Lemma HasConflict_iff (tx : CatalogTransaction) (ts : transaction_t) :
  HasConflict tx ts = true <-> conflict_as_specified tx ts.
Proof.
  unfold HasConflict, conflict_as_specified.
  rewrite orb_true_iff, !andb_true_iff, negb_true_iff.
  rewrite N.leb_le, !N.ltb_lt, N.eqb_neq. reflexivity.
Qed.

Lemma CreateEntry_rejects (fuel : nat) (tx : CatalogTransaction)
    (entry_name : string) (value : CatalogEntry) (deps : list string)
    (s : CatalogSet) (e : Exception) :
  CreateEntry_validate (catalog s) entry_name value = Some e ->
  CreateEntry fuel tx entry_name value deps s = (Throw e, s).
Proof.
  intros Hv. unfold CreateEntry, bind, get. rewrite Hv. reflexivity.
Qed.

(** C7, as amended.  The checks at the top of [CreateEntry] raise an
    internal (invariant-violation) exception exactly when the candidate is
    internal, the catalog is not the system catalog and the name is not the
    default schema; or the candidate is neither internal nor temporary, the
    catalog is the system catalog and the candidate is not a dependency
    bookkeeping object; or the candidate is temporary and not internal and
    the catalog is not a temporary catalog.  When none of these holds and
    the candidate is neither internal nor temporary, the catalog is a
    temporary catalog and the name is not the default schema, they raise an
    invalid-input exception.  In every other case they pass.  An exception
    of the checks leaves the set untouched. *)
Theorem CreateEntry_validation_cases (fuel : nat) (tx : CatalogTransaction)
    (entry_name : string) (value : CatalogEntry) (deps : list string)
    (s : CatalogSet) :
  match CreateEntry_validate (catalog s) entry_name value with
  | Some e =>
      CreateEntry fuel tx entry_name value deps s = (Throw e, s)
      /\ ((exception_class e = InternalException
           /\ invariant_violation (catalog s) entry_name value = true)
          \/ (exception_class e = InvalidInputException
              /\ invariant_violation (catalog s) entry_name value = false
              /\ invalid_input (catalog s) entry_name value = true))
  | None =>
      invariant_violation (catalog s) entry_name value = false
      /\ invalid_input (catalog s) entry_name value = false
  end.
Proof.
  destruct (CreateEntry_validate (catalog s) entry_name value) as [e|] eqn:Hv.
  - split; [apply CreateEntry_rejects; exact Hv|].
    revert Hv. unfold CreateEntry_validate, invariant_violation, invalid_input.
    destruct (internal value), (temporary value), (IsSystemCatalog (catalog s)),
      (IsTemporaryCatalog (catalog s)), (IsDependencyEntry value),
      (String.eqb entry_name DEFAULT_SCHEMA); simpl;
      intros Hv; inversion Hv; subst; simpl; auto.
  - revert Hv. unfold CreateEntry_validate, invariant_violation, invalid_input.
    destruct (internal value), (temporary value), (IsSystemCatalog (catalog s)),
      (IsTemporaryCatalog (catalog s)), (IsDependencyEntry value),
      (String.eqb entry_name DEFAULT_SCHEMA); simpl;
      intros Hv; inversion Hv; auto.
Qed.

(** ** Creating over an existing chain *)

Lemma publish_on_chain (tx : CatalogTransaction) (value : CatalogEntry)
    (below : Node) (payload : bool) (s : CatalogSet) :
  map_GetEntry (map s) (name value) = Some below ->
  (UpdateEntry value ;;
   (if transaction tx then PushChildOfHead value payload else ret tt) ;;
   ret true) s
  = (Ret true, published tx (Lower (name value)) value below payload s).
Proof.
  intros Hbelow. unfold UpdateEntry, PushChildOfHead, published.
  rewrite run_assoc. run. rewrite Hbelow. run.
  destruct (transaction tx); run; [|reflexivity].
  rewrite run_assoc. run. unfold map_GetEntry. rewrite lookup_insert_eq. simpl.
  run. reflexivity.
Qed.

Lemma CreateEntry_on_chain (fuel : nat) (tx : CatalogTransaction)
    (entry_name : string) (value : CatalogEntry) (deps : list string)
    (s : CatalogSet) (current : Node) :
  CreateEntry_validate (catalog s) entry_name value = None ->
  AddObject (GetDependencyManager (catalog s)) tx
    (set_timestamp (transaction_id tx) value) deps = None ->
  map_GetEntry (map s) entry_name = Some current ->
  Lower (name value) = Lower entry_name ->
  CreateEntry fuel tx entry_name value deps s =
    if HasConflict tx (timestamp (entry current))
    then (Throw Transaction_ConflictOnCreate, announced tx value s)
    else if negb (deleted (entry current))
    then (Ret false, announced tx value s)
    else (Ret true,
          published tx (Lower entry_name) (set_timestamp (transaction_id tx) value)
            current false (announced tx value s)).
Proof.
  intros Hv Hadd Hcur Hname.
  unfold CreateEntry. run. rewrite Hv. run. rewrite Hadd. run. rewrite Hcur.
  fold (announced tx value s).
  destruct (HasConflict tx (timestamp (entry current))); [reflexivity|].
  destruct (deleted (entry current)); [|reflexivity]. cbn [negb].
  rewrite <- Hname.
  apply (publish_on_chain tx (set_timestamp (transaction_id tx) value) current false
           (announced tx value s)).
  unfold map_GetEntry in *. simpl. rewrite Hname. exact Hcur.
Qed.

(** ** The environment of the set *)

Lemma env_ret {A} (a : A) : preserves_env (ret a).
Proof. intros s. split; reflexivity. Qed.
Lemma env_throw {A} (e : Exception) : preserves_env (@throw A e).
Proof. intros s. split; reflexivity. Qed.
Lemma env_crash {A} (f : Fault) : preserves_env (@crash A f).
Proof. intros s. split; reflexivity. Qed.
Lemma env_out_of_fuel {A} : preserves_env (@out_of_fuel A).
Proof. intros s. split; reflexivity. Qed.
Lemma env_get : preserves_env get.
Proof. intros s. split; reflexivity. Qed.
Lemma env_put_map (m : gmap string Node) : preserves_env (put_map m).
Proof. intros s. split; reflexivity. Qed.
Lemma env_call (c : CollaboratorCall) : preserves_env (call c).
Proof. intros s. split; reflexivity. Qed.
Lemma env_push (n : Node) (b : bool) : preserves_env (PushCatalogEntry n b).
Proof. intros s. split; reflexivity. Qed.
Lemma env_answer {A} (o : Outcome A) : preserves_env (answer o).
Proof. intros s. split; reflexivity. Qed.
Lemma env_may_raise (r : option Exception) : preserves_env (may_raise r).
Proof. destruct r; intros s; split; reflexivity. Qed.

Lemma env_bind {A B} (c : M A) (k : A -> M B) :
  preserves_env c -> (forall a, preserves_env (k a)) -> preserves_env (bind c k).
Proof.
  intros Hc Hk s. unfold bind. specialize (Hc s).
  destruct (c s) as [[a|e|f|] s']; simpl in *; try exact Hc.
  destruct (Hk a s') as [H1 H2]. destruct Hc as [H3 H4]. split; congruence.
Qed.

Create HintDb env.
Hint Resolve env_ret env_throw env_crash env_out_of_fuel env_get env_put_map
  env_call env_push env_answer env_may_raise : env.

Ltac env :=
  repeat first
    [ solve [auto with env]
    | apply env_bind; [|intros ?]
    | match goal with
      | |- preserves_env (match ?x with _ => _ end) => destruct x
      | |- preserves_env (let _ := _ in _) => cbv zeta
      end ].

Lemma env_AddEntry (e : CatalogEntry) : preserves_env (AddEntry e).
Proof. unfold AddEntry. env. Qed.
Lemma env_UpdateEntry (e : CatalogEntry) : preserves_env (UpdateEntry e).
Proof. unfold UpdateEntry. env. Qed.
Lemma env_PushChildOfHead (e : CatalogEntry) (b : bool) :
  preserves_env (PushChildOfHead e b).
Proof. unfold PushChildOfHead. env. Qed.
Hint Resolve env_AddEntry env_UpdateEntry env_PushChildOfHead : env.

Lemma env_CreateEntryInternal (tx : CatalogTransaction) (e : CatalogEntry) :
  preserves_env (CreateEntryInternal tx e).
Proof. unfold CreateEntryInternal. env. Qed.
Hint Resolve env_CreateEntryInternal : env.

Lemma env_CreateDefaultEntry (retry : M (option CatalogEntry))
    (tx : CatalogTransaction) (entry_name : string) :
  preserves_env retry -> preserves_env (CreateDefaultEntry retry tx entry_name).
Proof. intros Hretry. unfold CreateDefaultEntry. env. Qed.

Lemma env_GetEntry (fuel : nat) (tx : CatalogTransaction) (entry_name : string) :
  preserves_env (GetEntry fuel tx entry_name).
Proof.
  induction fuel as [|fuel IH]; simpl; [auto with env|].
  pose proof (env_CreateDefaultEntry _ tx entry_name IH). env.
Qed.
Hint Resolve env_GetEntry env_CreateDefaultEntry : env.

Lemma env_CreateEntry (fuel : nat) (tx : CatalogTransaction) (entry_name : string)
    (value : CatalogEntry) (deps : list string) :
  preserves_env (CreateEntry fuel tx entry_name value deps).
Proof. unfold CreateEntry. env. Qed.

(** ** Creating a name that has no chain *)

Lemma CreateDefaultEntry_declines (retry : M (option CatalogEntry))
    (tx : CatalogTransaction) (entry_name : string) (s : CatalogSet) :
  default_for s tx entry_name = None ->
  CreateDefaultEntry retry tx entry_name s = (Ret None, s).
Proof.
  unfold default_for, CreateDefaultEntry. run.
  destruct (defaults s) as [g|]; [|reflexivity].
  destruct (created_all_entries g); [reflexivity|].
  destruct (negb (context tx)); [reflexivity|].
  intros ->. reflexivity.
Qed.

Lemma CreateEntry_on_fresh_name (fuel : nat) (tx : CatalogTransaction)
    (entry_name : string) (value : CatalogEntry) (deps : list string)
    (s : CatalogSet) :
  CreateEntry_validate (catalog s) entry_name value = None ->
  AddObject (GetDependencyManager (catalog s)) tx
    (set_timestamp (transaction_id tx) value) deps = None ->
  map_GetEntry (map s) entry_name = None ->
  default_for s tx entry_name = None ->
  Lower (name value) = Lower entry_name ->
  CreateEntry fuel tx entry_name value deps s =
    (Ret true,
     published tx (Lower entry_name) (set_timestamp (transaction_id tx) value)
       (mkNode (placeholder entry_name) None) false (announced tx value s)).
Proof.
  intros Hv Hadd Hnone Hdef Hname.
  unfold CreateEntry. run. rewrite Hv. run. rewrite Hadd. run. rewrite Hnone.
  fold (announced tx value s).
  unfold bind at 1. rewrite CreateDefaultEntry_declines by exact Hdef.
  fold (placeholder entry_name).
  unfold AddEntry at 1. rewrite run_assoc. run.
  change (map_GetEntry (map (announced tx value s)) (name (placeholder entry_name)))
    with (map_GetEntry (map s) entry_name).
  rewrite Hnone. run.
  rewrite (publish_on_chain tx (set_timestamp (transaction_id tx) value)
             (mkNode (placeholder entry_name) None) false).
  - unfold published. cbn [map catalog defaults undo_buffer calls with_map name
      set_timestamp announced with_calls].
    rewrite Hname, insert_insert_eq. reflexivity.
  - unfold map_GetEntry. cbn [map with_map name set_timestamp].
    rewrite Hname. apply lookup_insert_eq.
Qed.

(** C4.  On a name with no chain for which the default generator yields
    nothing, [CreateEntry] returns true and leaves under the name the chain
    made of the candidate, stamped with the snapshot's [transaction_id],
    above a placeholder tombstone with timestamp 0 and [deleted = true];
    every snapshot that cannot see the candidate's timestamp is resolved to
    the placeholder and reads the name as absent. *)
Theorem CreateEntry_inserts_placeholder_tombstone (fuel : nat)
    (tx : CatalogTransaction) (entry_name : string) (value : CatalogEntry)
    (deps : list string) (s : CatalogSet) :
  CreateEntry_validate (catalog s) entry_name value = None ->
  AddObject (GetDependencyManager (catalog s)) tx
    (set_timestamp (transaction_id tx) value) deps = None ->
  map_GetEntry (map s) entry_name = None ->
  default_for s tx entry_name = None ->
  Lower (name value) = Lower entry_name ->
  exists s' dummy_node,
    CreateEntry fuel tx entry_name value deps s = (Ret true, s')
    /\ map_GetEntry (map s') entry_name =
         Some (mkNode (set_timestamp (transaction_id tx) value)
                 (Some (mkNode dummy_node None)))
    /\ timestamp dummy_node = 0 /\ deleted dummy_node = true
    /\ type dummy_node = INVALID
    /\ forall fuel' tx',
         visible tx' (set_timestamp (transaction_id tx) value) = false ->
         (forall head, map_GetEntry (map s') entry_name = Some head ->
                       GetEntryForTransaction tx' head = mkNode dummy_node None)
         /\ GetEntry (S fuel') tx' entry_name s' = (Ret None, s').
Proof.
  intros Hv Hadd Hnone Hdef Hname.
  eexists. exists (placeholder entry_name).
  split; [apply CreateEntry_on_fresh_name; assumption|].
  assert (Hhead : map_GetEntry
            (map (published tx (Lower entry_name)
                    (set_timestamp (transaction_id tx) value)
                    (mkNode (placeholder entry_name) None) false
                    (announced tx value s))) entry_name
          = Some (mkNode (set_timestamp (transaction_id tx) value)
                    (Some (mkNode (placeholder entry_name) None)))).
  { unfold map_GetEntry, published. cbn [map]. apply lookup_insert_eq. }
  split; [exact Hhead|].
  repeat split; try reflexivity.
  - intros head Hhead'. rewrite Hhead in Hhead'. inversion Hhead'; subst head.
    cbn [GetEntryForTransaction]. rewrite <- visible_UseTimestamp, H. reflexivity.
  - rewrite (GetEntry_found _ _ _ _ _ Hhead). cbn [GetEntryForTransaction].
    rewrite <- visible_UseTimestamp, H. reflexivity.
Qed.

(** ** The conflict check in create, alter and drop *)

Lemma CreateEntry_checks_head (fuel : nat) (tx : CatalogTransaction)
    (entry_name : string) (value : CatalogEntry) (deps : list string)
    (s : CatalogSet) (current : Node) :
  CreateEntry_validate (catalog s) entry_name value = None ->
  AddObject (GetDependencyManager (catalog s)) tx
    (set_timestamp (transaction_id tx) value) deps = None ->
  map_GetEntry (map s) entry_name = Some current ->
  HasConflict tx (timestamp (entry current)) = true ->
  CreateEntry fuel tx entry_name value deps s =
    (Throw Transaction_ConflictOnCreate, announced tx value s).
Proof.
  intros Hv Hadd Hcur Hconflict.
  unfold CreateEntry. run. rewrite Hv. run. rewrite Hadd. run. rewrite Hcur.
  rewrite Hconflict. reflexivity.
Qed.

Lemma GetEntryInternal_found (tx : CatalogTransaction) (entry_name : string)
    (s : CatalogSet) (head : Node) :
  map_GetEntry (map s) entry_name = Some head ->
  GetEntryInternal tx entry_name s =
    if HasConflict tx (timestamp (entry head))
    then (Throw Transaction_ConflictOnAlter, s)
    else if deleted (entry head) then (Ret None, s)
    else (Ret (Some head), s).
Proof.
  intros Hhead. unfold GetEntryInternal, GetEntryInternal_entry. run. rewrite Hhead.
  destruct (HasConflict tx (timestamp (entry head))); [reflexivity|].
  destruct (deleted (entry head)); reflexivity.
Qed.

Lemma AlterEntry_conflict (fuel : nat) (tx : CatalogTransaction)
    (entry_name : string) (alter_info : AlterInfo) (s : CatalogSet) (head : Node) :
  map_GetEntry (map s) entry_name = Some head ->
  HasConflict tx (timestamp (entry head)) = true ->
  AlterEntry fuel tx entry_name alter_info s = (Throw Transaction_ConflictOnAlter, s).
Proof.
  intros Hhead Hconflict. unfold AlterEntry, bind.
  rewrite (GetEntryInternal_found _ _ _ _ Hhead), Hconflict. reflexivity.
Qed.

Lemma DropEntryInternal_found (tx : CatalogTransaction) (entry_name : string)
    (allow_drop_internal : bool) (tombstone_type : CatalogType)
    (s : CatalogSet) (head : Node) :
  map_GetEntry (map s) entry_name = Some head ->
  Lower (name (entry head)) = Lower entry_name ->
  DropEntryInternal tx entry_name allow_drop_internal tombstone_type s =
    if HasConflict tx (timestamp (entry head))
    then (Throw Transaction_ConflictOnAlter, s)
    else if deleted (entry head) then (Ret false, s)
    else if internal (entry head) && negb allow_drop_internal
    then (Throw Catalog_DropInternal, s)
    else (Ret true,
          published tx (Lower entry_name)
            (set_deleted true
               (set_timestamp (transaction_id tx)
                  (InCatalogEntry tombstone_type (name (entry head)))))
            head false s).
Proof.
  intros Hhead Hname. unfold DropEntryInternal. unfold bind at 1.
  rewrite (GetEntryInternal_found _ _ _ _ Hhead).
  destruct (HasConflict tx (timestamp (entry head))); [reflexivity|].
  destruct (deleted (entry head)); [reflexivity|].
  destruct (internal (entry head) && negb allow_drop_internal); [reflexivity|].
  rewrite <- Hname.
  apply (publish_on_chain tx
           (set_deleted true
              (set_timestamp (transaction_id tx)
                 (InCatalogEntry tombstone_type (name (entry head)))))
           head false s).
  unfold map_GetEntry in *. cbn [name set_deleted set_timestamp InCatalogEntry].
  rewrite Hname. exact Hhead.
Qed.

Lemma DropEntryInternal_conflict (tx : CatalogTransaction) (entry_name : string)
    (allow_drop_internal : bool) (tombstone_type : CatalogType)
    (s : CatalogSet) (head : Node) :
  map_GetEntry (map s) entry_name = Some head ->
  HasConflict tx (timestamp (entry head)) = true ->
  DropEntryInternal tx entry_name allow_drop_internal tombstone_type s =
    (Throw Transaction_ConflictOnAlter, s).
Proof.
  intros Hhead Hconflict. unfold DropEntryInternal, bind.
  rewrite (GetEntryInternal_found _ _ _ _ Hhead), Hconflict. reflexivity.
Qed.

Lemma DropDependencies_found (fuel : nat) (tx : CatalogTransaction)
    (entry_name : string) (cascade allow_drop_internal : bool)
    (s : CatalogSet) (head : Node) :
  map_GetEntry (map s) entry_name = Some head ->
  DropDependencies (S fuel) tx entry_name cascade allow_drop_internal s =
    let e := entry (GetEntryForTransaction tx head) in
    if deleted e then (Ret false, s)
    else if internal e && negb allow_drop_internal then (Throw Catalog_DropInternal, s)
    else match DropObject (GetDependencyManager (catalog s)) tx e cascade with
         | Some x => (Throw x, with_calls (calls s ++ [Call_DropObject e cascade]) s)
         | None => (Ret true, with_calls (calls s ++ [Call_DropObject e cascade]) s)
         end.
Proof.
  intros Hhead. unfold DropDependencies. unfold bind at 1.
  rewrite (GetEntry_found _ _ _ _ _ Hhead). cbv zeta.
  destruct (deleted (entry (GetEntryForTransaction tx head))); [reflexivity|].
  destruct (internal (entry (GetEntryForTransaction tx head)) && negb allow_drop_internal);
    [reflexivity|].
  run.
  destruct (DropObject (GetDependencyManager (catalog s)) tx
              (entry (GetEntryForTransaction tx head)) cascade); reflexivity.
Qed.

(** C2, as amended.  [HasConflict] holds exactly for a transaction-local
    timestamp other than the snapshot's own id and for a committed timestamp
    later than the snapshot's start time.  When the timestamp of the head of
    the chain is in conflict, [CreateEntry] (once its checks and the
    dependency manager let it through), [AlterEntry] and [DropEntryInternal]
    throw a transaction exception, the directory and the undo log being as
    before.  [DropEntry] resolves the name with the visibility rule first:
    it answers false, touching nothing, when the version it resolves to is
    a tombstone; it throws the catalog exception when that version is
    internal and may not be dropped, and passes on an exception of the
    dependency manager; otherwise it throws the transaction exception. *)
Theorem HasConflict_rule_and_abort :
  (forall tx ts, HasConflict tx ts = true <-> conflict_as_specified tx ts)
  /\ (forall fuel tx entry_name s head,
        map_GetEntry (map s) entry_name = Some head ->
        HasConflict tx (timestamp (entry head)) = true ->
        (forall value deps,
            CreateEntry_validate (catalog s) entry_name value = None ->
            AddObject (GetDependencyManager (catalog s)) tx
              (set_timestamp (transaction_id tx) value) deps = None ->
            exists s',
              CreateEntry fuel tx entry_name value deps s =
                (Throw Transaction_ConflictOnCreate, s')
              /\ map s' = map s /\ undo_buffer s' = undo_buffer s)
        /\ (forall alter_info,
               AlterEntry fuel tx entry_name alter_info s =
                 (Throw Transaction_ConflictOnAlter, s))
        /\ (forall allow_drop_internal tombstone_type,
               DropEntryInternal tx entry_name allow_drop_internal tombstone_type s =
                 (Throw Transaction_ConflictOnAlter, s))
        /\ (forall cascade allow_drop_internal,
               DropEntry (S fuel) tx entry_name cascade allow_drop_internal s =
                 let e := entry (GetEntryForTransaction tx head) in
                 if deleted e then (Ret false, s)
                 else if internal e && negb allow_drop_internal
                 then (Throw Catalog_DropInternal, s)
                 else
                   match DropObject (GetDependencyManager (catalog s)) tx e cascade with
                   | Some x =>
                       (Throw x, with_calls (calls s ++ [Call_DropObject e cascade]) s)
                   | None =>
                       (Throw Transaction_ConflictOnAlter,
                        with_calls (calls s ++ [Call_DropObject e cascade]) s)
                   end)
        /\ exception_class Transaction_ConflictOnCreate = TransactionException
        /\ exception_class Transaction_ConflictOnAlter = TransactionException).
Proof.
  split; [exact HasConflict_iff|].
  intros fuel tx entry_name s head Hhead Hconflict.
  split; [|split; [|split; [|split; [|split; reflexivity]]]].
  - intros value deps Hv Hadd. exists (announced tx value s).
    split; [|split; reflexivity].
    apply (CreateEntry_checks_head _ _ _ _ _ _ head); assumption.
  - intros alter_info. apply (AlterEntry_conflict _ _ _ _ _ head); assumption.
  - intros allow tomb. apply (DropEntryInternal_conflict _ _ _ _ _ head); assumption.
  - intros cascade allow. unfold DropEntry. unfold bind at 1.
    rewrite (DropDependencies_found _ _ _ _ _ _ _ Hhead). cbv zeta.
    destruct (deleted (entry (GetEntryForTransaction tx head))); [reflexivity|].
    destruct (internal (entry (GetEntryForTransaction tx head)) && negb allow);
      [reflexivity|].
    destruct (DropObject (GetDependencyManager (catalog s)) tx
                (entry (GetEntryForTransaction tx head)) cascade); [reflexivity|].
    cbn [negb].
    apply (DropEntryInternal_conflict _ _ _ _ _ head); [exact Hhead|assumption].
Qed.

(** ** Create, drop, create *)

Lemma GetEntryForTransaction_visible_head (tx : CatalogTransaction)
    (e : CatalogEntry) (c : option Node) :
  UseTimestamp tx (timestamp e) = true ->
  GetEntryForTransaction tx (mkNode e c) = mkNode e c.
Proof. intros Hsee. destruct c as [c|]; simpl; [rewrite Hsee|]; reflexivity. Qed.

Lemma publish_true (tx : CatalogTransaction) (value : CatalogEntry)
    (payload : bool) (s0 s1 : CatalogSet) :
  (UpdateEntry value ;;
   (if transaction tx then PushChildOfHead value payload else ret tt) ;;
   ret true) s0 = (Ret true, s1) ->
  exists below, map_GetEntry (map s1) (name value) = Some (mkNode value (Some below)).
Proof.
  destruct (map_GetEntry (map s0) (name value)) as [below|] eqn:Hbelow.
  - rewrite (publish_on_chain _ _ _ _ _ Hbelow). intros Heq. inversion Heq; subst s1.
    exists below. unfold map_GetEntry, published. cbn [map]. apply lookup_insert_eq.
  - unfold UpdateEntry. rewrite run_assoc. run. rewrite Hbelow. run. discriminate.
Qed.

Lemma CreateEntry_true_head (fuel : nat) (tx : CatalogTransaction)
    (entry_name : string) (value : CatalogEntry) (deps : list string)
    (s s1 : CatalogSet) :
  CreateEntry fuel tx entry_name value deps s = (Ret true, s1) ->
  exists below,
    map_GetEntry (map s1) (name value)
    = Some (mkNode (set_timestamp (transaction_id tx) value) (Some below)).
Proof.
  unfold CreateEntry. run.
  destruct (CreateEntry_validate (catalog s) entry_name value); run; [discriminate|].
  destruct (AddObject _ _ _ _); run; [discriminate|].
  destruct (map_GetEntry (map s) entry_name) as [current|].
  - destruct (HasConflict tx (timestamp (entry current))); [discriminate|].
    destruct (negb (deleted (entry current))); [discriminate|].
    apply (publish_true tx (set_timestamp (transaction_id tx) value)).
  - unfold bind at 1.
    destruct (CreateDefaultEntry _ _ _ _) as [[[e|]|x|f|] s']; try discriminate.
    unfold AddEntry. rewrite run_assoc. run.
    destruct (map_GetEntry (map s') _); run; [discriminate|].
    apply (publish_true tx (set_timestamp (transaction_id tx) value)).
Qed.

(** C3.  When [CreateEntry] (past its checks and the dependency manager)
    finds a chain under the name, it throws the transaction-conflict
    exception if the timestamp of the head conflicts with the snapshot;
    otherwise it returns false when the head is not deleted, the directory
    and the undo log being untouched; otherwise it returns true, the
    candidate stamped with the snapshot's [transaction_id] is the new head
    above the former one, and the former head is pushed to the undo log
    when the snapshot carries an active transaction.  Hence, in one live
    transaction, a create that succeeded followed by a drop and a second
    create of the same name succeeds, and the name then resolves to the
    second candidate. *)
Theorem CreateEntry_on_existing_chain :
  (forall fuel tx entry_name value deps s current,
      CreateEntry_validate (catalog s) entry_name value = None ->
      AddObject (GetDependencyManager (catalog s)) tx
        (set_timestamp (transaction_id tx) value) deps = None ->
      map_GetEntry (map s) entry_name = Some current ->
      Lower (name value) = Lower entry_name ->
      CreateEntry fuel tx entry_name value deps s =
        if HasConflict tx (timestamp (entry current))
        then (Throw Transaction_ConflictOnCreate, announced tx value s)
        else if negb (deleted (entry current))
        then (Ret false, announced tx value s)
        else (Ret true,
              {| catalog := catalog s; defaults := defaults s;
                 map := <[Lower entry_name :=
                            mkNode (set_timestamp (transaction_id tx) value)
                              (Some current)]> (map s);
                 undo_buffer :=
                   if transaction tx
                   then undo_buffer s ++ [mkUndo (entry current) false]
                   else undo_buffer s;
                 calls := calls (announced tx value s) |}))
  /\ (forall fuel tx entry_name A B depsA depsB cascade allow_drop_internal s s1,
        TRANSACTION_ID_START <= transaction_id tx ->
        Lower (name A) = Lower entry_name ->
        Lower (name B) = Lower entry_name ->
        deleted A = false -> deleted B = false ->
        internal A && negb allow_drop_internal = false ->
        CreateEntry_validate (catalog s) entry_name B = None ->
        AddObject (GetDependencyManager (catalog s)) tx
          (set_timestamp (transaction_id tx) B) depsB = None ->
        DropObject (GetDependencyManager (catalog s)) tx
          (set_timestamp (transaction_id tx) A) cascade = None ->
        CreateEntry fuel tx entry_name A depsA s = (Ret true, s1) ->
        exists s2 s3,
          DropEntry (S fuel) tx entry_name cascade allow_drop_internal s1 = (Ret true, s2)
          /\ CreateEntry fuel tx entry_name B depsB s2 = (Ret true, s3)
          /\ GetEntry (S fuel) tx entry_name s3 =
               (Ret (Some (set_timestamp (transaction_id tx) B)), s3)).
Proof.
  split.
  - intros fuel tx entry_name value deps s current Hv Hadd Hcur Hname.
    rewrite (CreateEntry_on_chain _ _ _ _ _ _ _ Hv Hadd Hcur Hname). reflexivity.
  - intros fuel tx entry_name A B depsA depsB cascade allow s s1
      Hlive HnameA HnameB HliveA HliveB HintA HvB HaddB HdropA Hcreate.
    destruct (CreateEntry_true_head _ _ _ _ _ _ _ Hcreate) as [below Hhead1].
    destruct (env_CreateEntry fuel tx entry_name A depsA s) as [Hcat _].
    rewrite Hcreate in Hcat. cbn [snd] in Hcat.
    assert (Hown : forall ts, ts = transaction_id tx -> HasConflict tx ts = false).
    { intros ts ->. unfold HasConflict. rewrite N.eqb_refl. cbn [negb].
      rewrite andb_false_r. cbn [orb].
      apply andb_false_intro1. apply N.ltb_ge. exact Hlive. }
    assert (Hsee : forall ts, ts = transaction_id tx -> UseTimestamp tx ts = true).
    { intros ts ->. unfold UseTimestamp. rewrite N.eqb_refl. reflexivity. }
    unfold map_GetEntry in Hhead1. rewrite HnameA in Hhead1.
    set (A' := set_timestamp (transaction_id tx) A) in *.
    set (headA := mkNode A' (Some below)) in *.
    (* the drop *)
    assert (Hdeps : DropDependencies (S fuel) tx entry_name cascade allow s1
                    = (Ret true, with_calls (calls s1 ++ [Call_DropObject A' cascade]) s1)).
    { rewrite (DropDependencies_found _ _ _ _ _ _ headA Hhead1). cbv zeta.
      unfold headA.
      rewrite (GetEntryForTransaction_visible_head tx A' _ (Hsee _ eq_refl)).
      cbn [entry].
      change (deleted A') with (deleted A). change (internal A') with (internal A).
      rewrite HliveA, HintA, Hcat, HdropA. reflexivity. }
    set (s1' := with_calls (calls s1 ++ [Call_DropObject A' cascade]) s1) in *.
    set (tomb := set_deleted true
                   (set_timestamp (transaction_id tx)
                      (InCatalogEntry DELETED_ENTRY (name A)))).
    assert (Hdrop : DropEntry (S fuel) tx entry_name cascade allow s1
                    = (Ret true, published tx (Lower entry_name) tomb headA false s1')).
    { unfold DropEntry. unfold bind at 1. rewrite Hdeps. cbn [negb].
      rewrite (DropEntryInternal_found tx entry_name allow DELETED_ENTRY s1' headA Hhead1 HnameA).
      cbn [entry headA]. rewrite (Hown (timestamp A') eq_refl).
      change (deleted A') with (deleted A). change (internal A') with (internal A).
      rewrite HliveA, HintA. reflexivity. }
    set (s2 := published tx (Lower entry_name) tomb headA false s1') in *.
    (* the second create *)
    assert (Hhead2 : map_GetEntry (map s2) entry_name = Some (mkNode tomb (Some headA))).
    { unfold map_GetEntry, s2, published. cbn [map]. apply lookup_insert_eq. }
    assert (Hcreate2 : CreateEntry fuel tx entry_name B depsB s2
                       = (Ret true,
                          published tx (Lower entry_name)
                            (set_timestamp (transaction_id tx) B)
                            (mkNode tomb (Some headA)) false (announced tx B s2))).
    { rewrite (CreateEntry_on_chain fuel tx entry_name B depsB s2 _
                 ltac:(cbn [catalog s2 published s1' with_calls]; rewrite Hcat; exact HvB)
                 ltac:(cbn [catalog s2 published s1' with_calls]; rewrite Hcat; exact HaddB)
                 Hhead2 HnameB).
      cbn [entry]. rewrite (Hown (timestamp tomb) eq_refl). reflexivity. }
    exists s2. eexists. split; [exact Hdrop|]. split; [exact Hcreate2|].
    erewrite GetEntry_found.
    2:{ unfold map_GetEntry, published. cbn [map]. apply lookup_insert_eq. }
    rewrite (GetEntryForTransaction_visible_head tx
               (set_timestamp (transaction_id tx) B) _ (Hsee _ eq_refl)).
    cbn [entry]. change (deleted (set_timestamp (transaction_id tx) B)) with (deleted B).
    rewrite HliveB. reflexivity.
Qed.

(** ** Altering *)

(** [AlterEntry] up to the answer of the object's own alter capability. *)
Lemma AlterEntry_delegates (fuel : nat) (tx : CatalogTransaction)
    (entry_name : string) (alter_info : AlterInfo) (s : CatalogSet) (n : Node)
    (k : option CatalogEntry -> M bool) :
  map_GetEntry (map s) entry_name = Some n ->
  HasConflict tx (timestamp (entry n)) = false ->
  deleted (entry n) = false ->
  negb (allow_internal alter_info) && internal (entry n) = false ->
  context tx = true ->
  AlterEntry fuel tx entry_name alter_info s =
    (let* altered := answer (object_AlterEntry alter_info (entry n)) in
     match altered with
     | None => ret true
     | Some v =>
         let value := set_timestamp (transaction_id tx) v in
         let name_changed := negb (CIEquals (name value) (name (entry n))) in
         (if name_changed then
            let* s := get in
            match map_GetEntry (map s) (name value) with
            | Some entry_value =>
                let original_entry := GetEntryForTransaction tx entry_value in
                if negb (deleted (entry original_entry))
                then call (Call_UndoAlter (entry n)) ;; throw Catalog_RenameTargetExists
                else ret tt
            | None => ret tt
            end ;;
            DropEntryInternal tx (name (entry n)) false RENAMED_ENTRY ;;
            let renamed_node :=
              set_deleted false
                (set_timestamp (transaction_id tx)
                   (InCatalogEntry RENAMED_ENTRY (name value))) in
            CreateEntry fuel tx (name value) renamed_node [] ;;
            GetEntryInternal tx (name value) ;;
            UpdateEntry value
          else UpdateEntry value) ;;
         (if transaction tx then PushChildOfHead value true else ret tt) ;;
         let* s := get in
         call (Call_AlterObject (entry n) value) ;;
         may_raise (AlterObject (GetDependencyManager (catalog s)) tx (entry n) value) ;;
         ret true
     end) (with_calls (calls s ++ [Call_AlterEntry (entry n)]) s).
Proof.
  intros Hn Hconflict Hlive Hint Hctx.
  unfold AlterEntry. unfold bind at 1.
  rewrite (GetEntryInternal_found _ _ _ _ Hn), Hconflict, Hlive, Hint, Hctx.
  cbn [negb]. run. reflexivity.
Qed.

(** C9.  When [AlterEntry] reaches the object's own alter capability and
    that capability answers with no replacement, [AlterEntry] returns true;
    the directory is exactly as before, nothing is pushed to the undo log,
    and the only call made to a collaborator is that alter request. *)
Theorem AlterEntry_declined_is_noop (fuel : nat) (tx : CatalogTransaction)
    (entry_name : string) (alter_info : AlterInfo) (s : CatalogSet) (n : Node) :
  map_GetEntry (map s) entry_name = Some n ->
  HasConflict tx (timestamp (entry n)) = false ->
  deleted (entry n) = false ->
  negb (allow_internal alter_info) && internal (entry n) = false ->
  context tx = true ->
  object_AlterEntry alter_info (entry n) = Ret None ->
  exists s',
    AlterEntry fuel tx entry_name alter_info s = (Ret true, s')
    /\ map s' = map s
    /\ undo_buffer s' = undo_buffer s
    /\ catalog s' = catalog s /\ defaults s' = defaults s
    /\ calls s' = calls s ++ [Call_AlterEntry (entry n)].
Proof.
  intros Hn Hconflict Hlive Hint Hctx Hdecline.
  exists (with_calls (calls s ++ [Call_AlterEntry (entry n)]) s).
  split; [|repeat split].
  rewrite (AlterEntry_delegates _ _ _ _ _ n (fun _ => ret true)) by assumption.
  rewrite run_answer, Hdecline. reflexivity.
Qed.

(** C5.  When [AlterEntry] obtains from the object a replacement whose name
    differs from the source name, and the chain stored under the new name
    resolves for the snapshot to a version that is not deleted, it calls
    [UndoAlter] on the source object and then throws the catalog exception
    of a rename collision; the directory and the undo log are exactly as
    before the call, so no version was published under either name. *)
Theorem AlterEntry_rename_target_exists (fuel : nat) (tx : CatalogTransaction)
    (entry_name : string) (alter_info : AlterInfo) (s : CatalogSet)
    (n entry_value : Node) (v : CatalogEntry) :
  map_GetEntry (map s) entry_name = Some n ->
  HasConflict tx (timestamp (entry n)) = false ->
  deleted (entry n) = false ->
  negb (allow_internal alter_info) && internal (entry n) = false ->
  context tx = true ->
  object_AlterEntry alter_info (entry n) = Ret (Some v) ->
  CIEquals (name v) (name (entry n)) = false ->
  map_GetEntry (map s) (name v) = Some entry_value ->
  deleted (entry (GetEntryForTransaction tx entry_value)) = false ->
  exists s',
    AlterEntry fuel tx entry_name alter_info s = (Throw Catalog_RenameTargetExists, s')
    /\ exception_class Catalog_RenameTargetExists = CatalogException
    /\ calls s' = calls s ++ [Call_AlterEntry (entry n); Call_UndoAlter (entry n)]
    /\ map s' = map s
    /\ undo_buffer s' = undo_buffer s
    /\ map_GetEntry (map s') entry_name = Some n
    /\ map_GetEntry (map s') (name v) = Some entry_value.
Proof.
  intros Hn Hconflict Hlive Hint Hctx Halter Hrename Hdest Hoccupied.
  exists (with_calls ((calls s ++ [Call_AlterEntry (entry n)])
                        ++ [Call_UndoAlter (entry n)]) s).
  split; [|repeat split; try assumption; cbn [calls with_calls];
           rewrite <- app_assoc; reflexivity].
  rewrite (AlterEntry_delegates _ _ _ _ _ n (fun _ => ret true)) by assumption.
  rewrite run_answer, Halter. cbv zeta.
  change (name (set_timestamp (transaction_id tx) v)) with (name v).
  rewrite Hrename. cbn [negb].
  rewrite !run_assoc. run. rewrite Hdest, Hoccupied. cbn [negb].
  rewrite !run_assoc. run. reflexivity.
Qed.

(** ** Rolling a creation back *)

(** With a default whose name is already taken, the closing retry of
    [CreateDefaultEntry] recurses without end. *)
Lemma GetEntry_starved (fuel : nat) (tx : CatalogTransaction)
    (entry_name : string) (s : CatalogSet) (e : CatalogEntry) :
  map_GetEntry (map s) entry_name = None ->
  default_for s tx entry_name = Some e ->
  map_GetEntry (map s) (name e) <> None ->
  GetEntry fuel tx entry_name s = (OutOfFuel, s).
Proof.
  intros Hnone Hdef Htaken. induction fuel as [|fuel IH]; [reflexivity|].
  simpl. run. rewrite Hnone. revert Hdef. unfold default_for, CreateDefaultEntry. run.
  destruct (defaults s) as [g|]; [|discriminate].
  destruct (created_all_entries g); [discriminate|].
  destruct (negb (context tx)); [discriminate|].
  intros ->. unfold CreateEntryInternal. rewrite run_assoc. run.
  destruct (map_GetEntry (map s) (name e)); [|congruence].
  run. exact IH.
Qed.

Lemma CreateDefaultEntry_None_inv (fuel : nat) (tx : CatalogTransaction)
    (entry_name : string) (s s' : CatalogSet) :
  map_GetEntry (map s) entry_name = None ->
  CreateDefaultEntry (GetEntry fuel tx entry_name) tx entry_name s = (Ret None, s') ->
  default_for s tx entry_name = None.
Proof.
  intros Hnone. destruct (default_for s tx entry_name) as [e|] eqn:Hdef; [|reflexivity].
  intros Hrun. exfalso. revert Hrun.
  pose proof (GetEntry_starved fuel tx entry_name s e Hnone Hdef) as Hstarved.
  revert Hdef. unfold default_for, CreateDefaultEntry. run.
  destruct (defaults s) as [g|]; [|discriminate].
  destruct (created_all_entries g); [discriminate|].
  destruct (negb (context tx)); [discriminate|].
  intros ->. unfold CreateEntryInternal. rewrite run_assoc. run.
  destruct (map_GetEntry (map s) (name e)) eqn:Htaken.
  - run. rewrite Hstarved by discriminate. discriminate.
  - unfold AddEntry. rewrite !run_assoc. run.
    change (name (set_timestamp 0 e)) with (name e). rewrite Htaken. run. discriminate.
Qed.

Lemma CreateEntry_fresh_true_inv (fuel : nat) (tx : CatalogTransaction)
    (entry_name : string) (value : CatalogEntry) (deps : list string)
    (s s1 : CatalogSet) :
  map_GetEntry (map s) entry_name = None ->
  Lower (name value) = Lower entry_name ->
  CreateEntry fuel tx entry_name value deps s = (Ret true, s1) ->
  default_for s tx entry_name = None
  /\ s1 = published tx (Lower entry_name) (set_timestamp (transaction_id tx) value)
            (mkNode (placeholder entry_name) None) false (announced tx value s).
Proof.
  intros Hnone Hname Hcreate.
  destruct (CreateEntry_validate (catalog s) entry_name value) as [x|] eqn:Hv.
  { rewrite (CreateEntry_rejects _ _ _ _ _ _ _ Hv) in Hcreate. discriminate. }
  destruct (AddObject (GetDependencyManager (catalog s)) tx
              (set_timestamp (transaction_id tx) value) deps) as [x|] eqn:Hadd.
  { revert Hcreate. unfold CreateEntry. run. rewrite Hv. run. rewrite Hadd. run.
    discriminate. }
  assert (Hdef : default_for s tx entry_name = None).
  { revert Hcreate. unfold CreateEntry. run. rewrite Hv. run. rewrite Hadd. run.
    rewrite Hnone. unfold bind at 1.
    destruct (CreateDefaultEntry _ _ _ _) as [[[e|]|x|f|] s'] eqn:Hrun;
      try discriminate.
    intros _.
    change (default_for (announced tx value s) tx entry_name = None).
    apply (CreateDefaultEntry_None_inv fuel tx entry_name _ s'); [exact Hnone|].
    exact Hrun. }
  split; [exact Hdef|].
  rewrite (CreateEntry_on_fresh_name _ _ _ _ _ _ Hv Hadd Hnone Hdef Hname) in Hcreate.
  inversion Hcreate. reflexivity.
Qed.

Lemma default_for_with_context (s s' : CatalogSet) (tx tx' : CatalogTransaction)
    (entry_name : string) :
  defaults s' = defaults s ->
  context tx = true ->
  default_for s tx entry_name = None ->
  default_for s' tx' entry_name = None.
Proof.
  intros Hsame Hctx. unfold default_for. rewrite Hsame, Hctx.
  destruct (defaults s) as [g|]; [|reflexivity].
  destruct (created_all_entries g); [reflexivity|].
  cbn [negb]. intros ->. destruct (negb (context tx')); reflexivity.
Qed.

Lemma GetEntry_absent (fuel : nat) (tx : CatalogTransaction)
    (entry_name : string) (s : CatalogSet) :
  map_GetEntry (map s) entry_name = None ->
  default_for s tx entry_name = None ->
  GetEntry (S fuel) tx entry_name s = (Ret None, s).
Proof.
  intros Hnone Hdef. simpl. run. rewrite Hnone.
  apply CreateDefaultEntry_declines. exact Hdef.
Qed.

Lemma Undo_of_fresh_create (tx : CatalogTransaction) (entry_name : string)
    (value : CatalogEntry) (s0 : CatalogSet) :
  map_GetEntry (map s0) entry_name = None ->
  Lower (name value) = Lower entry_name ->
  Undo (mkRef (Lower entry_name) 1)
    (published tx (Lower entry_name) value (mkNode (placeholder entry_name) None)
       false s0)
  = (Ret tt,
     with_calls ((calls s0 ++ [Call_SetAsRoot (placeholder entry_name)])
                   ++ [Call_ModifyCatalog])
       (with_undo_buffer
          (if transaction tx
           then undo_buffer s0 ++ [mkUndo (placeholder entry_name) false]
           else undo_buffer s0) s0)).
Proof.
  intros Hnone Hname. unfold map_GetEntry in Hnone.
  unfold Undo, published. cbv [Parent ref_depth ref_key]. run.
  unfold resolve. cbv [ref_key ref_depth]. rewrite lookup_insert_eq.
  cbv [mbind option_bind node_at HasParent Parent ref_depth negb entry].
  rewrite ?run_assoc. run. rewrite ?run_assoc.
  (* the candidate is dropped: the placeholder becomes the head *)
  unfold DropEntry_map at 1. rewrite ?run_assoc. run.
  unfold resolve, map_GetEntry. cbv [ref_key ref_depth].
  rewrite lookup_insert_eq. cbv [mbind option_bind node_at entry].
  rewrite Hname, lookup_insert_eq. cbv [TakeChild Child fst snd entry].
  run. rewrite !insert_insert_eq.
  change (CatalogType_eqb (type (placeholder entry_name)) INVALID) with true.
  cbv iota. rewrite ?run_assoc.
  (* the placeholder is dropped: the name leaves the directory *)
  unfold DropEntry_map at 1. rewrite ?run_assoc. run.
  unfold resolve, map_GetEntry. cbv [ref_key ref_depth].
  rewrite lookup_insert_eq. cbv [mbind option_bind node_at entry].
  change (name (placeholder entry_name)) with entry_name.
  rewrite lookup_insert_eq. cbv [TakeChild Child fst snd entry].
  run. rewrite !insert_insert_eq, delete_insert_eq, (delete_id _ _ Hnone).
  unfold with_calls, with_undo_buffer. cbn [catalog defaults map undo_buffer calls].
  destruct s0; reflexivity.
Qed.

(** What [GetEntry] answers, and the directory it leaves, depend on the
    directory and the default generator only. *)
Lemma GetEntry_reads_directory (fuel : nat) (tx : CatalogTransaction)
    (entry_name : string) (s s' : CatalogSet) :
  map s' = map s ->
  defaults s' = defaults s ->
  fst (GetEntry fuel tx entry_name s') = fst (GetEntry fuel tx entry_name s)
  /\ map (snd (GetEntry fuel tx entry_name s'))
     = map (snd (GetEntry fuel tx entry_name s)).
Proof.
  intros Hmap Hdef. induction fuel as [|fuel IH]; [split; [reflexivity|exact Hmap]|].
  simpl. run. rewrite Hmap.
  destruct (map_GetEntry (map s) entry_name) as [head|].
  { destruct (deleted (entry (GetEntryForTransaction tx head)));
      (split; [reflexivity|exact Hmap]). }
  unfold CreateDefaultEntry. run. rewrite Hdef.
  destruct (defaults s) as [g|]; [|split; [reflexivity|exact Hmap]].
  destruct (created_all_entries g); [split; [reflexivity|exact Hmap]|].
  destruct (negb (context tx)); [split; [reflexivity|exact Hmap]|].
  destruct (default_entry g entry_name) as [e|]; [|split; [reflexivity|exact Hmap]].
  unfold CreateEntryInternal. rewrite !run_assoc. run. rewrite Hmap.
  destruct (map_GetEntry (map s) (name e)) eqn:Htaken.
  - run. exact IH.
  - unfold AddEntry. rewrite !run_assoc. run.
    change (name (set_timestamp 0 e)) with (name e). rewrite Hmap, Htaken. run.
    split; reflexivity.
Qed.

(** C6.  When [CreateEntry] returned true on a name that had no chain, the
    undo log entry of the creation designates the placeholder root below
    the candidate, and [Undo] applied to it unlinks the candidate and then,
    the restored node being the placeholder root, the placeholder too: the
    directory is exactly the one before the creation and holds no chain
    for the name.  A snapshot to which [GetEntry] answered absent for that
    name before the creation gets absent afterwards, the set being left as
    it is; this is the case of every snapshot when the creating snapshot
    carried a session context.  For every snapshot and every name,
    [GetEntry] answers, and leaves the directory, as it would have before
    the creation. *)
Theorem Undo_of_CreateEntry_restores_directory (fuel : nat)
    (tx : CatalogTransaction) (entry_name : string) (value : CatalogEntry)
    (deps : list string) (s s1 : CatalogSet) :
  map_GetEntry (map s) entry_name = None ->
  Lower (name value) = Lower entry_name ->
  CreateEntry fuel tx entry_name value deps s = (Ret true, s1) ->
  exists s2,
    resolve (map s1) (mkRef (Lower entry_name) 1)
      = Some (mkNode (placeholder entry_name) None)
    /\ Undo (mkRef (Lower entry_name) 1) s1 = (Ret tt, s2)
    /\ map s2 = map s
    /\ map_GetEntry (map s2) entry_name = None
    /\ (forall fuel' tx',
          fst (GetEntry fuel' tx' entry_name s) = Ret None ->
          GetEntry fuel' tx' entry_name s2 = (Ret None, s2))
    /\ (context tx = true ->
        forall fuel' tx', GetEntry (S fuel') tx' entry_name s2 = (Ret None, s2))
    /\ (forall fuel' tx' n,
          fst (GetEntry fuel' tx' n s2) = fst (GetEntry fuel' tx' n s)
          /\ map (snd (GetEntry fuel' tx' n s2)) = map (snd (GetEntry fuel' tx' n s))).
Proof.
  intros Hnone Hname Hcreate.
  destruct (CreateEntry_fresh_true_inv _ _ _ _ _ _ _ Hnone Hname Hcreate)
    as [Hdef ->].
  eexists. split; [|split].
  - unfold resolve, published. cbv [ref_key ref_depth map].
    rewrite lookup_insert_eq. reflexivity.
  - apply Undo_of_fresh_create; [exact Hnone|]. exact Hname.
  - split; [reflexivity|]. split; [exact Hnone|]. split; [|split].
    + intros [|fuel'] tx' Habsent; [discriminate|].
      apply GetEntry_absent; [exact Hnone|].
      change (default_for s tx' entry_name = None).
      revert Habsent. simpl. run. rewrite Hnone.
      destruct (CreateDefaultEntry (GetEntry fuel' tx' entry_name) tx' entry_name s)
        as [o s'] eqn:Hrun.
      cbn [fst]. intros ->.
      exact (CreateDefaultEntry_None_inv _ _ _ _ _ Hnone Hrun).
    + intros Hctx fuel' tx'. apply GetEntry_absent; [exact Hnone|].
      apply (default_for_with_context s _ tx tx'); [reflexivity|exact Hctx|exact Hdef].
    + intros fuel' tx' n. apply GetEntry_reads_directory; reflexivity.
Qed.

(** ** Cleaning up *)

Lemma node_at_splice_below (d : nat) (head n : Node) :
  node_at (S d) head = Some n ->
  exists p, node_at d head = Some p
            /\ node_at d (splice_below d head) = Some (mkNode (entry p) (Child n)).
Proof.
  revert head. induction d as [|d IH]; intros [e [c|]] Hn; try discriminate.
  - simpl in Hn. inversion Hn; subst c. exists (mkNode e (Some n)). split; reflexivity.
  - destruct (IH c Hn) as [p [Hp Hspliced]]. exists p. split; [exact Hp|].
    exact Hspliced.
Qed.

Lemma DropEntry_map_no_crash (r : EntryRef) (s : CatalogSet) (n : Node) :
  resolve (map s) r = Some n ->
  (exists s', DropEntry_map r s = (Ret tt, s'))
  \/ DropEntry_map r s = (Throw Internal_DropWithoutChain, s).
Proof.
  intros Hn. unfold DropEntry_map. run. rewrite Hn.
  destruct (map_GetEntry (map s) (name (entry n))); [|right; reflexivity].
  left. destruct (ref_depth r) as [|d] eqn:Hdepth.
  - destruct (TakeChild n).1; eexists; reflexivity.
  - unfold resolve in Hn. destruct (map s !! ref_key r); [|discriminate].
    eexists; reflexivity.
Qed.

Lemma DropEntry_map_inner (key : string) (d : nat) (s : CatalogSet)
    (head n : Node) :
  map s !! key = Some head ->
  node_at (S d) head = Some n ->
  DropEntry_map (mkRef key (S d)) s =
    match map_GetEntry (map s) (name (entry n)) with
    | None => (Throw Internal_DropWithoutChain, s)
    | Some _ => (Ret tt, with_map (<[key := splice_below d head]> (map s)) s)
    end.
Proof.
  intros Hhead Hn. unfold DropEntry_map. run.
  unfold resolve. cbv [ref_key ref_depth]. rewrite Hhead.
  cbv [mbind option_bind]. rewrite Hn.
  destruct (map_GetEntry (map s) (name (entry n))); reflexivity.
Qed.

(** C10.  [CleanupEntry] dereferences the parent link of its argument
    before anything else: called on the head of a chain, which has no
    parent, it ends in a null dereference with the set untouched.  Called
    on a node of the set that has a parent, neither the unlink nor the
    removal of a parent that is a childless, parentless tombstone
    dereferences a missing link: the call returns, or throws the internal
    exception of the directory. *)
Theorem CleanupEntry_requires_parent (r : EntryRef) (s : CatalogSet) (n : Node) :
  resolve (map s) r = Some n ->
  (HasParent r = false -> CleanupEntry r s = (Crash NullDereference, s))
  /\ (HasParent r = true ->
      exists s',
        CleanupEntry r s = (Ret tt, s')
        \/ CleanupEntry r s = (Throw Internal_DropWithoutChain, s')).
Proof.
  intros Hn. destruct r as [key [|d]]; split; try discriminate.
  - intros _. reflexivity.
  - intros _.
    cut (exists o s', CleanupEntry (mkRef key (S d)) s = (o, s')
                      /\ (o = Ret tt \/ o = Throw Internal_DropWithoutChain)).
    { intros (o & s' & -> & [-> | ->]); exists s'; [left|right]; reflexivity. }
    unfold resolve in Hn. cbv [ref_depth ref_key] in Hn.
    destruct (map s !! key) as [head|] eqn:Hhead; [|discriminate].
    cbv [mbind option_bind] in Hn.
    destruct (node_at_splice_below d head n Hn) as [p [_ Hparent]].
    unfold CleanupEntry. cbv [Parent ref_depth ref_key]. unfold bind at 1.
    rewrite (DropEntry_map_inner key d s head n Hhead Hn).
    destruct (map_GetEntry (map s) (name (entry n))); [|eauto].
    run. unfold resolve at 1. cbv [ref_depth ref_key]. rewrite lookup_insert_eq.
    cbv [mbind option_bind]. rewrite Hparent.
    destruct (deleted (entry (mkNode (entry p) (Child n)))
              && negb (HasChild (mkNode (entry p) (Child n)))
              && negb (HasParent (mkRef key d))); [|eauto].
    match goal with
    | |- context [DropEntry_map ?r' ?s'] =>
        destruct (DropEntry_map_no_crash r' s' (mkNode (entry p) (Child n)))
          as [[s'' ->]| ->]
    end; [|eauto|eauto].
    unfold resolve. cbv [ref_depth ref_key map with_map].
    rewrite lookup_insert_eq. exact Hparent.
Qed.

(** ** Visible or in conflict *)

(** X4.  For a snapshot of a live transaction (a start time below the
    threshold, an id at or above it), no timestamp is both visible and in
    conflict, and the only timestamp that is neither is the start time of
    the snapshot itself. *)
Theorem HasConflict_complements_UseTimestamp (tx : CatalogTransaction)
    (ts : transaction_t) :
  start_time tx < TRANSACTION_ID_START ->
  TRANSACTION_ID_START <= transaction_id tx ->
  HasConflict tx ts = negb (UseTimestamp tx ts || (ts =? start_time tx)).
Proof.
  intros Hstart Hid. unfold HasConflict, UseTimestamp.
  destruct (N.eqb_spec ts (transaction_id tx)) as [->|Hother].
  - cbn [negb orb]. rewrite andb_false_r. cbn [orb].
    apply andb_false_intro1. apply N.ltb_ge. exact Hid.
  - cbn [negb]. rewrite andb_true_r.
    destruct (N.ltb_spec ts (start_time tx)) as [Hbefore|Hafter].
    + cbn [orb negb]. apply orb_false_intro.
      * apply N.leb_gt. eapply N.lt_trans; eassumption.
      * apply andb_false_intro2. apply N.ltb_ge. apply N.lt_le_incl. exact Hbefore.
    + cbn [orb]. destruct (N.eqb_spec ts (start_time tx)) as [->|Hlater].
      * cbn [negb]. apply orb_false_intro.
        -- apply N.leb_gt. exact Hstart.
        -- apply andb_false_intro2. apply N.ltb_irrefl.
      * cbn [negb].
        assert (Hgt : start_time tx < ts)
          by (apply N.le_neq; split; [exact Hafter|congruence]).
        apply N.ltb_lt in Hgt. rewrite Hgt, andb_true_r.
        destruct (N.leb_spec TRANSACTION_ID_START ts) as [Hlocal|Hcommitted];
          [reflexivity|].
        apply N.ltb_lt in Hcommitted. rewrite Hcommitted. reflexivity.
Qed.

(** ** The directory: insert, replace, unlink *)

Lemma CIEquals_true (a b : string) : CIEquals a b = true <-> Lower a = Lower b.
Proof. unfold CIEquals. apply String.eqb_eq. Qed.

Lemma CIEquals_false (a b : string) : CIEquals a b = false <-> Lower a <> Lower b.
Proof. unfold CIEquals. apply String.eqb_neq. Qed.

(** X1.  [AddEntry] throws, touching nothing, when a chain is stored under
    the name of the entry up to case; otherwise it starts a chain made of
    the entry alone, which every spelling of the name finds, it leaves the
    other names as they were, and a second [AddEntry] under any spelling of
    the name throws. *)
Theorem AddEntry_then_lookup (e : CatalogEntry) (s : CatalogSet) :
  match map_GetEntry (map s) (name e) with
  | Some _ => AddEntry e s = (Throw Internal_EntryAlreadyExists, s)
  | None =>
      exists s',
        AddEntry e s = (Ret tt, s')
        /\ undo_buffer s' = undo_buffer s /\ calls s' = calls s
        /\ (forall n, CIEquals n (name e) = true ->
                      map_GetEntry (map s') n = Some (mkNode e None))
        /\ (forall n, CIEquals n (name e) = false ->
                      map_GetEntry (map s') n = map_GetEntry (map s) n)
        /\ (forall e', CIEquals (name e') (name e) = true ->
                       AddEntry e' s' = (Throw Internal_EntryAlreadyExists, s'))
  end.
Proof.
  unfold AddEntry. run.
  destruct (map_GetEntry (map s) (name e)) eqn:Hfree; [reflexivity|].
  eexists. split; [reflexivity|]. split; [reflexivity|]. split; [reflexivity|].
  unfold map_GetEntry. cbn [map with_map]. split; [|split].
  - intros n Hn. apply CIEquals_true in Hn. rewrite Hn. apply lookup_insert_eq.
  - intros n Hn. apply CIEquals_false in Hn. apply lookup_insert_ne. congruence.
  - intros e' He'. apply CIEquals_true in He'. unfold AddEntry. run.
    unfold map_GetEntry. rewrite He', lookup_insert_eq. reflexivity.
Qed.

Lemma UpdateEntry_missing (e : CatalogEntry) (s : CatalogSet) :
  map_GetEntry (map s) (name e) = None ->
  UpdateEntry e s = (Throw Internal_EntryDoesNotExist, s).
Proof. intros Hnone. unfold UpdateEntry. run. rewrite Hnone. reflexivity. Qed.

Lemma UpdateEntry_found (e : CatalogEntry) (existing : Node) (s : CatalogSet) :
  map_GetEntry (map s) (name e) = Some existing ->
  UpdateEntry e s
  = (Ret tt, with_map (<[Lower (name e) := mkNode e (Some existing)]> (map s)) s).
Proof. intros Hsome. unfold UpdateEntry. run. rewrite Hsome. reflexivity. Qed.

Lemma DropEntry_map_head (key : string) (s : CatalogSet) (e : CatalogEntry)
    (c : option Node) :
  map s !! key = Some (mkNode e c) ->
  Lower (name e) = key ->
  DropEntry_map (mkRef key 0) s
  = (Ret tt,
     with_map (match c with
               | Some below => <[key := below]> (map s)
               | None => delete key (map s)
               end) s).
Proof.
  intros Hhead Hname. unfold DropEntry_map. run.
  unfold resolve, map_GetEntry. cbv [ref_key ref_depth]. rewrite Hhead.
  cbv [mbind option_bind node_at entry]. rewrite Hname, Hhead.
  cbv [TakeChild Child fst snd entry]. destruct c as [below|]; run.
  - rewrite insert_insert_eq. reflexivity.
  - rewrite delete_insert_eq. reflexivity.
Qed.

(** X2.  [UpdateEntry] throws, touching nothing, when no chain is stored
    under the name of the entry; otherwise the entry becomes the head above
    the former chain, and unlinking that head with [DropEntry] gives back
    the directory as it was. *)
Theorem UpdateEntry_then_DropEntry (e : CatalogEntry) (s : CatalogSet) :
  match map_GetEntry (map s) (name e) with
  | None => UpdateEntry e s = (Throw Internal_EntryDoesNotExist, s)
  | Some existing =>
      exists s',
        UpdateEntry e s = (Ret tt, s')
        /\ map_GetEntry (map s') (name e) = Some (mkNode e (Some existing))
        /\ versions (mkNode e (Some existing)) = e :: versions existing
        /\ (forall k, k <> Lower (name e) -> map s' !! k = map s !! k)
        /\ DropEntry_map (mkRef (Lower (name e)) 0) s' = (Ret tt, s)
  end.
Proof.
  destruct (map_GetEntry (map s) (name e)) as [existing|] eqn:Hlook.
  - exists (with_map (<[Lower (name e) := mkNode e (Some existing)]> (map s)) s).
    split; [apply UpdateEntry_found; exact Hlook|].
    split; [unfold map_GetEntry; cbn [map with_map]; apply lookup_insert_eq|].
    split; [reflexivity|].
    split; [intros k Hk; cbn [map with_map]; apply lookup_insert_ne; congruence|].
    rewrite (DropEntry_map_head (Lower (name e)) _ e (Some existing));
      [|cbn [map with_map]; apply lookup_insert_eq|reflexivity].
    cbn [map with_map]. rewrite insert_insert_eq, (insert_id _ _ _ Hlook).
    destruct s; reflexivity.
  - apply UpdateEntry_missing. exact Hlook.
Qed.

Lemma versions_splice_below (d : nat) (head n : Node) :
  node_at (S d) head = Some n ->
  versions (splice_below d head) = delete (S d) (versions head).
Proof.
  revert head. induction d as [|d IH]; intros [e [c|]] Hn; try discriminate.
  - simpl in Hn. inversion Hn; subst c. destruct n as [e' [c'|]]; reflexivity.
  - cbn [splice_below versions]. rewrite (IH c Hn).
    destruct (versions_head c) as [rest Hrest]. rewrite Hrest. reflexivity.
Qed.

(** X3.  [DropEntry] on a node that has a parent throws, touching nothing,
    when no chain is stored under the name the node carries; otherwise it
    takes exactly that version out of its chain, the versions above and
    below keeping their order, and leaves the other chains alone. *)
Theorem DropEntry_unlinks_inner_version (key : string) (d : nat)
    (s : CatalogSet) (head n : Node) :
  map s !! key = Some head ->
  node_at (S d) head = Some n ->
  match map_GetEntry (map s) (name (entry n)) with
  | None => DropEntry_map (mkRef key (S d)) s = (Throw Internal_DropWithoutChain, s)
  | Some _ =>
      exists s' head',
        DropEntry_map (mkRef key (S d)) s = (Ret tt, s')
        /\ map s' !! key = Some head'
        /\ versions head' = delete (S d) (versions head)
        /\ (forall k, k <> key -> map s' !! k = map s !! k)
        /\ undo_buffer s' = undo_buffer s /\ calls s' = calls s
  end.
Proof.
  intros Hhead Hn. rewrite (DropEntry_map_inner key d s head n Hhead Hn).
  destruct (map_GetEntry (map s) (name (entry n))); [|reflexivity].
  eexists. exists (splice_below d head). split; [reflexivity|].
  cbn [map with_map]. split; [apply lookup_insert_eq|].
  split; [apply (versions_splice_below d head n Hn)|].
  split; [|split; reflexivity].
  intros k Hk. apply lookup_insert_ne. congruence.
Qed.

(** ** The names of a chain *)

Lemma directory_named_insert (m : gmap string Node) (key : string) (n : Node) :
  directory_named m -> chain_named key n -> directory_named (<[key := n]> m).
Proof.
  intros Hm Hn k head. rewrite lookup_insert. case_decide as Hk.
  - intros Heq. inversion Heq; subst. exact Hn.
  - apply Hm.
Qed.

Lemma directory_named_delete (m : gmap string Node) (key : string) :
  directory_named m -> directory_named (delete key m).
Proof.
  intros Hm k head. rewrite lookup_delete. case_decide; [discriminate|apply Hm].
Qed.

Lemma chain_named_head (key : string) (n : Node) :
  chain_named key n -> Lower (name (entry n)) = key.
Proof.
  unfold chain_named. destruct (versions_head n) as [rest ->].
  intros H. inversion H; assumption.
Qed.

Lemma chain_named_single (key : string) (e : CatalogEntry) :
  chain_named key (mkNode e None) <-> Lower (name e) = key.
Proof.
  unfold chain_named. simpl. split.
  - intros H. inversion H; assumption.
  - intros H. constructor; [exact H|constructor].
Qed.

Lemma chain_named_link (key : string) (e : CatalogEntry) (c : Node) :
  chain_named key (mkNode e (Some c)) <-> Lower (name e) = key /\ chain_named key c.
Proof.
  unfold chain_named. simpl. split.
  - intros H. inversion H; split; assumption.
  - intros [H1 H2]. constructor; assumption.
Qed.

Lemma chain_named_Child (key : string) (n c : Node) :
  chain_named key n -> Child n = Some c -> chain_named key c.
Proof.
  destruct n as [e [c'|]]; simpl; intros Hn Hc; inversion Hc; subst.
  apply chain_named_link in Hn. apply Hn.
Qed.

Lemma chain_named_splice_below (key : string) (d : nat) (n : Node) :
  chain_named key n -> chain_named key (splice_below d n).
Proof.
  revert d. induction n as [e|e c IH] using Node_chain_ind; intros d Hn;
    [destruct d; exact Hn|].
  apply chain_named_link in Hn. destruct Hn as [He Hc].
  destruct d as [|d]; cbn [splice_below].
  - destruct c as [e' [c'|]]; cbn [Child].
    + apply chain_named_link. split; [exact He|].
      apply chain_named_link in Hc. apply Hc.
    + apply chain_named_single. exact He.
  - apply chain_named_link. split; [exact He|]. apply IH. exact Hc.
Qed.

Lemma chain_named_set_timestamp_at (key : string) (d : nat)
    (ts : transaction_t) (n : Node) :
  chain_named key n -> chain_named key (set_timestamp_at d ts n).
Proof.
  revert d. induction n as [e|e c IH] using Node_chain_ind; intros d Hn.
  - destruct d; [|exact Hn]. apply chain_named_single.
    apply chain_named_single in Hn. exact Hn.
  - apply chain_named_link in Hn. destruct Hn as [He Hc].
    destruct d as [|d]; cbn [set_timestamp_at]; apply chain_named_link.
    + split; assumption.
    + split; [exact He|]. apply IH. exact Hc.
Qed.

Lemma chain_named_node_at (key : string) (d : nat) (head n : Node) :
  chain_named key head -> node_at d head = Some n -> chain_named key n.
Proof.
  revert head. induction d as [|d IH]; intros head Hhead Hn.
  - inversion Hn; subst. exact Hhead.
  - destruct head as [e [c|]]; [|discriminate].
    apply chain_named_link in Hhead. apply (IH c); [apply Hhead|exact Hn].
Qed.

Lemma chain_named_GetEntryForTransaction (key : string) (tx : CatalogTransaction)
    (n : Node) :
  chain_named key n -> chain_named key (GetEntryForTransaction tx n).
Proof.
  induction n as [e|e c IH] using Node_chain_ind; intros Hn; [exact Hn|].
  cbn [GetEntryForTransaction]. destruct (UseTimestamp tx (timestamp e)); [exact Hn|].
  apply IH. apply chain_named_link in Hn. apply Hn.
Qed.

Lemma names_ret {A} (a : A) : preserves_names (ret a).
Proof. intros s H. exact H. Qed.
Lemma names_throw {A} (e : Exception) : preserves_names (@throw A e).
Proof. intros s H. exact H. Qed.
Lemma names_crash {A} (f : Fault) : preserves_names (@crash A f).
Proof. intros s H. exact H. Qed.
Lemma names_out_of_fuel {A} : preserves_names (@out_of_fuel A).
Proof. intros s H. exact H. Qed.
Lemma names_get : preserves_names get.
Proof. intros s H. exact H. Qed.
Lemma names_call (c : CollaboratorCall) : preserves_names (call c).
Proof. intros s H. exact H. Qed.
Lemma names_push (n : Node) (b : bool) : preserves_names (PushCatalogEntry n b).
Proof. intros s H. exact H. Qed.
Lemma names_answer {A} (o : Outcome A) : preserves_names (answer o).
Proof. intros s H. exact H. Qed.
Lemma names_may_raise (r : option Exception) : preserves_names (may_raise r).
Proof. destruct r; intros s H; exact H. Qed.

Lemma names_bind {A B} (c : M A) (k : A -> M B) :
  preserves_names c -> (forall a, preserves_names (k a)) -> preserves_names (bind c k).
Proof.
  intros Hc Hk s Hs. unfold bind. specialize (Hc s Hs).
  destruct (c s) as [[a|e|f|] s']; simpl in *; try exact Hc.
  apply Hk. exact Hc.
Qed.

Lemma names_AddEntry (e : CatalogEntry) : preserves_names (AddEntry e).
Proof.
  intros s Hs. unfold AddEntry. run.
  destruct (map_GetEntry (map s) (name e)); [exact Hs|].
  cbn [put_map snd map with_map]. apply directory_named_insert; [exact Hs|].
  apply chain_named_single. reflexivity.
Qed.

Lemma names_UpdateEntry (e : CatalogEntry) : preserves_names (UpdateEntry e).
Proof.
  intros s Hs. unfold UpdateEntry. run.
  destruct (map_GetEntry (map s) (name e)) as [existing|] eqn:Hlook; [|exact Hs].
  cbn [put_map snd map with_map]. apply directory_named_insert; [exact Hs|].
  apply chain_named_link. split; [reflexivity|]. apply (Hs _ _ Hlook).
Qed.

Lemma names_DropEntry_map (r : EntryRef) : preserves_names (DropEntry_map r).
Proof.
  intros s Hs. unfold DropEntry_map. run.
  destruct (resolve (map s) r) as [n|] eqn:Hn; [|exact Hs].
  destruct (map_GetEntry (map s) (name (entry n))); [|exact Hs].
  unfold resolve in Hn. destruct (map s !! ref_key r) as [head|] eqn:Hhead;
    [|discriminate].
  cbv [mbind option_bind] in Hn. pose proof (Hs _ _ Hhead) as Hnamed.
  destruct (ref_depth r) as [|d].
  - inversion Hn; subst n. rewrite (chain_named_head _ _ Hnamed).
    destruct head as [e [c|]]; cbv [TakeChild Child fst snd entry];
      cbn [put_map snd map with_map].
    + rewrite insert_insert_eq. apply directory_named_insert; [exact Hs|].
      apply chain_named_link in Hnamed. apply Hnamed.
    + rewrite delete_insert_eq. apply directory_named_delete. exact Hs.
  - cbn [put_map snd map with_map]. apply directory_named_insert; [exact Hs|].
    apply chain_named_splice_below. exact Hnamed.
Qed.

Lemma names_UpdateTimestamp (r : EntryRef) (ts : transaction_t) :
  preserves_names (UpdateTimestamp r ts).
Proof.
  intros s Hs. unfold UpdateTimestamp. run.
  destruct (map s !! ref_key r) as [head|] eqn:Hhead; [|exact Hs].
  destruct (node_at (ref_depth r) head); [|exact Hs].
  cbn [put_map snd map with_map]. apply directory_named_insert; [exact Hs|].
  apply chain_named_set_timestamp_at. apply (Hs _ _ Hhead).
Qed.

Create HintDb names.
Hint Resolve names_ret names_throw names_crash names_out_of_fuel names_get
  names_call names_push names_answer names_may_raise names_AddEntry
  names_UpdateEntry names_DropEntry_map names_UpdateTimestamp : names.

Ltac names :=
  repeat first
    [ solve [auto with names]
    | apply names_bind; [|intros ?]
    | match goal with
      | |- preserves_names (match ?x with _ => _ end) => destruct x
      | |- preserves_names (let _ := _ in _) => cbv zeta
      end ].

Lemma names_PushChildOfHead (e : CatalogEntry) (b : bool) :
  preserves_names (PushChildOfHead e b).
Proof. unfold PushChildOfHead. names. Qed.
Lemma names_CreateEntryInternal (tx : CatalogTransaction) (e : CatalogEntry) :
  preserves_names (CreateEntryInternal tx e).
Proof. unfold CreateEntryInternal. names. Qed.
Hint Resolve names_PushChildOfHead names_CreateEntryInternal : names.

Lemma names_CreateDefaultEntry (retry : M (option CatalogEntry))
    (tx : CatalogTransaction) (entry_name : string) :
  preserves_names retry -> preserves_names (CreateDefaultEntry retry tx entry_name).
Proof. intros Hretry. unfold CreateDefaultEntry. names. Qed.

Lemma names_GetEntry (fuel : nat) (tx : CatalogTransaction) (entry_name : string) :
  preserves_names (GetEntry fuel tx entry_name).
Proof.
  induction fuel as [|fuel IH]; simpl; [auto with names|].
  pose proof (names_CreateDefaultEntry _ tx entry_name IH). names.
Qed.
Hint Resolve names_GetEntry names_CreateDefaultEntry : names.

Lemma names_CreateEntry (fuel : nat) (tx : CatalogTransaction) (entry_name : string)
    (value : CatalogEntry) (deps : list string) :
  preserves_names (CreateEntry fuel tx entry_name value deps).
Proof. unfold CreateEntry. names. Qed.

Lemma names_GetEntryInternal (tx : CatalogTransaction) (entry_name : string) :
  preserves_names (GetEntryInternal tx entry_name).
Proof. unfold GetEntryInternal, GetEntryInternal_entry. names. Qed.

Lemma names_DropEntryInternal (tx : CatalogTransaction) (entry_name : string)
    (allow : bool) (tombstone_type : CatalogType) :
  preserves_names (DropEntryInternal tx entry_name allow tombstone_type).
Proof.
  pose proof (names_GetEntryInternal tx entry_name).
  unfold DropEntryInternal. names.
Qed.
Hint Resolve names_CreateEntry names_GetEntryInternal names_DropEntryInternal : names.

Lemma names_DropEntry (fuel : nat) (tx : CatalogTransaction) (entry_name : string)
    (cascade allow : bool) :
  preserves_names (DropEntry fuel tx entry_name cascade allow).
Proof. unfold DropEntry, DropDependencies. names. Qed.

Lemma names_AlterEntry (fuel : nat) (tx : CatalogTransaction) (entry_name : string)
    (alter_info : AlterInfo) :
  preserves_names (AlterEntry fuel tx entry_name alter_info).
Proof. unfold AlterEntry. names. Qed.

Lemma names_Undo (r : EntryRef) : preserves_names (Undo r).
Proof. unfold Undo. names. Qed.

Lemma names_CleanupEntry (r : EntryRef) : preserves_names (CleanupEntry r).
Proof. unfold CleanupEntry. names. Qed.

(** X5.  That every version of a chain carries, up to case, the name under
    which the chain is stored holds of the empty directory and is kept by
    each of [GetEntry], [CreateEntry], [AlterEntry], [DropEntry], [Undo],
    [CleanupEntry] and [UpdateTimestamp], whatever their arguments and
    their outcome; in such a directory the assertion of [GetEntry] on the
    name of the version it resolves holds. *)
Theorem directory_keeps_chain_names :
  directory_named ∅
  /\ (forall fuel tx entry_name, preserves_names (GetEntry fuel tx entry_name))
  /\ (forall fuel tx entry_name value deps,
        preserves_names (CreateEntry fuel tx entry_name value deps))
  /\ (forall fuel tx entry_name alter_info,
        preserves_names (AlterEntry fuel tx entry_name alter_info))
  /\ (forall fuel tx entry_name cascade allow,
        preserves_names (DropEntry fuel tx entry_name cascade allow))
  /\ (forall r, preserves_names (Undo r))
  /\ (forall r, preserves_names (CleanupEntry r))
  /\ (forall r ts, preserves_names (UpdateTimestamp r ts))
  /\ (forall tx entry_name s head,
        directory_named (map s) ->
        map_GetEntry (map s) entry_name = Some head ->
        CIEquals entry_name (name (entry (GetEntryForTransaction tx head))) = true).
Proof.
  split; [intros key head Hlook; rewrite lookup_empty in Hlook; discriminate|].
  split; [exact names_GetEntry|]. split; [exact names_CreateEntry|].
  split; [exact names_AlterEntry|]. split; [exact names_DropEntry|].
  split; [exact names_Undo|]. split; [exact names_CleanupEntry|].
  split; [exact names_UpdateTimestamp|].
  intros tx entry_name s head Hs Hhead. apply CIEquals_true. symmetry.
  apply chain_named_head. apply chain_named_GetEntryForTransaction.
  apply (Hs _ _ Hhead).
Qed.

(** ** One name, two creations *)

Lemma HasConflict_own (tx : CatalogTransaction) :
  TRANSACTION_ID_START <= transaction_id tx ->
  HasConflict tx (transaction_id tx) = false.
Proof.
  intros Hlive. unfold HasConflict. rewrite N.eqb_refl. cbn [negb].
  rewrite andb_false_r. cbn [orb]. apply andb_false_intro1. apply N.ltb_ge. exact Hlive.
Qed.

Lemma UseTimestamp_own (tx : CatalogTransaction) :
  UseTimestamp tx (transaction_id tx) = true.
Proof. unfold UseTimestamp. rewrite N.eqb_refl. reflexivity. Qed.

Lemma HasConflict_foreign (tx : CatalogTransaction) (ts : transaction_t) :
  TRANSACTION_ID_START <= ts -> ts <> transaction_id tx -> HasConflict tx ts = true.
Proof.
  intros Hlocal Hother. apply HasConflict_iff. left. split; assumption.
Qed.

Lemma CreateEntry_already_exists (fuel : nat) (tx : CatalogTransaction)
    (entry_name : string) (value : CatalogEntry) (deps : list string)
    (s : CatalogSet) (current : Node) :
  CreateEntry_validate (catalog s) entry_name value = None ->
  AddObject (GetDependencyManager (catalog s)) tx
    (set_timestamp (transaction_id tx) value) deps = None ->
  map_GetEntry (map s) entry_name = Some current ->
  HasConflict tx (timestamp (entry current)) = false ->
  deleted (entry current) = false ->
  CreateEntry fuel tx entry_name value deps s = (Ret false, announced tx value s).
Proof.
  intros Hv Hadd Hcur Hconflict Hlive.
  unfold CreateEntry. run. rewrite Hv. run. rewrite Hadd. run. rewrite Hcur.
  rewrite Hconflict, Hlive. reflexivity.
Qed.

(** X6.  Once [CreateEntry] has returned true for a live candidate in a
    transaction whose id is transaction-local, a second [CreateEntry] of
    the same name in that transaction returns false, publishes nothing and
    pushes nothing to the undo log, and the name still resolves to the
    first candidate. *)
Theorem CreateEntry_twice_returns_false (fuel fuel' : nat)
    (tx : CatalogTransaction) (entry_name : string) (A B : CatalogEntry)
    (depsA depsB : list string) (s s1 : CatalogSet) :
  TRANSACTION_ID_START <= transaction_id tx ->
  Lower (name A) = Lower entry_name ->
  deleted A = false ->
  CreateEntry_validate (catalog s) entry_name B = None ->
  AddObject (GetDependencyManager (catalog s)) tx
    (set_timestamp (transaction_id tx) B) depsB = None ->
  CreateEntry fuel tx entry_name A depsA s = (Ret true, s1) ->
  exists s2,
    CreateEntry fuel' tx entry_name B depsB s1 = (Ret false, s2)
    /\ map s2 = map s1 /\ undo_buffer s2 = undo_buffer s1
    /\ GetEntry (S fuel') tx entry_name s2
       = (Ret (Some (set_timestamp (transaction_id tx) A)), s2).
Proof.
  intros Hlive HnameA HliveA HvB HaddB Hcreate.
  destruct (CreateEntry_true_head _ _ _ _ _ _ _ Hcreate) as [below Hhead].
  destruct (env_CreateEntry fuel tx entry_name A depsA s) as [Hcat _].
  rewrite Hcreate in Hcat. cbn [snd] in Hcat.
  unfold map_GetEntry in Hhead. rewrite HnameA in Hhead.
  exists (announced tx B s1). split; [|split; [reflexivity|split; [reflexivity|]]].
  - apply (CreateEntry_already_exists fuel' tx entry_name B depsB s1
             (mkNode (set_timestamp (transaction_id tx) A) (Some below)));
      [rewrite Hcat; exact HvB|rewrite Hcat; exact HaddB|exact Hhead| |exact HliveA].
    apply (HasConflict_own tx Hlive).
  - rewrite (GetEntry_found fuel' tx entry_name (announced tx B s1) _ Hhead).
    rewrite (GetEntryForTransaction_visible_head tx
               (set_timestamp (transaction_id tx) A) _ (UseTimestamp_own tx)).
    cbn [entry]. change (deleted (set_timestamp (transaction_id tx) A)) with (deleted A).
    rewrite HliveA. reflexivity.
Qed.

(** X7.  Once [CreateEntry] has returned true in a transaction whose id is
    transaction-local, and as long as that version keeps its timestamp, in
    every other transaction [CreateEntry] of the same name (past its checks
    and the dependency manager) and [AlterEntry] of it throw the
    transaction-conflict exception, and the directory and the undo log stay
    as they are. *)
Theorem CreateEntry_blocks_other_transactions (fuel fuel' : nat)
    (tx tx' : CatalogTransaction) (entry_name : string) (A B : CatalogEntry)
    (depsA depsB : list string) (alter_info : AlterInfo) (s s1 : CatalogSet) :
  TRANSACTION_ID_START <= transaction_id tx ->
  transaction_id tx' <> transaction_id tx ->
  Lower (name A) = Lower entry_name ->
  CreateEntry_validate (catalog s) entry_name B = None ->
  AddObject (GetDependencyManager (catalog s)) tx'
    (set_timestamp (transaction_id tx') B) depsB = None ->
  CreateEntry fuel tx entry_name A depsA s = (Ret true, s1) ->
  (exists s2,
      CreateEntry fuel' tx' entry_name B depsB s1
      = (Throw Transaction_ConflictOnCreate, s2)
      /\ map s2 = map s1 /\ undo_buffer s2 = undo_buffer s1)
  /\ AlterEntry fuel' tx' entry_name alter_info s1
     = (Throw Transaction_ConflictOnAlter, s1).
Proof.
  intros Hlive Hother HnameA HvB HaddB Hcreate.
  destruct (CreateEntry_true_head _ _ _ _ _ _ _ Hcreate) as [below Hhead].
  destruct (env_CreateEntry fuel tx entry_name A depsA s) as [Hcat _].
  rewrite Hcreate in Hcat. cbn [snd] in Hcat.
  unfold map_GetEntry in Hhead. rewrite HnameA in Hhead.
  assert (Hconflict : HasConflict tx'
            (timestamp (entry (mkNode (set_timestamp (transaction_id tx) A)
                                 (Some below)))) = true).
  { apply HasConflict_foreign; [exact Hlive|]. cbn. congruence. }
  split.
  - exists (announced tx' B s1). split; [|split; reflexivity].
    apply (CreateEntry_checks_head fuel' tx' entry_name B depsB s1
             (mkNode (set_timestamp (transaction_id tx) A) (Some below)));
      [rewrite Hcat; exact HvB|rewrite Hcat; exact HaddB|exact Hhead|exact Hconflict].
  - apply (AlterEntry_conflict fuel' tx' entry_name alter_info s1
             (mkNode (set_timestamp (transaction_id tx) A) (Some below)) Hhead Hconflict).
Qed.

(** ** Dropping *)

Lemma DropEntry_not_found (fuel : nat) (tx : CatalogTransaction)
    (entry_name : string) (cascade allow_drop_internal : bool)
    (s : CatalogSet) (head : Node) :
  map_GetEntry (map s) entry_name = Some head ->
  deleted (entry (GetEntryForTransaction tx head)) = true ->
  DropEntry (S fuel) tx entry_name cascade allow_drop_internal s = (Ret false, s).
Proof.
  intros Hhead Hgone. unfold DropEntry. unfold bind at 1.
  rewrite (DropDependencies_found _ _ _ _ _ _ _ Hhead). cbv zeta.
  rewrite Hgone. reflexivity.
Qed.

(** X8.  [DropEntry] looks the name up with the visibility rule before any
    conflict check: on a name that another transaction created from nothing
    and has not committed, a snapshot that cannot see that version gets
    false, with the set untouched, although the timestamp of the head is in
    conflict with it. *)
Theorem DropEntry_of_foreign_creation_returns_false (fuel fuel' : nat)
    (tx tx' : CatalogTransaction) (entry_name : string) (A : CatalogEntry)
    (deps : list string) (cascade allow_drop_internal : bool)
    (s s1 : CatalogSet) :
  TRANSACTION_ID_START <= transaction_id tx ->
  transaction_id tx' <> transaction_id tx ->
  start_time tx' <= transaction_id tx ->
  map_GetEntry (map s) entry_name = None ->
  Lower (name A) = Lower entry_name ->
  CreateEntry fuel tx entry_name A deps s = (Ret true, s1) ->
  exists head,
    map_GetEntry (map s1) entry_name = Some head
    /\ HasConflict tx' (timestamp (entry head)) = true
    /\ DropEntry (S fuel') tx' entry_name cascade allow_drop_internal s1
       = (Ret false, s1).
Proof.
  intros Hlive Hother Hstart Hnone Hname Hcreate.
  destruct (CreateEntry_fresh_true_inv _ _ _ _ _ _ _ Hnone Hname Hcreate) as [_ ->].
  eexists. split; [unfold map_GetEntry, published; cbn [map]; apply lookup_insert_eq|].
  split; [apply HasConflict_foreign; [exact Hlive|cbn; congruence]|].
  eapply DropEntry_not_found;
    [unfold map_GetEntry, published; cbn [map]; apply lookup_insert_eq|].
  cbn [GetEntryForTransaction timestamp set_timestamp]. unfold UseTimestamp.
  destruct (N.eqb_spec (transaction_id tx) (transaction_id tx')) as [Heq|_];
    [congruence|].
  destruct (N.ltb_spec (transaction_id tx) (start_time tx')) as [Hlt|_];
    [exfalso; apply (N.lt_irrefl (transaction_id tx));
     eapply N.lt_le_trans; eassumption|].
  reflexivity.
Qed.

Lemma Undo_of_published (tx : CatalogTransaction) (key : string)
    (value : CatalogEntry) (below : Node) (payload : bool) (s : CatalogSet) :
  Lower (name value) = key ->
  CatalogType_eqb (type (entry below)) INVALID = false ->
  Undo (mkRef key 1) (published tx key value below payload s)
  = (Ret tt,
     with_calls ((calls s ++ [Call_SetAsRoot (entry below)]) ++ [Call_ModifyCatalog])
       (with_map (<[key := below]> (map s))
          (with_undo_buffer
             (if transaction tx
              then undo_buffer s ++ [mkUndo (entry below) payload]
              else undo_buffer s) s))).
Proof.
  intros Hname Hkind.
  unfold Undo, published. cbv [Parent ref_depth ref_key]. run.
  unfold resolve. cbv [ref_key ref_depth]. rewrite lookup_insert_eq.
  cbv [mbind option_bind node_at HasParent Parent ref_depth negb].
  rewrite ?run_assoc. run. rewrite ?run_assoc.
  unfold DropEntry_map at 1. rewrite ?run_assoc. run.
  unfold resolve, map_GetEntry. cbv [ref_key ref_depth].
  rewrite lookup_insert_eq. cbv [mbind option_bind node_at].
  change (entry (mkNode value (Some below))) with value.
  rewrite Hname, lookup_insert_eq. cbv [TakeChild Child fst snd].
  run. rewrite !insert_insert_eq. rewrite Hkind. run.
  unfold with_calls, with_undo_buffer, with_map.
  cbn [catalog defaults map undo_buffer calls]. reflexivity.
Qed.

(** X9.  On a head that the snapshot sees, that is live, not in conflict
    and may be dropped, and past the dependency manager, [DropEntry]
    returns true and puts on top of the chain a tombstone stamped with the
    snapshot's [transaction_id]; the former head goes to the undo log when
    the snapshot carries an active transaction.  The name is then absent
    for that snapshot, a snapshot that cannot see the tombstone resolves
    the name as before, and [Undo] of the former head gives back the
    directory as it was. *)
Theorem DropEntry_publishes_tombstone (fuel : nat) (tx : CatalogTransaction)
    (entry_name : string) (cascade allow_drop_internal : bool)
    (s : CatalogSet) (head : Node) :
  map_GetEntry (map s) entry_name = Some head ->
  Lower (name (entry head)) = Lower entry_name ->
  UseTimestamp tx (timestamp (entry head)) = true ->
  HasConflict tx (timestamp (entry head)) = false ->
  deleted (entry head) = false ->
  internal (entry head) && negb allow_drop_internal = false ->
  CatalogType_eqb (type (entry head)) INVALID = false ->
  DropObject (GetDependencyManager (catalog s)) tx (entry head) cascade = None ->
  exists s2 tomb,
    DropEntry (S fuel) tx entry_name cascade allow_drop_internal s = (Ret true, s2)
    /\ map s2 = <[Lower entry_name := mkNode tomb (Some head)]> (map s)
    /\ (deleted tomb = true /\ timestamp tomb = transaction_id tx
        /\ type tomb = DELETED_ENTRY /\ name tomb = name (entry head))
    /\ undo_buffer s2
       = (if transaction tx then undo_buffer s ++ [mkUndo (entry head) false]
          else undo_buffer s)
    /\ GetEntry (S fuel) tx entry_name s2 = (Ret None, s2)
    /\ (forall tx',
          visible tx' tomb = false ->
          GetEntryForTransaction tx' (mkNode tomb (Some head))
          = GetEntryForTransaction tx' head)
    /\ exists s3, Undo (mkRef (Lower entry_name) 1) s2 = (Ret tt, s3)
                  /\ map s3 = map s.
Proof.
  intros Hhead Hname Hsee Hconflict Hlive Hint Hkind Hdrop.
  destruct head as [e c]. cbn [entry] in *.
  set (above := with_calls (calls s ++ [Call_DropObject e cascade]) s).
  set (tomb := set_deleted true
                 (set_timestamp (transaction_id tx)
                    (InCatalogEntry DELETED_ENTRY (name e)))).
  assert (Hrun : DropEntry (S fuel) tx entry_name cascade allow_drop_internal s
                 = (Ret true,
                    published tx (Lower entry_name) tomb (mkNode e c) false above)).
  { unfold DropEntry. unfold bind at 1.
    rewrite (DropDependencies_found _ _ _ _ _ _ _ Hhead). cbv zeta.
    rewrite (GetEntryForTransaction_visible_head tx e c Hsee). cbn [entry].
    rewrite Hlive, Hint, Hdrop. cbn [negb]. fold above.
    rewrite (DropEntryInternal_found tx entry_name allow_drop_internal DELETED_ENTRY
               above (mkNode e c) Hhead Hname).
    cbn [entry]. rewrite Hconflict, Hlive, Hint. reflexivity. }
  exists (published tx (Lower entry_name) tomb (mkNode e c) false above), tomb.
  split; [exact Hrun|]. split; [reflexivity|].
  split; [repeat split|]. split; [reflexivity|].
  assert (Hhead2 : map_GetEntry
                     (map (published tx (Lower entry_name) tomb (mkNode e c) false above))
                     entry_name = Some (mkNode tomb (Some (mkNode e c)))).
  { unfold map_GetEntry, published. cbn [map]. apply lookup_insert_eq. }
  split; [|split].
  - rewrite (GetEntry_found _ _ _ _ _ Hhead2).
    rewrite (GetEntryForTransaction_visible_head tx tomb _ (UseTimestamp_own tx)).
    reflexivity.
  - intros tx' Hhidden. cbn [GetEntryForTransaction].
    rewrite <- visible_UseTimestamp, Hhidden. reflexivity.
  - eexists. split.
    + apply Undo_of_published; [exact Hname|exact Hkind].
    + cbn [map with_calls with_map]. apply insert_id. exact Hhead.
Qed.

(** ** Altering in place *)

Lemma run_publish {B} (tx : CatalogTransaction) (value : CatalogEntry)
    (below : Node) (payload : bool) (rest : M B) (s : CatalogSet) :
  map_GetEntry (map s) (name value) = Some below ->
  (UpdateEntry value ;;
   (if transaction tx then PushChildOfHead value payload else ret tt) ;;
   rest) s
  = rest (published tx (Lower (name value)) value below payload s).
Proof.
  intros Hbelow. unfold UpdateEntry, PushChildOfHead, published.
  rewrite run_assoc. run. rewrite Hbelow. run.
  destruct (transaction tx); run; [|reflexivity].
  rewrite run_assoc. run. unfold map_GetEntry. rewrite lookup_insert_eq. simpl.
  run. reflexivity.
Qed.

(** X10.  [AlterEntry] answers false, touching nothing, for a name without
    chain and for a head that is a tombstone; past that, it throws a
    catalog exception for an internal entry unless the request allows
    internal entries, and this before it throws the internal exception of a
    snapshot without session context; an exception of the object's own
    alter capability is passed on.  None of these publishes a version or
    pushes to the undo log. *)
Theorem AlterEntry_guards (fuel : nat) (tx : CatalogTransaction)
    (entry_name : string) (alter_info : AlterInfo) (s : CatalogSet) :
  (map_GetEntry (map s) entry_name = None ->
   AlterEntry fuel tx entry_name alter_info s = (Ret false, s))
  /\ (forall n,
        map_GetEntry (map s) entry_name = Some n ->
        HasConflict tx (timestamp (entry n)) = false ->
        (deleted (entry n) = true ->
         AlterEntry fuel tx entry_name alter_info s = (Ret false, s))
        /\ (deleted (entry n) = false ->
            internal (entry n) = true -> allow_internal alter_info = false ->
            AlterEntry fuel tx entry_name alter_info s
            = (Throw Catalog_AlterInternal, s))
        /\ (deleted (entry n) = false ->
            negb (allow_internal alter_info) && internal (entry n) = false ->
            context tx = false ->
            AlterEntry fuel tx entry_name alter_info s
            = (Throw Internal_AlterWithoutContext, s))
        /\ (forall x,
              deleted (entry n) = false ->
              negb (allow_internal alter_info) && internal (entry n) = false ->
              context tx = true ->
              object_AlterEntry alter_info (entry n) = Throw x ->
              AlterEntry fuel tx entry_name alter_info s
              = (Throw x, with_calls (calls s ++ [Call_AlterEntry (entry n)]) s))).
Proof.
  split.
  - intros Hnone. unfold AlterEntry, GetEntryInternal. rewrite run_assoc. run.
    rewrite Hnone. reflexivity.
  - intros n Hn Hconflict.
    assert (Hfind : forall k : option Node -> M bool,
               (let* found := GetEntryInternal tx entry_name in k found) s
               = k (if deleted (entry n) then None else Some n) s).
    { intros k. unfold bind. rewrite (GetEntryInternal_found _ _ _ _ Hn), Hconflict.
      destruct (deleted (entry n)); reflexivity. }
    split; [|split; [|split]].
    + intros Hgone. unfold AlterEntry. rewrite Hfind, Hgone. reflexivity.
    + intros Hlive Hint Hallow. unfold AlterEntry. rewrite Hfind, Hlive, Hint, Hallow.
      reflexivity.
    + intros Hlive Hint Hctx. unfold AlterEntry. rewrite Hfind, Hlive, Hint, Hctx.
      reflexivity.
    + intros x Hlive Hint Hctx Hraise.
      rewrite (AlterEntry_delegates _ _ _ _ _ n (fun _ => ret true)) by assumption.
      rewrite run_answer, Hraise. reflexivity.
Qed.

(** X11.  When the object answers an alter request with a replacement that
    keeps the name up to case, and the dependency manager accepts it,
    [AlterEntry] returns true with the replacement, stamped with the
    snapshot's [transaction_id], on top of the chain; the former head goes
    to the undo log with the alter request attached when the snapshot
    carries an active transaction.  The snapshot then resolves the name to
    the replacement, a snapshot that cannot see it resolves the name as
    before, and [Undo] of the former head gives back the directory. *)
Theorem AlterEntry_in_place (fuel : nat) (tx : CatalogTransaction)
    (entry_name : string) (alter_info : AlterInfo) (s : CatalogSet)
    (n : Node) (v : CatalogEntry) :
  map_GetEntry (map s) entry_name = Some n ->
  Lower (name (entry n)) = Lower entry_name ->
  HasConflict tx (timestamp (entry n)) = false ->
  deleted (entry n) = false ->
  negb (allow_internal alter_info) && internal (entry n) = false ->
  context tx = true ->
  CatalogType_eqb (type (entry n)) INVALID = false ->
  object_AlterEntry alter_info (entry n) = Ret (Some v) ->
  CIEquals (name v) (name (entry n)) = true ->
  AlterObject (GetDependencyManager (catalog s)) tx (entry n)
    (set_timestamp (transaction_id tx) v) = None ->
  exists s',
    AlterEntry fuel tx entry_name alter_info s = (Ret true, s')
    /\ map s' = <[Lower entry_name :=
                    mkNode (set_timestamp (transaction_id tx) v) (Some n)]> (map s)
    /\ undo_buffer s'
       = (if transaction tx then undo_buffer s ++ [mkUndo (entry n) true]
          else undo_buffer s)
    /\ GetEntry (S fuel) tx entry_name s'
       = (Ret (if deleted v then None
               else Some (set_timestamp (transaction_id tx) v)), s')
    /\ (forall tx',
          visible tx' (set_timestamp (transaction_id tx) v) = false ->
          GetEntryForTransaction tx'
            (mkNode (set_timestamp (transaction_id tx) v) (Some n))
          = GetEntryForTransaction tx' n)
    /\ exists s'', Undo (mkRef (Lower entry_name) 1) s' = (Ret tt, s'')
                   /\ map s'' = map s.
Proof.
  intros Hn Hname Hconflict Hlive Hint Hctx Hkind Halter Hsame Hobject.
  set (v' := set_timestamp (transaction_id tx) v).
  set (s0 := with_calls (calls s ++ [Call_AlterEntry (entry n)]) s).
  assert (Hkey : Lower (name v') = Lower entry_name).
  { apply CIEquals_true in Hsame. change (name v') with (name v). congruence. }
  set (s1 := published tx (Lower entry_name) v' n true s0).
  assert (Hrun : AlterEntry fuel tx entry_name alter_info s
                 = (Ret true,
                    with_calls (calls s1 ++ [Call_AlterObject (entry n) v']) s1)).
  { rewrite (AlterEntry_delegates _ _ _ _ _ n (fun _ => ret true)) by assumption.
    rewrite run_answer, Halter. cbv zeta. fold v' s0.
    change (name v') with (name v). rewrite Hsame. cbn [negb].
    rewrite (run_publish tx v' n true _ s0);
      [|unfold map_GetEntry in *; cbn [map s0 with_calls]; rewrite Hkey; exact Hn].
    rewrite Hkey. fold s1. run.
    change (AlterObject (GetDependencyManager (catalog s1)) tx (entry n) v')
      with (AlterObject (GetDependencyManager (catalog s)) tx (entry n)
              (set_timestamp (transaction_id tx) v)).
    rewrite Hobject. reflexivity. }
  eexists. split; [exact Hrun|]. split; [reflexivity|]. split; [reflexivity|].
  assert (Hhead : map_GetEntry
                    (map (with_calls (calls s1 ++ [Call_AlterObject (entry n) v']) s1))
                    entry_name = Some (mkNode v' (Some n))).
  { unfold map_GetEntry. cbn [map with_calls s1 published]. apply lookup_insert_eq. }
  split; [|split].
  - rewrite (GetEntry_found _ _ _ _ _ Hhead).
    rewrite (GetEntryForTransaction_visible_head tx v' _ (UseTimestamp_own tx)).
    reflexivity.
  - intros tx' Hhidden. cbn [GetEntryForTransaction].
    rewrite <- visible_UseTimestamp. fold v'. rewrite Hhidden. reflexivity.
  - pose proof (Undo_of_published tx (Lower entry_name) v' n true
                  (with_calls (calls s0 ++ [Call_AlterObject (entry n) v']) s0)
                  Hkey Hkind) as Hundo.
    eexists. split; [exact Hundo|].
    cbn [map with_calls with_map]. apply insert_id. exact Hn.
Qed.

(** ** Renaming *)

(** The tombstone and the marker that a rename leaves. *)
Lemma rename_reaches_drop (fuel : nat) (tx : CatalogTransaction)
    (entry_name : string) (alter_info : AlterInfo) (s : CatalogSet)
    (n : Node) (v : CatalogEntry) :
  map_GetEntry (map s) entry_name = Some n ->
  HasConflict tx (timestamp (entry n)) = false ->
  deleted (entry n) = false ->
  negb (allow_internal alter_info) && internal (entry n) = false ->
  context tx = true ->
  object_AlterEntry alter_info (entry n) = Ret (Some v) ->
  CIEquals (name v) (name (entry n)) = false ->
  map_GetEntry (map s) (name v) = None ->
  AlterEntry fuel tx entry_name alter_info s =
    (DropEntryInternal tx (name (entry n)) false RENAMED_ENTRY ;;
     (CreateEntry fuel tx (name v)
        (set_deleted false
           (set_timestamp (transaction_id tx) (InCatalogEntry RENAMED_ENTRY (name v))))
        [] ;;
      GetEntryInternal tx (name v) ;;
      UpdateEntry (set_timestamp (transaction_id tx) v)) ;;
     (if transaction tx
      then PushChildOfHead (set_timestamp (transaction_id tx) v) true else ret tt) ;;
     let* s := get in
     call (Call_AlterObject (entry n) (set_timestamp (transaction_id tx) v)) ;;
     may_raise (AlterObject (GetDependencyManager (catalog s)) tx (entry n)
                  (set_timestamp (transaction_id tx) v)) ;;
     ret true)
      (with_calls (calls s ++ [Call_AlterEntry (entry n)]) s).
Proof.
  intros Hn Hconflict Hlive Hint Hctx Halter Hrename Hfree.
  rewrite (AlterEntry_delegates _ _ _ _ _ n (fun _ => ret true)) by assumption.
  rewrite run_answer, Halter. cbv zeta.
  change (name (set_timestamp (transaction_id tx) v)) with (name v).
  rewrite Hrename. cbn [negb].
  rewrite !run_assoc. run. rewrite Hfree. rewrite !run_assoc. run.
  rewrite ?run_assoc. reflexivity.
Qed.

(** X12.  In a transaction whose id is transaction-local, when the object
    answers an alter request with a replacement under another name, no
    chain and no default exist for that name, the source may be dropped and
    the collaborators let the rename through, [AlterEntry] returns true:
    the source chain gets a tombstone of kind [RENAMED_ENTRY] on top, and a
    new chain holds the replacement above a marker of kind [RENAMED_ENTRY]
    above a placeholder.  For the snapshot the old name is absent and the
    new name resolves to the replacement; for a snapshot that cannot see
    the transaction's timestamp the old name resolves as before and the
    new name is absent. *)
Theorem AlterEntry_rename (fuel : nat) (tx : CatalogTransaction)
    (entry_name : string) (alter_info : AlterInfo) (s : CatalogSet)
    (n : Node) (v : CatalogEntry) :
  TRANSACTION_ID_START <= transaction_id tx ->
  map_GetEntry (map s) entry_name = Some n ->
  Lower (name (entry n)) = Lower entry_name ->
  HasConflict tx (timestamp (entry n)) = false ->
  deleted (entry n) = false ->
  internal (entry n) = false ->
  context tx = true ->
  object_AlterEntry alter_info (entry n) = Ret (Some v) ->
  CIEquals (name v) (name (entry n)) = false ->
  map_GetEntry (map s) (name v) = None ->
  default_for s tx (name v) = None ->
  CreateEntry_validate (catalog s) (name v)
    (set_deleted false
       (set_timestamp (transaction_id tx) (InCatalogEntry RENAMED_ENTRY (name v))))
    = None ->
  AddObject (GetDependencyManager (catalog s)) tx
    (set_deleted false
       (set_timestamp (transaction_id tx) (InCatalogEntry RENAMED_ENTRY (name v))))
    [] = None ->
  AlterObject (GetDependencyManager (catalog s)) tx (entry n)
    (set_timestamp (transaction_id tx) v) = None ->
  exists s' gone marker,
    AlterEntry fuel tx entry_name alter_info s = (Ret true, s')
    /\ (deleted gone = true /\ type gone = RENAMED_ENTRY
        /\ timestamp gone = transaction_id tx)
    /\ (deleted marker = false /\ type marker = RENAMED_ENTRY
        /\ timestamp marker = transaction_id tx)
    /\ map_GetEntry (map s') entry_name = Some (mkNode gone (Some n))
    /\ map_GetEntry (map s') (name v)
       = Some (mkNode (set_timestamp (transaction_id tx) v)
                 (Some (mkNode marker (Some (mkNode (placeholder (name v)) None)))))
    /\ (forall k, k <> Lower entry_name -> k <> Lower (name v) ->
                  map s' !! k = map s !! k)
    /\ undo_buffer s'
       = (if transaction tx
          then undo_buffer s
               ++ [mkUndo (entry n) false; mkUndo (placeholder (name v)) false;
                   mkUndo marker true]
          else undo_buffer s)
    /\ GetEntry (S fuel) tx entry_name s' = (Ret None, s')
    /\ GetEntry (S fuel) tx (name v) s'
       = (Ret (if deleted v then None
               else Some (set_timestamp (transaction_id tx) v)), s')
    /\ (forall tx',
          UseTimestamp tx' (transaction_id tx) = false ->
          GetEntry (S fuel) tx' (name v) s' = (Ret None, s')
          /\ GetEntry (S fuel) tx' entry_name s'
             = (Ret (if deleted (entry (GetEntryForTransaction tx' n)) then None
                     else Some (entry (GetEntryForTransaction tx' n))), s')).
Proof.
  intros Hlive Hn Hname Hconflict Hnotdeleted Hint Hctx Halter Hrename Hfree Hdef
    Hv Hadd Hobject.
  set (e := entry n) in *.
  set (v' := set_timestamp (transaction_id tx) v).
  set (marker := set_deleted false
                   (set_timestamp (transaction_id tx)
                      (InCatalogEntry RENAMED_ENTRY (name v)))) in *.
  set (gone := set_deleted true
                 (set_timestamp (transaction_id tx)
                    (InCatalogEntry RENAMED_ENTRY (name e)))).
  assert (Hkeys : Lower (name v) <> Lower entry_name).
  { apply CIEquals_false in Hrename. congruence. }
  set (s0 := with_calls (calls s ++ [Call_AlterEntry e]) s).
  set (s1 := published tx (Lower entry_name) gone n false s0).
  set (s2 := published tx (Lower (name v)) marker (mkNode (placeholder (name v)) None)
               false (announced tx marker s1)).
  set (s3 := published tx (Lower (name v)) v'
               (mkNode marker (Some (mkNode (placeholder (name v)) None))) true s2).
  assert (Hdrop : DropEntryInternal tx (name e) false RENAMED_ENTRY s0 = (Ret true, s1)).
  { rewrite (DropEntryInternal_found tx (name e) false RENAMED_ENTRY s0 n).
    - fold e. rewrite Hconflict, Hnotdeleted, Hint. cbn [andb]. rewrite Hname.
      reflexivity.
    - unfold map_GetEntry in *. cbn [map s0 with_calls]. rewrite Hname. exact Hn.
    - reflexivity. }
  assert (Hcreate : CreateEntry fuel tx (name v) marker [] s1 = (Ret true, s2)).
  { rewrite (CreateEntry_on_fresh_name fuel tx (name v) marker [] s1);
      [reflexivity|exact Hv|exact Hadd| |exact Hdef|reflexivity].
    unfold map_GetEntry in *. cbn [map s1 published s0 with_calls].
    rewrite lookup_insert_ne by congruence. exact Hfree. }
  assert (Hhead2 : map_GetEntry (map s2) (name v)
                   = Some (mkNode marker (Some (mkNode (placeholder (name v)) None)))).
  { unfold map_GetEntry. cbn [map s2 published]. apply lookup_insert_eq. }
  assert (Hlookup : GetEntryInternal tx (name v) s2
                    = (Ret (Some (mkNode marker
                                    (Some (mkNode (placeholder (name v)) None)))), s2)).
  { rewrite (GetEntryInternal_found _ _ _ _ Hhead2). cbn [entry].
    change (timestamp marker) with (transaction_id tx).
    rewrite (HasConflict_own tx Hlive). reflexivity. }
  assert (Hrun : AlterEntry fuel tx entry_name alter_info s
                 = (Ret true, with_calls (calls s3 ++ [Call_AlterObject e v']) s3)).
  { rewrite (rename_reaches_drop fuel tx entry_name alter_info s n v);
      try assumption; [|fold e; rewrite Hint; apply andb_false_r].
    fold e marker v' s0.
    unfold bind at 1. rewrite Hdrop.
    rewrite !run_assoc. unfold bind at 1. rewrite Hcreate.
    rewrite !run_assoc. unfold bind at 1. rewrite Hlookup.
    rewrite (run_publish tx v' _ true _ s2 Hhead2).
    change (name v') with (name v). fold s3. run.
    change (AlterObject (GetDependencyManager (catalog s3)) tx e v')
      with (AlterObject (GetDependencyManager (catalog s)) tx e
              (set_timestamp (transaction_id tx) v)).
    rewrite Hobject. reflexivity. }
  set (s4 := with_calls (calls s3 ++ [Call_AlterObject e v']) s3) in *.
  exists s4, gone, marker.
  split; [exact Hrun|]. split; [repeat split|]. split; [repeat split|].
  assert (Hold : map_GetEntry (map s4) entry_name = Some (mkNode gone (Some n))).
  { unfold map_GetEntry. cbn [map s4 s3 s2 published announced with_calls s1].
    rewrite insert_insert_eq, lookup_insert_ne by congruence. apply lookup_insert_eq. }
  assert (Hnew : map_GetEntry (map s4) (name v)
                 = Some (mkNode v' (Some (mkNode marker
                                            (Some (mkNode (placeholder (name v)) None)))))).
  { unfold map_GetEntry. cbn [map s4 with_calls s3 published]. apply lookup_insert_eq. }
  split; [exact Hold|]. split; [exact Hnew|]. split; [|split; [|split; [|split]]].
  - intros k Hk1 Hk2. cbn [map s4 with_calls s3 s2 published announced s1 s0].
    rewrite !lookup_insert_ne by congruence. reflexivity.
  - cbn [undo_buffer s4 with_calls s3 s2 s1 s0 published announced].
    destruct (transaction tx); [|reflexivity].
    rewrite <- !app_assoc. reflexivity.
  - rewrite (GetEntry_found fuel tx entry_name _ _ Hold).
    rewrite (GetEntryForTransaction_visible_head tx gone _ (UseTimestamp_own tx)).
    reflexivity.
  - rewrite (GetEntry_found fuel tx (name v) _ _ Hnew).
    rewrite (GetEntryForTransaction_visible_head tx v' _ (UseTimestamp_own tx)).
    reflexivity.
  - intros tx' Hhidden. split.
    + rewrite (GetEntry_found fuel tx' (name v) _ _ Hnew).
      cbn [GetEntryForTransaction timestamp v' set_timestamp marker set_deleted
             InCatalogEntry].
      rewrite Hhidden. reflexivity.
    + rewrite (GetEntry_found fuel tx' entry_name _ _ Hold).
      cbn [GetEntryForTransaction timestamp gone set_timestamp set_deleted
             InCatalogEntry].
      rewrite Hhidden. reflexivity.
Qed.

(** X13.  A rename of an internal entry to a name that has no chain is
    refused even when the request allows altering internal entries: the
    drop of the source inside [AlterEntry] never allows internal entries.
    The catalog exception of the drop is thrown after the object's own
    alter capability was run and without a call to [UndoAlter]; nothing is
    published or pushed. *)
Theorem AlterEntry_rename_of_internal_entry (fuel : nat) (tx : CatalogTransaction)
    (entry_name : string) (alter_info : AlterInfo) (s : CatalogSet)
    (n : Node) (v : CatalogEntry) :
  map_GetEntry (map s) entry_name = Some n ->
  Lower (name (entry n)) = Lower entry_name ->
  HasConflict tx (timestamp (entry n)) = false ->
  deleted (entry n) = false ->
  allow_internal alter_info = true ->
  internal (entry n) = true ->
  context tx = true ->
  object_AlterEntry alter_info (entry n) = Ret (Some v) ->
  CIEquals (name v) (name (entry n)) = false ->
  map_GetEntry (map s) (name v) = None ->
  AlterEntry fuel tx entry_name alter_info s
  = (Throw Catalog_DropInternal,
     with_calls (calls s ++ [Call_AlterEntry (entry n)]) s).
Proof.
  intros Hn Hname Hconflict Hlive Hallow Hint Hctx Halter Hrename Hfree.
  rewrite (rename_reaches_drop fuel tx entry_name alter_info s n v);
    try assumption; [|rewrite Hallow; reflexivity].
  unfold bind at 1. unfold DropEntryInternal. unfold bind at 1.
  rewrite (GetEntryInternal_found tx (name (entry n)) _ n).
  - rewrite Hconflict, Hlive, Hint. reflexivity.
  - unfold map_GetEntry in *. cbn [map with_calls]. rewrite Hname. exact Hn.
Qed.

(** ** Committing *)

Lemma UpdateTimestamp_head (key : string) (ts : transaction_t) (s : CatalogSet)
    (e : CatalogEntry) (c : option Node) :
  map s !! key = Some (mkNode e c) ->
  UpdateTimestamp (mkRef key 0) ts s
  = (Ret tt, with_map (<[key := mkNode (set_timestamp ts e) c]> (map s)) s).
Proof.
  intros Hhead. unfold UpdateTimestamp. run. cbv [ref_key ref_depth].
  rewrite Hhead. reflexivity.
Qed.

(** X14.  After [CreateEntry] returned true on a name without chain and
    [UpdateTimestamp] stamped the new head with a committed timestamp, a
    snapshot that started after that timestamp resolves the name to the
    version and is not in conflict with it, while a snapshot that started
    at or before it, and has another id, still reads the name as absent,
    and is in conflict with the version if it started before. *)
Theorem committed_creation_is_visible_to_later_snapshots (fuel : nat)
    (tx : CatalogTransaction) (entry_name : string) (A : CatalogEntry)
    (deps : list string) (commit_id : transaction_t) (s s1 : CatalogSet) :
  commit_id < TRANSACTION_ID_START ->
  map_GetEntry (map s) entry_name = None ->
  Lower (name A) = Lower entry_name ->
  deleted A = false ->
  CreateEntry fuel tx entry_name A deps s = (Ret true, s1) ->
  exists s2,
    UpdateTimestamp (mkRef (Lower entry_name) 0) commit_id s1 = (Ret tt, s2)
    /\ map_GetEntry (map s2) entry_name
       = Some (mkNode (set_timestamp commit_id A)
                 (Some (mkNode (placeholder entry_name) None)))
    /\ forall fuel' tx',
         (commit_id < start_time tx' ->
          GetEntry (S fuel') tx' entry_name s2
          = (Ret (Some (set_timestamp commit_id A)), s2)
          /\ HasConflict tx' commit_id = false)
         /\ (start_time tx' <= commit_id -> transaction_id tx' <> commit_id ->
             GetEntry (S fuel') tx' entry_name s2 = (Ret None, s2))
         /\ (start_time tx' < commit_id -> HasConflict tx' commit_id = true).
Proof.
  intros Hcommitted Hnone Hname Hlive Hcreate.
  destruct (CreateEntry_fresh_true_inv _ _ _ _ _ _ _ Hnone Hname Hcreate) as [_ ->].
  eexists. split.
  { apply UpdateTimestamp_head. unfold published. cbn [map]. apply lookup_insert_eq. }
  assert (Hhead : forall st,
             map_GetEntry
               (map (with_map
                       (<[Lower entry_name :=
                            mkNode (set_timestamp commit_id
                                      (set_timestamp (transaction_id tx) A))
                              (Some (mkNode (placeholder entry_name) None))]>
                          (map st)) st)) entry_name
             = Some (mkNode (set_timestamp commit_id A)
                       (Some (mkNode (placeholder entry_name) None)))).
  { intros st. unfold map_GetEntry. cbn [map with_map]. apply lookup_insert_eq. }
  split; [apply Hhead|].
  intros fuel' tx'. split; [|split].
  - intros Hafter. split.
    + rewrite (GetEntry_found _ _ _ _ _ (Hhead _)).
      cbn [GetEntryForTransaction timestamp set_timestamp]. unfold UseTimestamp.
      apply N.ltb_lt in Hafter. rewrite Hafter.
      destruct (commit_id =? transaction_id tx'); cbn [entry deleted set_timestamp];
        rewrite Hlive; reflexivity.
    + unfold HasConflict. apply orb_false_intro.
      * apply andb_false_intro1. apply N.leb_gt. exact Hcommitted.
      * apply andb_false_intro2. apply N.ltb_ge. apply N.lt_le_incl. exact Hafter.
  - intros Hbefore Hother.
    rewrite (GetEntry_found _ _ _ _ _ (Hhead _)).
    cbn [GetEntryForTransaction timestamp set_timestamp]. unfold UseTimestamp.
    destruct (N.eqb_spec commit_id (transaction_id tx')) as [Heq|_]; [congruence|].
    apply N.ltb_ge in Hbefore. rewrite Hbefore. reflexivity.
  - intros Hbefore. apply HasConflict_iff. right. split; assumption.
Qed.

(** ** Cleaning up what no snapshot needs *)

Lemma resolution_ignores_older_versions (tx : CatalogTransaction) (d k : nat)
    (head n nk : Node) :
  node_at (S d) head = Some n ->
  node_at k head = Some nk ->
  (k <= d)%nat ->
  UseTimestamp tx (timestamp (entry nk)) = true ->
  entry (GetEntryForTransaction tx (splice_below d head))
  = entry (GetEntryForTransaction tx head).
Proof.
  revert head k. induction d as [|d IH]; intros [e [c|]] k Hn Hk Hle Hsee;
    try discriminate.
  - assert (k = 0%nat) by lia. subst k. inversion Hk; subst nk. cbn [entry] in Hsee.
    cbn [splice_below].
    rewrite !(GetEntryForTransaction_visible_head tx e _ Hsee). reflexivity.
  - cbn [splice_below GetEntryForTransaction].
    destruct (UseTimestamp tx (timestamp e)) eqn:Hhead; [reflexivity|].
    destruct k as [|k]; [inversion Hk; subst nk; cbn [entry] in Hsee; congruence|].
    apply (IH c k); [exact Hn|exact Hk|lia|exact Hsee].
Qed.

(** X15.  In a directory whose chains carry their names, [CleanupEntry] of
    a version that lies below a version the snapshot sees returns, and the
    snapshot reads the name as before, whether the version alone was
    unlinked or the chain left the directory with it (the name having no
    default). *)
Theorem CleanupEntry_below_visible_version_is_unobservable (fuel : nat)
    (tx : CatalogTransaction) (entry_name : string) (d k : nat)
    (s : CatalogSet) (head n nk : Node) :
  directory_named (map s) ->
  map_GetEntry (map s) entry_name = Some head ->
  node_at (S d) head = Some n ->
  node_at k head = Some nk ->
  (k <= d)%nat ->
  UseTimestamp tx (timestamp (entry nk)) = true ->
  default_for s tx entry_name = None ->
  exists s',
    CleanupEntry (mkRef (Lower entry_name) (S d)) s = (Ret tt, s')
    /\ fst (GetEntry (S fuel) tx entry_name s') = fst (GetEntry (S fuel) tx entry_name s).
Proof.
  intros Hnamed Hhead Hn Hk Hle Hsee Hdef.
  unfold map_GetEntry in Hhead. pose proof (Hnamed _ _ Hhead) as Hchain.
  pose proof (chain_named_head _ _ (chain_named_node_at _ _ _ _ Hchain Hn)) as Hnn.
  destruct (node_at_splice_below d head n Hn) as [p [Hp Hparent]].
  pose proof (resolution_ignores_older_versions tx d k head n nk Hn Hk Hle Hsee)
    as Hsame.
  rewrite (GetEntry_found fuel tx entry_name s head Hhead).
  unfold CleanupEntry. cbv [Parent ref_depth ref_key]. unfold bind at 1.
  rewrite (DropEntry_map_inner (Lower entry_name) d s head n Hhead Hn).
  unfold map_GetEntry. rewrite Hnn, Hhead. run.
  unfold resolve at 1. cbv [ref_depth ref_key]. rewrite lookup_insert_eq.
  cbv [mbind option_bind]. rewrite Hparent.
  destruct (deleted (entry (mkNode (entry p) (Child n)))
            && negb (HasChild (mkNode (entry p) (Child n)))
            && negb (HasParent (mkRef (Lower entry_name) d))) eqn:Horphan.
  - apply andb_true_iff in Horphan. destruct Horphan as [Horphan Hroot].
    apply andb_true_iff in Horphan. destruct Horphan as [Hgone Hchildless].
    destruct d as [|d]; [|discriminate].
    assert (k = 0%nat) by lia. subst k. inversion Hk; subst nk.
    inversion Hp; subst p.
    destruct n as [en [cn|]]; [discriminate|].
    destruct head as [e [c|]]; [|discriminate]. cbn [entry Child] in *.
    inversion Hn; subst c.
    rewrite (DropEntry_map_head (Lower entry_name) _ e None);
      [|cbn [map with_map]; apply lookup_insert_eq
       |apply (chain_named_head _ _ Hchain)].
    eexists. split; [reflexivity|].
    rewrite GetEntry_absent;
      [|unfold map_GetEntry; cbn [map with_map]; apply lookup_delete_eq|exact Hdef].
    rewrite (GetEntryForTransaction_visible_head tx e _ Hsee). cbn [entry fst].
    rewrite Hgone. reflexivity.
  - eexists. split; [reflexivity|].
    erewrite GetEntry_found;
      [|unfold map_GetEntry; cbn [map with_map]; apply lookup_insert_eq].
    cbn [fst]. rewrite Hsame. reflexivity.
Qed.

Lemma CleanupEntry_last_child (key : string) (s : CatalogSet) (p v : CatalogEntry) :
  map s !! key = Some (mkNode p (Some (mkNode v None))) ->
  Lower (name p) = key ->
  Lower (name v) = key ->
  CleanupEntry (mkRef key 1) s
  = (Ret tt,
     with_map (if deleted p then delete key (map s)
               else <[key := mkNode p None]> (map s)) s).
Proof.
  intros Hhead Hp Hv. unfold CleanupEntry. cbv [Parent ref_depth ref_key].
  unfold bind at 1.
  rewrite (DropEntry_map_inner key 0 s _ (mkNode v None) Hhead eq_refl).
  unfold map_GetEntry. cbn [entry]. rewrite Hv, Hhead. run.
  unfold resolve at 1. cbv [ref_depth ref_key]. rewrite lookup_insert_eq.
  cbn [splice_below Child mbind option_bind node_at entry HasChild HasParent Parent
         ref_depth negb andb].
  rewrite !andb_true_r. destruct (deleted p); [|reflexivity].
  rewrite (DropEntry_map_head key _ p None);
    [|cbn [map with_map]; apply lookup_insert_eq|exact Hp].
  cbn [map with_map]. rewrite delete_insert_eq. reflexivity.
Qed.

(** X16.  [CleanupEntry] of the only version below a head unlinks that
    version; when the head is a tombstone the chain leaves the directory,
    otherwise the head stays alone in its chain.  No other chain and no
    entry of the undo log is touched. *)
Theorem CleanupEntry_removes_orphaned_tombstone (key : string) (s : CatalogSet)
    (p v : CatalogEntry) :
  map s !! key = Some (mkNode p (Some (mkNode v None))) ->
  Lower (name p) = key ->
  Lower (name v) = key ->
  exists s',
    CleanupEntry (mkRef key 1) s = (Ret tt, s')
    /\ map s' !! key = (if deleted p then None else Some (mkNode p None))
    /\ (forall k, k <> key -> map s' !! k = map s !! k)
    /\ undo_buffer s' = undo_buffer s.
Proof.
  intros Hhead Hp Hv. eexists. split; [exact (CleanupEntry_last_child _ _ _ _ Hhead Hp Hv)|].
  cbn [map with_map undo_buffer]. split; [|split; [|reflexivity]].
  - destruct (deleted p); [apply lookup_delete_eq|apply lookup_insert_eq].
  - intros k Hk. destruct (deleted p);
      [apply lookup_delete_ne|apply lookup_insert_ne]; congruence.
Qed.

(** ** Defaults *)

Lemma CreateDefaultEntry_materialises (retry : M (option CatalogEntry))
    (tx : CatalogTransaction) (entry_name : string) (s : CatalogSet)
    (e : CatalogEntry) :
  map_GetEntry (map s) entry_name = None ->
  default_for s tx entry_name = Some e ->
  Lower (name e) = Lower entry_name ->
  CreateDefaultEntry retry tx entry_name s
  = (Ret (Some (set_timestamp 0 e)),
     with_map (<[Lower entry_name := mkNode (set_timestamp 0 e) None]> (map s)) s).
Proof.
  intros Hnone Hdef Hname. revert Hdef. unfold default_for, CreateDefaultEntry. run.
  destruct (defaults s) as [g|]; [|discriminate].
  destruct (created_all_entries g); [discriminate|].
  destruct (negb (context tx)); [discriminate|].
  intros ->. unfold CreateEntryInternal, AddEntry. rewrite !run_assoc. run.
  unfold map_GetEntry in *. rewrite Hname, Hnone. rewrite ?run_assoc. run.
  change (name (set_timestamp 0 e)) with (name e). rewrite Hname, Hnone. run.
  reflexivity.
Qed.

(** X17.  On a name without chain for which the default generator yields
    an entry of that name, [GetEntry] starts a chain made of that entry
    stamped 0 and returns it; from then on [GetEntry] of that name, for any
    snapshot, with or without session context, leaves the set as it is and
    returns the same entry (absent if the default is flagged deleted). *)
Theorem GetEntry_materialises_default_once (fuel : nat) (tx : CatalogTransaction)
    (entry_name : string) (s : CatalogSet) (e : CatalogEntry) :
  map_GetEntry (map s) entry_name = None ->
  default_for s tx entry_name = Some e ->
  Lower (name e) = Lower entry_name ->
  exists s1,
    GetEntry (S fuel) tx entry_name s = (Ret (Some (set_timestamp 0 e)), s1)
    /\ map s1 = <[Lower entry_name := mkNode (set_timestamp 0 e) None]> (map s)
    /\ undo_buffer s1 = undo_buffer s
    /\ forall fuel' tx',
         GetEntry (S fuel') tx' entry_name s1
         = (Ret (if deleted e then None else Some (set_timestamp 0 e)), s1).
Proof.
  intros Hnone Hdef Hname. eexists. split.
  { simpl. run. rewrite Hnone.
    apply CreateDefaultEntry_materialises; assumption. }
  split; [reflexivity|]. split; [reflexivity|].
  intros fuel' tx'. erewrite GetEntry_found;
    [|unfold map_GetEntry; cbn [map with_map]; apply lookup_insert_eq].
  reflexivity.
Qed.

(** X18.  On a name without chain for which the default generator yields
    an entry of that name, [CreateEntry] (past its checks and the
    dependency manager) returns false: the default is in the directory,
    the candidate is not, nothing is pushed to the undo log, and the name
    resolves to the default. *)
Theorem CreateEntry_yields_to_default (fuel : nat) (tx : CatalogTransaction)
    (entry_name : string) (value : CatalogEntry) (deps : list string)
    (s : CatalogSet) (e : CatalogEntry) :
  CreateEntry_validate (catalog s) entry_name value = None ->
  AddObject (GetDependencyManager (catalog s)) tx
    (set_timestamp (transaction_id tx) value) deps = None ->
  map_GetEntry (map s) entry_name = None ->
  default_for s tx entry_name = Some e ->
  Lower (name e) = Lower entry_name ->
  exists s1,
    CreateEntry fuel tx entry_name value deps s = (Ret false, s1)
    /\ map s1 = <[Lower entry_name := mkNode (set_timestamp 0 e) None]> (map s)
    /\ undo_buffer s1 = undo_buffer s
    /\ forall fuel' tx',
         GetEntry (S fuel') tx' entry_name s1
         = (Ret (if deleted e then None else Some (set_timestamp 0 e)), s1).
Proof.
  intros Hv Hadd Hnone Hdef Hname. eexists. split.
  { unfold CreateEntry. run. rewrite Hv. run. rewrite Hadd. run. rewrite Hnone.
    fold (announced tx value s). unfold bind at 1.
    rewrite (CreateDefaultEntry_materialises _ tx entry_name (announced tx value s) e);
      [reflexivity|exact Hnone|exact Hdef|exact Hname]. }
  split; [reflexivity|]. split; [reflexivity|].
  intros fuel' tx'. erewrite GetEntry_found;
    [|unfold map_GetEntry; cbn [map with_map announced with_calls];
      apply lookup_insert_eq].
  reflexivity.
Qed.

(** ** More on rolling back, dropping and resolving *)

(** X19.  When [CreateEntry] revives a name whose head is a tombstone and
    [Undo] is applied to that tombstone, the candidate is unlinked and the
    directory is the one before the creation. *)
Theorem Undo_of_CreateEntry_over_tombstone (fuel : nat) (tx : CatalogTransaction)
    (entry_name : string) (value : CatalogEntry) (deps : list string)
    (s : CatalogSet) (current : Node) :
  CreateEntry_validate (catalog s) entry_name value = None ->
  AddObject (GetDependencyManager (catalog s)) tx
    (set_timestamp (transaction_id tx) value) deps = None ->
  map_GetEntry (map s) entry_name = Some current ->
  Lower (name value) = Lower entry_name ->
  HasConflict tx (timestamp (entry current)) = false ->
  deleted (entry current) = true ->
  CatalogType_eqb (type (entry current)) INVALID = false ->
  exists s1 s2,
    CreateEntry fuel tx entry_name value deps s = (Ret true, s1)
    /\ map_GetEntry (map s1) entry_name
       = Some (mkNode (set_timestamp (transaction_id tx) value) (Some current))
    /\ Undo (mkRef (Lower entry_name) 1) s1 = (Ret tt, s2)
    /\ map s2 = map s.
Proof.
  intros Hv Hadd Hcur Hname Hconflict Hgone Hkind.
  eexists. eexists. split.
  { rewrite (CreateEntry_on_chain _ _ _ _ _ _ _ Hv Hadd Hcur Hname).
    rewrite Hconflict, Hgone. reflexivity. }
  split; [unfold map_GetEntry, published; cbn [map]; apply lookup_insert_eq|].
  split; [apply Undo_of_published; [exact Hname|exact Hkind]|].
  cbn [map with_calls with_map announced]. apply insert_id. exact Hcur.
Qed.

Lemma DropDependencies_default (fuel : nat) (tx : CatalogTransaction)
    (entry_name : string) (cascade allow_drop_internal : bool)
    (s : CatalogSet) (e : CatalogEntry) :
  map_GetEntry (map s) entry_name = None ->
  default_for s tx entry_name = Some e ->
  Lower (name e) = Lower entry_name ->
  DropDependencies (S fuel) tx entry_name cascade allow_drop_internal s =
    let s' := with_map (<[Lower entry_name := mkNode (set_timestamp 0 e) None]> (map s)) s in
    if internal e && negb allow_drop_internal then (Throw Catalog_DropInternal, s')
    else match DropObject (GetDependencyManager (catalog s)) tx (set_timestamp 0 e)
                 cascade with
         | Some x =>
             (Throw x,
              with_calls (calls s ++ [Call_DropObject (set_timestamp 0 e) cascade]) s')
         | None =>
             (Ret true,
              with_calls (calls s ++ [Call_DropObject (set_timestamp 0 e) cascade]) s')
         end.
Proof.
  intros Hnone Hdef Hname. unfold DropDependencies. unfold bind at 1.
  simpl GetEntry. run. rewrite Hnone.
  rewrite (CreateDefaultEntry_materialises _ tx entry_name s e Hnone Hdef Hname).
  cbv zeta. change (internal (set_timestamp 0 e)) with (internal e).
  destruct (internal e && negb allow_drop_internal); [reflexivity|].
  run.
  destruct (DropObject (GetDependencyManager (catalog s)) tx (set_timestamp 0 e) cascade);
    reflexivity.
Qed.

(** X20.  [DropEntry] answers false, touching nothing, for a name without
    chain and without default.  For a name whose chain resolves to a live
    internal entry it throws a catalog exception, touching nothing, unless
    internal entries may be dropped, before the dependency manager is
    asked; an exception of the dependency manager is passed on.  For a name
    without chain that has a default, the lookup puts the default, stamped
    0, in the directory first, and the same two exceptions leave the set
    with that chain added.  None of these publishes a tombstone or pushes
    to the undo log. *)
Theorem DropEntry_guards (fuel : nat) (tx : CatalogTransaction)
    (entry_name : string) (cascade allow_drop_internal : bool) (s : CatalogSet) :
  (map_GetEntry (map s) entry_name = None ->
   default_for s tx entry_name = None ->
   DropEntry (S fuel) tx entry_name cascade allow_drop_internal s = (Ret false, s))
  /\ (forall head,
        map_GetEntry (map s) entry_name = Some head ->
        deleted (entry (GetEntryForTransaction tx head)) = false ->
        (internal (entry (GetEntryForTransaction tx head)) = true ->
         allow_drop_internal = false ->
         DropEntry (S fuel) tx entry_name cascade allow_drop_internal s
         = (Throw Catalog_DropInternal, s))
        /\ (forall x,
              internal (entry (GetEntryForTransaction tx head))
              && negb allow_drop_internal = false ->
              DropObject (GetDependencyManager (catalog s)) tx
                (entry (GetEntryForTransaction tx head)) cascade = Some x ->
              DropEntry (S fuel) tx entry_name cascade allow_drop_internal s
              = (Throw x,
                 with_calls
                   (calls s ++ [Call_DropObject (entry (GetEntryForTransaction tx head))
                                  cascade]) s)))
  /\ (forall e,
        map_GetEntry (map s) entry_name = None ->
        default_for s tx entry_name = Some e ->
        Lower (name e) = Lower entry_name ->
        (internal e = true ->
         allow_drop_internal = false ->
         DropEntry (S fuel) tx entry_name cascade allow_drop_internal s
         = (Throw Catalog_DropInternal,
            with_map (<[Lower entry_name := mkNode (set_timestamp 0 e) None]> (map s)) s))
        /\ (forall x,
              internal e && negb allow_drop_internal = false ->
              DropObject (GetDependencyManager (catalog s)) tx (set_timestamp 0 e)
                cascade = Some x ->
              DropEntry (S fuel) tx entry_name cascade allow_drop_internal s
              = (Throw x,
                 with_calls (calls s ++ [Call_DropObject (set_timestamp 0 e) cascade])
                   (with_map
                      (<[Lower entry_name := mkNode (set_timestamp 0 e) None]> (map s))
                      s)))).
Proof.
  split; [|split].
  - intros Hnone Hdef. unfold DropEntry, DropDependencies. rewrite !run_assoc.
    unfold bind at 1. rewrite (GetEntry_absent fuel tx entry_name s Hnone Hdef).
    reflexivity.
  - intros head Hhead Hlive. split.
    + intros Hint Hallow. unfold DropEntry. unfold bind at 1.
      rewrite (DropDependencies_found _ _ _ _ _ _ _ Hhead). cbv zeta.
      rewrite Hlive, Hint, Hallow. reflexivity.
    + intros x Hint Hraise. unfold DropEntry. unfold bind at 1.
      rewrite (DropDependencies_found _ _ _ _ _ _ _ Hhead). cbv zeta.
      rewrite Hlive, Hint, Hraise. reflexivity.
  - intros e Hnone Hdef Hname. split.
    + intros Hint Hallow. unfold DropEntry. unfold bind at 1.
      rewrite (DropDependencies_default _ _ _ _ _ _ _ Hnone Hdef Hname). cbv zeta.
      rewrite Hint, Hallow. reflexivity.
    + intros x Hint Hraise. unfold DropEntry. unfold bind at 1.
      rewrite (DropDependencies_default _ _ _ _ _ _ _ Hnone Hdef Hname). cbv zeta.
      rewrite Hint, Hraise. reflexivity.
Qed.

Lemma find_first_or_oldest (p : CatalogEntry -> bool) (chain : list CatalogEntry) :
  Exists (fun e => p e = true) chain ->
  first_or_oldest p chain = List.find p chain.
Proof.
  intros Hex. unfold first_or_oldest.
  destruct (List.find p chain) as [v|] eqn:Hfind; [reflexivity|].
  exfalso. apply Exists_exists in Hex. destruct Hex as [e [Hin He]].
  apply list_elem_of_In in Hin.
  pose proof (List.find_none p chain Hfind e Hin) as Hno. congruence.
Qed.

(** X21.  When some version of the chain is visible to the snapshot,
    [GetEntry] answers with the newest visible version of the chain, or
    absent when that version is a tombstone; this is the case of every
    chain that ends in a version stamped 0 for every snapshot with a
    positive start time. *)
Theorem GetEntry_returns_newest_visible_version (fuel : nat)
    (tx : CatalogTransaction) (entry_name : string) (s : CatalogSet) (head : Node) :
  map_GetEntry (map s) entry_name = Some head ->
  (Exists (fun e => visible tx e = true) (versions head) ->
   GetEntry (S fuel) tx entry_name s
   = (Ret (match List.find (visible tx) (versions head) with
           | Some v => if deleted v then None else Some v
           | None => None
           end), s))
  /\ (forall oldest,
        last (versions head) = Some oldest ->
        timestamp oldest = 0 -> 0 < start_time tx ->
        Exists (fun e => visible tx e = true) (versions head)).
Proof.
  intros Hhead. split.
  - intros Hex. rewrite (GetEntry_found _ _ _ _ _ Hhead).
    pose proof (GetEntryForTransaction_first_or_oldest tx head) as Hstop.
    rewrite (find_first_or_oldest _ _ Hex) in Hstop. rewrite Hstop. reflexivity.
  - intros oldest Hlast Hzero Hstart. apply Exists_exists. exists oldest. split.
    + apply list_elem_of_In. apply last_Some in Hlast. destruct Hlast as [l' ->].
      apply in_or_app. right. left. reflexivity.
    + unfold visible. rewrite Hzero. apply N.ltb_lt in Hstart. rewrite Hstart.
      apply orb_true_r.
Qed.

(** X22.  When some version of the chain has a committed timestamp, the
    untransacted [Scan] invokes the visitor, for that chain, on the newest
    committed version if it is not deleted, and not at all otherwise; this
    is the case of every chain that ends in a version stamped 0 when the
    threshold is positive. *)
Theorem Scan_chain_visits_newest_committed_version {S : Type}
    (callback : CatalogEntry -> S -> S) (acc : S) (head : Node) :
  (Exists (fun e => committed e = true) (versions head) ->
   Scan_chain callback acc head
   = match List.find committed (versions head) with
     | Some v => if deleted v then acc else callback v acc
     | None => acc
     end)
  /\ (forall oldest,
        last (versions head) = Some oldest ->
        timestamp oldest = 0 -> 0 < TRANSACTION_ID_START ->
        Exists (fun e => committed e = true) (versions head)).
Proof.
  split.
  - intros Hex. rewrite Scan_chain_resolves. unfold Scan_chain_resolved.
    rewrite (find_first_or_oldest _ _ Hex). reflexivity.
  - intros oldest Hlast Hzero Hpos. apply Exists_exists. exists oldest. split.
    + apply list_elem_of_In. apply last_Some in Hlast. destruct Hlast as [l' ->].
      apply in_or_app. right. left. reflexivity.
    + unfold committed. rewrite Hzero. apply N.ltb_lt. exact Hpos.
Qed.

(** X23.  After [CreateEntry] returned true for a live candidate on a name
    without chain, [UpdateTimestamp] stamped the head with its commit
    timestamp and [CleanupEntry] took the placeholder away, the version is
    alone in its chain and [GetEntry] resolves the name to it for every
    snapshot, whatever its start time. *)
Theorem committed_and_cleaned_version_is_seen_by_all (fuel : nat)
    (tx : CatalogTransaction) (entry_name : string) (A : CatalogEntry)
    (deps : list string) (commit_id : transaction_t) (s s1 : CatalogSet) :
  map_GetEntry (map s) entry_name = None ->
  Lower (name A) = Lower entry_name ->
  deleted A = false ->
  CreateEntry fuel tx entry_name A deps s = (Ret true, s1) ->
  exists s2 s3,
    UpdateTimestamp (mkRef (Lower entry_name) 0) commit_id s1 = (Ret tt, s2)
    /\ CleanupEntry (mkRef (Lower entry_name) 1) s2 = (Ret tt, s3)
    /\ map s3 = <[Lower entry_name := mkNode (set_timestamp commit_id A) None]> (map s)
    /\ forall fuel' tx',
         GetEntry (S fuel') tx' entry_name s3
         = (Ret (Some (set_timestamp commit_id A)), s3).
Proof.
  intros Hnone Hname Hlive Hcreate.
  destruct (CreateEntry_fresh_true_inv _ _ _ _ _ _ _ Hnone Hname Hcreate) as [_ ->].
  eexists. eexists. split.
  { apply UpdateTimestamp_head. unfold published. cbn [map]. apply lookup_insert_eq. }
  split.
  { apply (CleanupEntry_last_child (Lower entry_name) _
             (set_timestamp commit_id (set_timestamp (transaction_id tx) A))
             (placeholder entry_name));
      [cbn [map with_map]; apply lookup_insert_eq|exact Hname|reflexivity]. }
  cbn [deleted set_timestamp]. rewrite Hlive. cbn [map with_map published].
  split; [rewrite !insert_insert_eq; reflexivity|].
  intros fuel' tx'. erewrite GetEntry_found;
    [|unfold map_GetEntry; cbn [map with_map]; apply lookup_insert_eq].
  cbn [GetEntryForTransaction entry deleted set_timestamp]. rewrite Hlive.
  reflexivity.
Qed.

End Operations.

(** ** The properties on the instances *)

(** C1 as stated fails: the system snapshot (id 1, start 1) cannot see the
    version committed at 5, the only one of the chain, and [GetEntry]
    returns it all the same, where the visibility rule as worded finds no
    visible version. *)
Lemma GetEntry_returns_invisible_oldest_version :
  visible system_snapshot (table "t1" 1 5) = false
  /\ GetVisible system_snapshot (versions committed_t1) = None
  /\ GetEntry_as_specified system_snapshot (versions committed_t1) = None
  /\ GetEntry 1 system_snapshot "t1" set_committed_t1
     = (Ret (Some (table "t1" 1 5)), set_committed_t1).
Proof. repeat split; vm_compute; reflexivity. Qed.

Lemma GetEntry_resolves_witness :
  map_GetEntry (map set_altered_t1) "t1" = Some altered_t1
  /\ exists stop,
       first_or_oldest (visible tx7) (versions altered_t1) = Some stop
       /\ GetEntry 1 tx7 "t1" set_altered_t1
          = (Ret (if deleted stop then None else Some stop), set_altered_t1)
       /\ forall newer s',
            visible tx7 newer = false ->
            map_GetEntry (map s') "t1" = Some (mkNode newer (Some altered_t1)) ->
            GetEntry 1 tx7 "t1" s'
            = (Ret (if deleted stop then None else Some stop), s').
Proof.
  split; [vm_compute; reflexivity|].
  apply (GetEntry_resolves_first_visible_or_oldest 0 tx7 "t1" set_altered_t1 altered_t1).
  vm_compute; reflexivity.
Defined.

(** C8 as stated fails: the chain has no version with a committed
    timestamp, so nothing should be visited, and [Scan] visits its only
    version.  Nor does [Scan] look for the newest among the versions that
    are both committed and not deleted: below a committed tombstone, the
    committed table is not visited. *)
Lemma Scan_visits_uncommitted_oldest_version :
  (List.find (committed duckdb_TRANSACTION_ID_START) (versions uncommitted_t1) = None
   /\ fold_left
        (fun acc kv =>
           Scan_chain_as_specified duckdb_TRANSACTION_ID_START
             (fun e acc => e :: acc) acc (versions (snd kv)))
        (map_to_list (map set_uncommitted_t1)) [] = []
   /\ Scan duckdb_TRANSACTION_ID_START (fun e acc => e :: acc) [] set_uncommitted_t1
      = [table "t1" 1 (duckdb_TRANSACTION_ID_START + 1)])
  /\ (List.find
        (fun e => committed duckdb_TRANSACTION_ID_START e && negb (deleted e))
        (versions dropped_at_10_t1) = Some (table "t1" 1 5)
      /\ Scan duckdb_TRANSACTION_ID_START (fun e acc => e :: acc) []
           set_dropped_at_10_t1 = []).
Proof. repeat split; vm_compute; reflexivity. Qed.

(** C7 as stated fails twice.  A candidate that is neither internal nor
    temporary, created in a temporary catalog under a name other than the
    default schema, meets none of the three conditions and is rejected, with
    an invalid-input exception.  A candidate that is internal and temporary,
    created in the system catalog, meets the third condition and passes. *)
Lemma CreateEntry_validation_differs :
  (invariant_violation_as_specified duckdb_DEFAULT_SCHEMA temp_catalog "t1"
     (table "t1" 1 0) = false
   /\ CreateEntry_validate duckdb_DEFAULT_SCHEMA temp_catalog "t1" (table "t1" 1 0)
      = Some InvalidInput_NonTemporaryInTemporary
   /\ CreateEntry duckdb_TRANSACTION_ID_START duckdb_DEFAULT_SCHEMA 1 tx7 "t1"
        (table "t1" 1 0) [] empty_temp
      = (Throw InvalidInput_NonTemporaryInTemporary, empty_temp))
  /\ (invariant_violation_as_specified duckdb_DEFAULT_SCHEMA system_catalog "f"
        (mkEntry "f" MACRO_ENTRY 1 true true false 0) = true
      /\ CreateEntry_validate duckdb_DEFAULT_SCHEMA system_catalog "f"
           (mkEntry "f" MACRO_ENTRY 1 true true false 0) = None
      /\ fst (CreateEntry duckdb_TRANSACTION_ID_START duckdb_DEFAULT_SCHEMA 1 tx7 "f"
                (mkEntry "f" MACRO_ENTRY 1 true true false 0) []
                empty_system)
         = Ret true).
Proof. repeat split; vm_compute; reflexivity. Qed.

(** C2 as stated fails for a drop: "t1" was created by the transaction of
    id [TRANSACTION_ID_START + 1] and is not committed; the head is in
    conflict with the snapshot that started at 9, which resolves the name
    to the placeholder, and [DropEntry] answers false where the claim has a
    transaction error. *)
Lemma DropEntry_on_conflicting_head_returns_false :
  map (snd (CreateEntry duckdb_TRANSACTION_ID_START duckdb_DEFAULT_SCHEMA 1 tx7 "t1"
              (table "t1" 1 0) [] empty_main)) = map set_created_t1
  /\ map_GetEntry (map set_created_t1) "t1" = Some created_t1
  /\ HasConflict duckdb_TRANSACTION_ID_START tx9 (timestamp (entry created_t1)) = true
  /\ conflict_as_specified duckdb_TRANSACTION_ID_START tx9 (timestamp (entry created_t1))
  /\ DropEntry duckdb_TRANSACTION_ID_START 1 tx9 "t1" false false set_created_t1
     = (Ret false, set_created_t1).
Proof.
  split; [vm_compute; reflexivity|]. split; [vm_compute; reflexivity|].
  split; [vm_compute; reflexivity|]. split; [|vm_compute; reflexivity].
  apply HasConflict_iff. vm_compute; reflexivity.
Qed.

Lemma HasConflict_rule_and_abort_witness :
  (map_GetEntry (map set_dropped_t1) "t1" = Some dropped_t1
   /\ HasConflict duckdb_TRANSACTION_ID_START tx9 (timestamp (entry dropped_t1)) = true
   /\ CreateEntry_validate duckdb_DEFAULT_SCHEMA (catalog set_dropped_t1) "t1"
        (table "t1" 2 0) = None
   /\ map_GetEntry (map set_created_t1) "t1" = Some created_t1
   /\ HasConflict duckdb_TRANSACTION_ID_START tx9 (timestamp (entry created_t1)) = true)
  /\ (HasConflict duckdb_TRANSACTION_ID_START tx9 (duckdb_TRANSACTION_ID_START + 1) = true
      <-> conflict_as_specified duckdb_TRANSACTION_ID_START tx9
            (duckdb_TRANSACTION_ID_START + 1))
  /\ (exists s',
        CreateEntry duckdb_TRANSACTION_ID_START duckdb_DEFAULT_SCHEMA 1 tx9 "t1"
          (table "t1" 2 0) [] set_dropped_t1
        = (Throw Transaction_ConflictOnCreate, s')
        /\ map s' = map set_dropped_t1 /\ undo_buffer s' = undo_buffer set_dropped_t1)
  /\ AlterEntry duckdb_TRANSACTION_ID_START duckdb_DEFAULT_SCHEMA 1 tx9 "t1"
       (mkAlterInfo false (fun _ => Ret None)) set_dropped_t1
     = (Throw Transaction_ConflictOnAlter, set_dropped_t1)
  /\ DropEntryInternal duckdb_TRANSACTION_ID_START tx9 "t1" false DELETED_ENTRY
       set_dropped_t1
     = (Throw Transaction_ConflictOnAlter, set_dropped_t1)
  /\ DropEntry duckdb_TRANSACTION_ID_START 2 tx9 "t1" false false set_dropped_t1
     = (Throw Transaction_ConflictOnAlter,
        with_calls [Call_DropObject (table "t1" 1 5) false] set_dropped_t1)
  /\ DropEntry duckdb_TRANSACTION_ID_START 2 tx9 "t1" false false set_created_t1
     = (Ret false, set_created_t1).
Proof.
  destruct (HasConflict_rule_and_abort duckdb_TRANSACTION_ID_START duckdb_DEFAULT_SCHEMA)
    as [Hrule Habort].
  assert (Hhead : map_GetEntry (map set_dropped_t1) "t1" = Some dropped_t1)
    by (vm_compute; reflexivity).
  assert (Hconflict : HasConflict duckdb_TRANSACTION_ID_START tx9
                        (timestamp (entry dropped_t1)) = true)
    by (vm_compute; reflexivity).
  assert (Hhead' : map_GetEntry (map set_created_t1) "t1" = Some created_t1)
    by (vm_compute; reflexivity).
  assert (Hconflict' : HasConflict duckdb_TRANSACTION_ID_START tx9
                         (timestamp (entry created_t1)) = true)
    by (vm_compute; reflexivity).
  destruct (Habort 1%nat tx9 "t1" set_dropped_t1 dropped_t1 Hhead Hconflict)
    as (Hcreate & Halter & Hdrop_internal & Hdrop & _).
  destruct (Habort 1%nat tx9 "t1" set_created_t1 created_t1 Hhead' Hconflict')
    as (_ & _ & _ & Hdrop' & _).
  split; [repeat split; vm_compute; reflexivity|].
  split; [apply Hrule|].
  split; [apply Hcreate; vm_compute; reflexivity|].
  split; [apply Halter|].
  split; [apply Hdrop_internal|].
  split; [rewrite Hdrop; vm_compute; reflexivity|rewrite Hdrop'; vm_compute; reflexivity].
Defined.

Lemma CreateEntry_on_existing_chain_witness :
  (map_GetEntry (map set_recreated_t1) "t1" = Some recreated_t1
   /\ Lower (name (table "T1" 2 0)) = Lower "t1"
   /\ CreateEntry duckdb_TRANSACTION_ID_START duckdb_DEFAULT_SCHEMA 1 tx7 "t1"
        (table "T1" 2 0) [] set_recreated_t1
      = (Ret true,
         mkSet main_catalog None
           {[ "t1" := mkNode (table "T1" 2 (duckdb_TRANSACTION_ID_START + 1))
                        (Some recreated_t1) ]}
           [mkUndo (tombstone "t1" (duckdb_TRANSACTION_ID_START + 1)) false]
           [Call_AddObject (table "T1" 2 (duckdb_TRANSACTION_ID_START + 1))]))
  /\ (duckdb_TRANSACTION_ID_START <= transaction_id tx7
      /\ fst (CreateEntry duckdb_TRANSACTION_ID_START duckdb_DEFAULT_SCHEMA 1 tx7 "t1"
                (table "t1" 1 0) [] empty_main) = Ret true
      /\ exists s1 s2 s3,
           CreateEntry duckdb_TRANSACTION_ID_START duckdb_DEFAULT_SCHEMA 1 tx7 "t1"
             (table "t1" 1 0) [] empty_main = (Ret true, s1)
           /\ DropEntry duckdb_TRANSACTION_ID_START 2 tx7 "t1" false false s1
              = (Ret true, s2)
           /\ CreateEntry duckdb_TRANSACTION_ID_START duckdb_DEFAULT_SCHEMA 1 tx7 "t1"
                (table "T1" 2 0) [] s2 = (Ret true, s3)
           /\ GetEntry 2 tx7 "t1" s3
              = (Ret (Some (table "T1" 2 (duckdb_TRANSACTION_ID_START + 1))), s3)).
Proof.
  destruct (CreateEntry_on_existing_chain duckdb_TRANSACTION_ID_START duckdb_DEFAULT_SCHEMA)
    as [Houtcome Hrevival].
  split.
  - split; [vm_compute; reflexivity|]. split; [vm_compute; reflexivity|].
    rewrite (Houtcome 1%nat tx7 "t1" (table "T1" 2 0) [] set_recreated_t1 recreated_t1);
      vm_compute; reflexivity.
  - split; [vm_compute; discriminate|]. split; [vm_compute; reflexivity|].
    exists (snd (CreateEntry duckdb_TRANSACTION_ID_START duckdb_DEFAULT_SCHEMA 1 tx7 "t1"
                   (table "t1" 1 0) [] empty_main)).
    pose proof (Hrevival 1%nat tx7 "t1" (table "t1" 1 0) (table "T1" 2 0) [] []
                  false false empty_main
                  (snd (CreateEntry duckdb_TRANSACTION_ID_START duckdb_DEFAULT_SCHEMA 1
                          tx7 "t1" (table "t1" 1 0) [] empty_main))
                  ltac:(vm_compute; discriminate)
                  ltac:(vm_compute; reflexivity) ltac:(vm_compute; reflexivity)
                  ltac:(vm_compute; reflexivity) ltac:(vm_compute; reflexivity)
                  ltac:(vm_compute; reflexivity) ltac:(vm_compute; reflexivity)
                  ltac:(vm_compute; reflexivity) ltac:(vm_compute; reflexivity)
                  ltac:(vm_compute; reflexivity))
      as (s2 & s3 & Hdrop & Hcreate & Hget).
    exists s2, s3. split; [vm_compute; reflexivity|].
    split; [exact Hdrop|]. split; [exact Hcreate|exact Hget].
Defined.

Lemma CreateEntry_inserts_placeholder_tombstone_witness :
  (CreateEntry_validate duckdb_DEFAULT_SCHEMA main_catalog "t1" (table "t1" 1 0) = None
   /\ map_GetEntry (map empty_main) "t1" = None
   /\ default_for empty_main tx9 "t1" = None
   /\ visible tx7 (set_timestamp (transaction_id tx9) (table "t1" 1 0)) = false)
  /\ exists s',
       CreateEntry duckdb_TRANSACTION_ID_START duckdb_DEFAULT_SCHEMA 1 tx9 "t1"
         (table "t1" 1 0) [] empty_main = (Ret true, s')
       /\ map_GetEntry (map s') "t1"
          = Some (mkNode (table "t1" 1 (duckdb_TRANSACTION_ID_START + 2))
                    (Some (mkNode (placeholder "t1") None)))
       /\ GetEntry 1 tx7 "t1" s' = (Ret None, s').
Proof.
  split; [repeat split; vm_compute; reflexivity|].
  destruct (CreateEntry_inserts_placeholder_tombstone
              duckdb_TRANSACTION_ID_START duckdb_DEFAULT_SCHEMA 1%nat tx9 "t1"
              (table "t1" 1 0) [] empty_main
              ltac:(vm_compute; reflexivity) ltac:(vm_compute; reflexivity)
              ltac:(vm_compute; reflexivity) ltac:(vm_compute; reflexivity)
              ltac:(vm_compute; reflexivity))
    as (s' & dummy_node & Hcreate & Hhead & _ & _ & _ & Hread).
  exists s'. split; [exact Hcreate|].
  split; [|exact (proj2 (Hread 0%nat tx7 ltac:(vm_compute; reflexivity)))].
  assert (Hs' : s' = snd (CreateEntry duckdb_TRANSACTION_ID_START duckdb_DEFAULT_SCHEMA
                            1 tx9 "t1" (table "t1" 1 0) [] empty_main))
    by (rewrite Hcreate; reflexivity).
  rewrite Hs'. vm_compute. reflexivity.
Defined.

Lemma AlterEntry_rename_target_exists_witness :
  (map_GetEntry (map set_a_b) "a"
   = Some (mkNode (table "a" 1 5) (Some (mkNode (placeholder "a") None)))
   /\ object_AlterEntry (rename_to "b") (table "a" 1 5) = Ret (Some (table "b" 1 5))
   /\ CIEquals "b" "a" = false
   /\ map_GetEntry (map set_a_b) "b"
      = Some (mkNode (table "b" 2 6) (Some (mkNode (placeholder "b") None))))
  /\ exists s',
       AlterEntry duckdb_TRANSACTION_ID_START duckdb_DEFAULT_SCHEMA 1 tx9 "a"
         (rename_to "b") set_a_b = (Throw Catalog_RenameTargetExists, s')
       /\ calls s' = [Call_AlterEntry (table "a" 1 5); Call_UndoAlter (table "a" 1 5)]
       /\ map s' = map set_a_b
       /\ undo_buffer s' = undo_buffer set_a_b.
Proof.
  split; [repeat split; vm_compute; reflexivity|].
  destruct (AlterEntry_rename_target_exists
              duckdb_TRANSACTION_ID_START duckdb_DEFAULT_SCHEMA 1%nat tx9 "a"
              (rename_to "b") set_a_b
              (mkNode (table "a" 1 5) (Some (mkNode (placeholder "a") None)))
              (mkNode (table "b" 2 6) (Some (mkNode (placeholder "b") None)))
              (table "b" 1 5)
              ltac:(vm_compute; reflexivity) ltac:(vm_compute; reflexivity)
              ltac:(vm_compute; reflexivity) ltac:(vm_compute; reflexivity)
              ltac:(vm_compute; reflexivity) ltac:(vm_compute; reflexivity)
              ltac:(vm_compute; reflexivity) ltac:(vm_compute; reflexivity)
              ltac:(vm_compute; reflexivity))
    as (s' & Hthrow & _ & Hcalls & Hmap & Hundo & _).
  exists s'. split; [exact Hthrow|]. split; [exact Hcalls|].
  split; [exact Hmap|exact Hundo].
Defined.

Lemma AlterEntry_declined_is_noop_witness :
  (map_GetEntry (map set_a_b) "a"
   = Some (mkNode (table "a" 1 5) (Some (mkNode (placeholder "a") None)))
   /\ HasConflict duckdb_TRANSACTION_ID_START tx9 5 = false
   /\ context tx9 = true
   /\ object_AlterEntry declined_alter (table "a" 1 5) = Ret None)
  /\ exists s',
       AlterEntry duckdb_TRANSACTION_ID_START duckdb_DEFAULT_SCHEMA 1 tx9 "a"
         declined_alter set_a_b = (Ret true, s')
       /\ map s' = map set_a_b
       /\ undo_buffer s' = undo_buffer set_a_b.
Proof.
  split; [repeat split; vm_compute; reflexivity|].
  destruct (AlterEntry_declined_is_noop
              duckdb_TRANSACTION_ID_START duckdb_DEFAULT_SCHEMA 1%nat tx9 "a"
              declined_alter set_a_b
              (mkNode (table "a" 1 5) (Some (mkNode (placeholder "a") None)))
              ltac:(vm_compute; reflexivity) ltac:(vm_compute; reflexivity)
              ltac:(vm_compute; reflexivity) ltac:(vm_compute; reflexivity)
              ltac:(vm_compute; reflexivity) ltac:(vm_compute; reflexivity))
    as (s' & Hret & Hmap & Hundo & _).
  exists s'. split; [exact Hret|]. split; [exact Hmap|exact Hundo].
Defined.

Lemma Undo_of_CreateEntry_restores_directory_witness :
  (map_GetEntry (map empty_main) "x" = None
   /\ Lower (name (table "x" 1 0)) = Lower "x"
   /\ fst (CreateEntry duckdb_TRANSACTION_ID_START duckdb_DEFAULT_SCHEMA 1 tx7 "x"
             (table "x" 1 0) [] empty_main) = Ret true
   /\ fst (GetEntry 1 tx9 "x" empty_main) = Ret None)
  /\ exists s2,
       Undo (mkRef "x" 1)
         (snd (CreateEntry duckdb_TRANSACTION_ID_START duckdb_DEFAULT_SCHEMA 1 tx7 "x"
                 (table "x" 1 0) [] empty_main)) = (Ret tt, s2)
       /\ map s2 = ∅
       /\ map_GetEntry (map s2) "x" = None
       /\ GetEntry 1 tx9 "x" s2 = (Ret None, s2)
       /\ GetEntry 1 system_snapshot "x" s2 = (Ret None, s2)
       /\ fst (GetEntry 1 tx9 "t1" s2) = fst (GetEntry 1 tx9 "t1" empty_main).
Proof.
  split; [repeat split; vm_compute; reflexivity|].
  destruct (Undo_of_CreateEntry_restores_directory
              duckdb_TRANSACTION_ID_START duckdb_DEFAULT_SCHEMA 1%nat tx7 "x"
              (table "x" 1 0) [] empty_main
              (snd (CreateEntry duckdb_TRANSACTION_ID_START duckdb_DEFAULT_SCHEMA 1 tx7
                      "x" (table "x" 1 0) [] empty_main))
              ltac:(vm_compute; reflexivity) ltac:(vm_compute; reflexivity)
              ltac:(vm_compute; reflexivity))
    as (s2 & _ & Hundo & Hmap & Hnone & Habsent & Hread & Hsame).
  exists s2. split; [exact Hundo|]. split; [exact Hmap|]. split; [exact Hnone|].
  split; [apply (Habsent 1%nat tx9); vm_compute; reflexivity|].
  split; [apply (Hread eq_refl 0%nat system_snapshot)|].
  apply (Hsame 1%nat tx9 "t1").
Defined.

Lemma CleanupEntry_requires_parent_witness :
  (resolve (map set_altered_t1) (mkRef "t1" 0) = Some altered_t1
   /\ HasParent (mkRef "t1" 0) = false
   /\ CleanupEntry (mkRef "t1" 0) set_altered_t1 = (Crash NullDereference, set_altered_t1))
  /\ (resolve (map set_altered_t1) (mkRef "t1" 1)
      = Some (mkNode (table "t1" 1 5) (Some (mkNode (placeholder "t1") None)))
      /\ HasParent (mkRef "t1" 1) = true
      /\ exists s',
           CleanupEntry (mkRef "t1" 1) set_altered_t1 = (Ret tt, s')
           \/ CleanupEntry (mkRef "t1" 1) set_altered_t1
              = (Throw Internal_DropWithoutChain, s')).
Proof.
  split.
  - split; [vm_compute; reflexivity|]. split; [reflexivity|].
    apply (CleanupEntry_requires_parent (mkRef "t1" 0) set_altered_t1 altered_t1);
      vm_compute; reflexivity.
  - split; [vm_compute; reflexivity|]. split; [reflexivity|].
    apply (CleanupEntry_requires_parent (mkRef "t1" 1) set_altered_t1
             (mkNode (table "t1" 1 5) (Some (mkNode (placeholder "t1") None))));
      vm_compute; reflexivity.
Defined.

(** ** The further properties on the instances *)

Lemma HasConflict_complements_UseTimestamp_witness :
  (start_time tx9 < duckdb_TRANSACTION_ID_START
   /\ duckdb_TRANSACTION_ID_START <= transaction_id tx9)
  /\ HasConflict duckdb_TRANSACTION_ID_START tx9 9
     = negb (UseTimestamp tx9 9 || (9 =? start_time tx9)).
Proof.
  split; [split; [vm_compute; reflexivity|vm_compute; discriminate]|].
  apply (HasConflict_complements_UseTimestamp duckdb_TRANSACTION_ID_START tx9 9);
    [vm_compute; reflexivity|vm_compute; discriminate].
Defined.

Lemma AddEntry_then_lookup_witness :
  map_GetEntry (map empty_main) "T1" = None
  /\ exists s',
       AddEntry (table "T1" 1 0) empty_main = (Ret tt, s')
       /\ map_GetEntry (map s') "t1" = Some (mkNode (table "T1" 1 0) None)
       /\ AddEntry (table "t1" 2 0) s' = (Throw Internal_EntryAlreadyExists, s').
Proof.
  split; [vm_compute; reflexivity|].
  pose proof (AddEntry_then_lookup (table "T1" 1 0) empty_main) as Hadd.
  change (map_GetEntry (map empty_main) (name (table "T1" 1 0))) with (@None Node) in Hadd.
  destruct Hadd as (s' & Hrun & _ & _ & Hfind & _ & Hagain).
  exists s'. split; [exact Hrun|]. split.
  - apply Hfind. vm_compute. reflexivity.
  - apply Hagain. vm_compute. reflexivity.
Defined.

Lemma UpdateEntry_then_DropEntry_witness :
  map_GetEntry (map set_committed_t1) "t1" = Some committed_t1
  /\ exists s',
       UpdateEntry (table "t1" 2 10) set_committed_t1 = (Ret tt, s')
       /\ map_GetEntry (map s') "t1" = Some (mkNode (table "t1" 2 10) (Some committed_t1))
       /\ DropEntry_map (mkRef "t1" 0) s' = (Ret tt, set_committed_t1).
Proof.
  split; [vm_compute; reflexivity|].
  pose proof (UpdateEntry_then_DropEntry (table "t1" 2 10) set_committed_t1) as Hupdate.
  change (map_GetEntry (map set_committed_t1) (name (table "t1" 2 10)))
    with (Some committed_t1) in Hupdate.
  destruct Hupdate as (s' & Hrun & Hhead & _ & _ & Hback).
  exists s'. split; [exact Hrun|]. split; [exact Hhead|exact Hback].
Defined.

Lemma DropEntry_unlinks_inner_version_witness :
  (map set_altered_t1 !! "t1" = Some altered_t1
   /\ node_at 1 altered_t1 = Some live_t1)
  /\ exists s' head',
       DropEntry_map (mkRef "t1" 1) set_altered_t1 = (Ret tt, s')
       /\ map s' !! "t1" = Some head'
       /\ versions head' = [table "t1" 2 10; placeholder "t1"].
Proof.
  split; [split; vm_compute; reflexivity|].
  pose proof (DropEntry_unlinks_inner_version "t1" 0 set_altered_t1 altered_t1 live_t1
                ltac:(vm_compute; reflexivity) ltac:(vm_compute; reflexivity)) as Hdrop.
  change (map_GetEntry (map set_altered_t1) (name (entry live_t1)))
    with (Some altered_t1) in Hdrop.
  destruct Hdrop as (s' & head' & Hrun & Hhead & Hversions & _).
  exists s', head'. split; [exact Hrun|]. split; [exact Hhead|exact Hversions].
Defined.

Lemma directory_keeps_chain_names_witness :
  directory_named (map empty_main)
  /\ directory_named
       (map (snd (CreateEntry duckdb_TRANSACTION_ID_START duckdb_DEFAULT_SCHEMA 1 tx7
                    "T1" (table "t1" 1 0) [] empty_main)))
  /\ directory_named
       (map (snd (AlterEntry duckdb_TRANSACTION_ID_START duckdb_DEFAULT_SCHEMA 1 tx9
                    "a" (rename_to "c") set_a_b))).
Proof.
  destruct (directory_keeps_chain_names duckdb_TRANSACTION_ID_START duckdb_DEFAULT_SCHEMA)
    as (Hempty & _ & Hcreate & Halter & _).
  assert (Hab : directory_named (map set_a_b)).
  { intros key head. unfold set_a_b, set_of. cbn [map].
    rewrite lookup_insert. case_decide as Ha.
    - intros Heq. inversion Heq; subst.
      repeat constructor.
    - rewrite lookup_singleton. case_decide as Hb; [|discriminate].
      intros Heq. inversion Heq; subst. repeat constructor. }
  split; [exact Hempty|]. split.
  - apply Hcreate. exact Hempty.
  - apply Halter. exact Hab.
Defined.

Ltac by_computation := vm_compute; first [reflexivity | discriminate].

Lemma CreateEntry_twice_returns_false_witness :
  (duckdb_TRANSACTION_ID_START <= transaction_id tx7
   /\ fst (CreateEntry duckdb_TRANSACTION_ID_START duckdb_DEFAULT_SCHEMA 1 tx7 "T1"
             (table "t1" 1 0) [] empty_main) = Ret true)
  /\ exists s1 s2,
       CreateEntry duckdb_TRANSACTION_ID_START duckdb_DEFAULT_SCHEMA 1 tx7 "T1"
         (table "t1" 1 0) [] empty_main = (Ret true, s1)
       /\ CreateEntry duckdb_TRANSACTION_ID_START duckdb_DEFAULT_SCHEMA 1 tx7 "T1"
            (table "T1" 2 0) [] s1 = (Ret false, s2)
       /\ map s2 = map s1
       /\ GetEntry 2 tx7 "T1" s2
          = (Ret (Some (table "t1" 1 (duckdb_TRANSACTION_ID_START + 1))), s2).
Proof.
  split; [split; by_computation|].
  exists (snd (CreateEntry duckdb_TRANSACTION_ID_START duckdb_DEFAULT_SCHEMA 1 tx7 "T1"
                 (table "t1" 1 0) [] empty_main)).
  destruct (CreateEntry_twice_returns_false
              duckdb_TRANSACTION_ID_START duckdb_DEFAULT_SCHEMA 1%nat 1%nat tx7 "T1"
              (table "t1" 1 0) (table "T1" 2 0) [] [] empty_main
              (snd (CreateEntry duckdb_TRANSACTION_ID_START duckdb_DEFAULT_SCHEMA 1 tx7
                      "T1" (table "t1" 1 0) [] empty_main))
              ltac:(by_computation) ltac:(by_computation) ltac:(by_computation)
              ltac:(by_computation) ltac:(by_computation) ltac:(by_computation))
    as (s2 & Hsecond & Hmap & _ & Hget).
  exists s2. split; [by_computation|]. split; [exact Hsecond|].
  split; [exact Hmap|exact Hget].
Defined.

Lemma CreateEntry_blocks_other_transactions_witness :
  (duckdb_TRANSACTION_ID_START <= transaction_id tx7
   /\ transaction_id tx9 <> transaction_id tx7
   /\ fst (CreateEntry duckdb_TRANSACTION_ID_START duckdb_DEFAULT_SCHEMA 1 tx7 "t1"
             (table "t1" 1 0) [] empty_main) = Ret true)
  /\ exists s1,
       CreateEntry duckdb_TRANSACTION_ID_START duckdb_DEFAULT_SCHEMA 1 tx7 "t1"
         (table "t1" 1 0) [] empty_main = (Ret true, s1)
       /\ fst (CreateEntry duckdb_TRANSACTION_ID_START duckdb_DEFAULT_SCHEMA 1 tx9 "t1"
                 (table "t1" 2 0) [] s1) = Throw Transaction_ConflictOnCreate
       /\ AlterEntry duckdb_TRANSACTION_ID_START duckdb_DEFAULT_SCHEMA 1 tx9 "t1"
            renumber s1 = (Throw Transaction_ConflictOnAlter, s1).
Proof.
  split; [split; [|split]; by_computation|].
  exists (snd (CreateEntry duckdb_TRANSACTION_ID_START duckdb_DEFAULT_SCHEMA 1 tx7 "t1"
                 (table "t1" 1 0) [] empty_main)).
  destruct (CreateEntry_blocks_other_transactions
              duckdb_TRANSACTION_ID_START duckdb_DEFAULT_SCHEMA 1%nat 1%nat tx7 tx9 "t1"
              (table "t1" 1 0) (table "t1" 2 0) [] [] renumber empty_main
              (snd (CreateEntry duckdb_TRANSACTION_ID_START duckdb_DEFAULT_SCHEMA 1 tx7
                      "t1" (table "t1" 1 0) [] empty_main))
              ltac:(by_computation) ltac:(by_computation) ltac:(by_computation)
              ltac:(by_computation) ltac:(by_computation) ltac:(by_computation))
    as [(s2 & Hcreate & _) Halter].
  split; [by_computation|]. split; [rewrite Hcreate; reflexivity|exact Halter].
Defined.

Lemma DropEntry_of_foreign_creation_returns_false_witness :
  (duckdb_TRANSACTION_ID_START <= transaction_id tx7
   /\ transaction_id tx9 <> transaction_id tx7
   /\ start_time tx9 <= transaction_id tx7
   /\ map_GetEntry (map empty_main) "t1" = None
   /\ fst (CreateEntry duckdb_TRANSACTION_ID_START duckdb_DEFAULT_SCHEMA 1 tx7 "t1"
             (table "t1" 1 0) [] empty_main) = Ret true)
  /\ exists s1 head,
       CreateEntry duckdb_TRANSACTION_ID_START duckdb_DEFAULT_SCHEMA 1 tx7 "t1"
         (table "t1" 1 0) [] empty_main = (Ret true, s1)
       /\ map_GetEntry (map s1) "t1" = Some head
       /\ HasConflict duckdb_TRANSACTION_ID_START tx9 (timestamp (entry head)) = true
       /\ DropEntry duckdb_TRANSACTION_ID_START 1 tx9 "t1" false false s1 = (Ret false, s1).
Proof.
  split; [repeat split; by_computation|].
  exists (snd (CreateEntry duckdb_TRANSACTION_ID_START duckdb_DEFAULT_SCHEMA 1 tx7 "t1"
                 (table "t1" 1 0) [] empty_main)).
  destruct (DropEntry_of_foreign_creation_returns_false
              duckdb_TRANSACTION_ID_START duckdb_DEFAULT_SCHEMA 1%nat 0%nat tx7 tx9 "t1"
              (table "t1" 1 0) [] false false empty_main
              (snd (CreateEntry duckdb_TRANSACTION_ID_START duckdb_DEFAULT_SCHEMA 1 tx7
                      "t1" (table "t1" 1 0) [] empty_main))
              ltac:(by_computation) ltac:(by_computation) ltac:(by_computation)
              ltac:(by_computation) ltac:(by_computation) ltac:(by_computation))
    as (head & Hhead & Hconflict & Hdrop).
  exists head. split; [by_computation|]. split; [exact Hhead|].
  split; [exact Hconflict|exact Hdrop].
Defined.

Lemma DropEntry_publishes_tombstone_witness :
  (map_GetEntry (map set_live_t1) "t1" = Some live_t1
   /\ UseTimestamp tx9 (timestamp (entry live_t1)) = true
   /\ HasConflict duckdb_TRANSACTION_ID_START tx9 (timestamp (entry live_t1)) = false
   /\ visible tx7 (tombstone "t1" (duckdb_TRANSACTION_ID_START + 2)) = false)
  /\ exists s2,
       DropEntry duckdb_TRANSACTION_ID_START 1 tx9 "t1" false false set_live_t1
       = (Ret true, s2)
       /\ map s2
          = {[ "t1" := mkNode (tombstone "t1" (duckdb_TRANSACTION_ID_START + 2))
                         (Some live_t1) ]}
       /\ undo_buffer s2 = [mkUndo (table "t1" 1 5) false]
       /\ GetEntry 1 tx9 "t1" s2 = (Ret None, s2)
       /\ fst (GetEntry 1 tx7 "t1" s2) = Ret (Some (table "t1" 1 5))
       /\ exists s3, Undo (mkRef "t1" 1) s2 = (Ret tt, s3) /\ map s3 = map set_live_t1.
Proof.
  split; [repeat split; by_computation|].
  destruct (DropEntry_publishes_tombstone
              duckdb_TRANSACTION_ID_START 0%nat tx9 "t1" false false set_live_t1 live_t1
              ltac:(by_computation) ltac:(by_computation) ltac:(by_computation)
              ltac:(by_computation) ltac:(by_computation) ltac:(by_computation)
              ltac:(by_computation) ltac:(by_computation))
    as (s2 & tomb & Hrun & Hmap & _ & Hundo & Hself & _ & Hback).
  exists s2. split; [exact Hrun|].
  assert (Hs2 : s2 = snd (DropEntry duckdb_TRANSACTION_ID_START 1 tx9 "t1" false false
                            set_live_t1)) by (rewrite Hrun; reflexivity).
  split; [rewrite Hs2; by_computation|]. split; [rewrite Hs2; by_computation|].
  split; [exact Hself|]. split; [rewrite Hs2; by_computation|exact Hback].
Defined.

Lemma AlterEntry_guards_witness :
  (map_GetEntry (map set_a_b) "c" = None
   /\ map_GetEntry (map set_internal_f) "f" = Some internal_f
   /\ HasConflict duckdb_TRANSACTION_ID_START tx9 (timestamp (entry internal_f)) = false)
  /\ AlterEntry duckdb_TRANSACTION_ID_START duckdb_DEFAULT_SCHEMA 1 tx9 "c" renumber set_a_b
     = (Ret false, set_a_b)
  /\ AlterEntry duckdb_TRANSACTION_ID_START duckdb_DEFAULT_SCHEMA 1 system_snapshot "f"
       renumber set_internal_f
     = (Throw Catalog_AlterInternal, set_internal_f)
  /\ AlterEntry duckdb_TRANSACTION_ID_START duckdb_DEFAULT_SCHEMA 1 system_snapshot "f"
       (rename_internal_to "g") set_internal_f
     = (Throw Internal_AlterWithoutContext, set_internal_f).
Proof.
  split; [repeat split; by_computation|].
  split; [|split].
  - apply (proj1 (AlterEntry_guards duckdb_TRANSACTION_ID_START duckdb_DEFAULT_SCHEMA
                    1%nat tx9 "c" renumber set_a_b)).
    by_computation.
  - destruct (proj2 (AlterEntry_guards duckdb_TRANSACTION_ID_START duckdb_DEFAULT_SCHEMA
                       1%nat system_snapshot "f" renumber set_internal_f)
                internal_f ltac:(by_computation) ltac:(by_computation))
      as (_ & Hinternal & _).
    apply Hinternal; by_computation.
  - destruct (proj2 (AlterEntry_guards duckdb_TRANSACTION_ID_START duckdb_DEFAULT_SCHEMA
                       1%nat system_snapshot "f" (rename_internal_to "g") set_internal_f)
                internal_f ltac:(by_computation) ltac:(by_computation))
      as (_ & _ & Hcontext & _).
    apply Hcontext; by_computation.
Defined.

Lemma AlterEntry_in_place_witness :
  (map_GetEntry (map set_live_t1) "t1" = Some live_t1
   /\ HasConflict duckdb_TRANSACTION_ID_START tx9 (timestamp (entry live_t1)) = false
   /\ object_AlterEntry renumber (entry live_t1) = Ret (Some (table "t1" 2 5))
   /\ visible tx7 (table "t1" 2 (duckdb_TRANSACTION_ID_START + 2)) = false)
  /\ exists s',
       AlterEntry duckdb_TRANSACTION_ID_START duckdb_DEFAULT_SCHEMA 1 tx9 "t1" renumber
         set_live_t1 = (Ret true, s')
       /\ map s'
          = {[ "t1" := mkNode (table "t1" 2 (duckdb_TRANSACTION_ID_START + 2))
                         (Some live_t1) ]}
       /\ undo_buffer s' = [mkUndo (table "t1" 1 5) true]
       /\ GetEntry 2 tx9 "t1" s'
          = (Ret (Some (table "t1" 2 (duckdb_TRANSACTION_ID_START + 2))), s')
       /\ GetEntryForTransaction tx7
            (mkNode (table "t1" 2 (duckdb_TRANSACTION_ID_START + 2)) (Some live_t1))
          = GetEntryForTransaction tx7 live_t1
       /\ exists s'', Undo (mkRef "t1" 1) s' = (Ret tt, s'')
                      /\ map s'' = map set_live_t1.
Proof.
  split; [repeat split; by_computation|].
  destruct (AlterEntry_in_place
              duckdb_TRANSACTION_ID_START duckdb_DEFAULT_SCHEMA 1%nat tx9 "t1" renumber
              set_live_t1 live_t1 (table "t1" 2 5)
              ltac:(by_computation) ltac:(by_computation) ltac:(by_computation)
              ltac:(by_computation) ltac:(by_computation) ltac:(by_computation)
              ltac:(by_computation) ltac:(by_computation) ltac:(by_computation)
              ltac:(by_computation))
    as (s' & Hrun & Hmap & Hlog & Hget & Hothers & Hundo).
  exists s'. split; [exact Hrun|].
  split; [rewrite Hmap; by_computation|]. split; [exact Hlog|]. split; [exact Hget|].
  split; [apply (Hothers tx7); by_computation|exact Hundo].
Defined.

Lemma AlterEntry_rename_witness :
  (duckdb_TRANSACTION_ID_START <= transaction_id tx9
   /\ map_GetEntry (map set_a_b) "a"
      = Some (mkNode (table "a" 1 5) (Some (mkNode (placeholder "a") None)))
   /\ object_AlterEntry (rename_to "c") (table "a" 1 5) = Ret (Some (table "c" 1 5))
   /\ map_GetEntry (map set_a_b) "c" = None
   /\ UseTimestamp tx7 (transaction_id tx9) = false)
  /\ exists s',
       AlterEntry duckdb_TRANSACTION_ID_START duckdb_DEFAULT_SCHEMA 1 tx9 "a"
         (rename_to "c") set_a_b = (Ret true, s')
       /\ GetEntry 2 tx9 "a" s' = (Ret None, s')
       /\ GetEntry 2 tx9 "c" s'
          = (Ret (Some (table "c" 1 (duckdb_TRANSACTION_ID_START + 2))), s')
       /\ GetEntry 2 tx7 "c" s' = (Ret None, s')
       /\ GetEntry 2 tx7 "a" s' = (Ret (Some (table "a" 1 5)), s')
       /\ map s' !! "b" = map set_a_b !! "b".
Proof.
  split; [repeat split; by_computation|].
  destruct (AlterEntry_rename
              duckdb_TRANSACTION_ID_START duckdb_DEFAULT_SCHEMA 1%nat tx9 "a"
              (rename_to "c") set_a_b
              (mkNode (table "a" 1 5) (Some (mkNode (placeholder "a") None)))
              (table "c" 1 5)
              ltac:(by_computation) ltac:(by_computation) ltac:(by_computation)
              ltac:(by_computation) ltac:(by_computation) ltac:(by_computation)
              ltac:(by_computation) ltac:(by_computation) ltac:(by_computation)
              ltac:(by_computation) ltac:(by_computation) ltac:(by_computation)
              ltac:(by_computation) ltac:(by_computation))
    as (s' & gone & marker & Hrun & _ & _ & _ & _ & Hrest & _ & Hold & Hnew & Hothers).
  exists s'. split; [exact Hrun|]. split; [exact Hold|]. split; [exact Hnew|].
  destruct (Hothers tx7 ltac:(by_computation)) as [Hc Ha].
  split; [exact Hc|]. split; [exact Ha|].
  apply Hrest; by_computation.
Defined.

Lemma AlterEntry_rename_of_internal_entry_witness :
  (map_GetEntry (map set_internal_f) "f" = Some internal_f
   /\ HasConflict duckdb_TRANSACTION_ID_START tx9 (timestamp (entry internal_f)) = false
   /\ allow_internal (rename_internal_to "g") = true
   /\ internal (entry internal_f) = true
   /\ map_GetEntry (map set_internal_f) "g" = None)
  /\ AlterEntry duckdb_TRANSACTION_ID_START duckdb_DEFAULT_SCHEMA 1 tx9 "f"
       (rename_internal_to "g") set_internal_f
     = (Throw Catalog_DropInternal,
        with_calls [Call_AlterEntry (entry internal_f)] set_internal_f).
Proof.
  split; [repeat split; by_computation|].
  exact (AlterEntry_rename_of_internal_entry
           duckdb_TRANSACTION_ID_START duckdb_DEFAULT_SCHEMA 1%nat tx9 "f"
           (rename_internal_to "g") set_internal_f internal_f
           (mkEntry "g" MACRO_ENTRY 1 true false false 0)
           ltac:(by_computation) ltac:(by_computation) ltac:(by_computation)
           ltac:(by_computation) ltac:(by_computation) ltac:(by_computation)
           ltac:(by_computation) ltac:(by_computation) ltac:(by_computation)
           ltac:(by_computation)).
Defined.

Lemma committed_creation_is_visible_to_later_snapshots_witness :
  (8 < duckdb_TRANSACTION_ID_START
   /\ map_GetEntry (map empty_main) "t1" = None
   /\ fst (CreateEntry duckdb_TRANSACTION_ID_START duckdb_DEFAULT_SCHEMA 1 tx7 "t1"
             (table "t1" 1 0) [] empty_main) = Ret true
   /\ 8 < start_time tx9 /\ start_time tx6 <= 8 /\ transaction_id tx6 <> 8)
  /\ exists s1 s2,
       CreateEntry duckdb_TRANSACTION_ID_START duckdb_DEFAULT_SCHEMA 1 tx7 "t1"
         (table "t1" 1 0) [] empty_main = (Ret true, s1)
       /\ UpdateTimestamp (mkRef "t1" 0) 8 s1 = (Ret tt, s2)
       /\ GetEntry 1 tx9 "t1" s2 = (Ret (Some (table "t1" 1 8)), s2)
       /\ HasConflict duckdb_TRANSACTION_ID_START tx9 8 = false
       /\ GetEntry 1 tx6 "t1" s2 = (Ret None, s2)
       /\ HasConflict duckdb_TRANSACTION_ID_START tx6 8 = true.
Proof.
  split; [repeat split; by_computation|].
  exists (snd (CreateEntry duckdb_TRANSACTION_ID_START duckdb_DEFAULT_SCHEMA 1 tx7 "t1"
                 (table "t1" 1 0) [] empty_main)).
  destruct (committed_creation_is_visible_to_later_snapshots
              duckdb_TRANSACTION_ID_START duckdb_DEFAULT_SCHEMA 1%nat tx7 "t1"
              (table "t1" 1 0) [] 8 empty_main
              (snd (CreateEntry duckdb_TRANSACTION_ID_START duckdb_DEFAULT_SCHEMA 1 tx7
                      "t1" (table "t1" 1 0) [] empty_main))
              ltac:(by_computation) ltac:(by_computation) ltac:(by_computation)
              ltac:(by_computation) ltac:(by_computation))
    as (s2 & Hcommit & _ & Hsnapshots).
  exists s2. split; [by_computation|]. split; [exact Hcommit|].
  destruct (Hsnapshots 0%nat tx9) as (Hlater & _ & _).
  destruct (Hlater ltac:(by_computation)) as [Hget Hfree].
  destruct (Hsnapshots 0%nat tx6) as (_ & Hearlier & Hblocked).
  split; [exact Hget|]. split; [exact Hfree|].
  split; [apply Hearlier; by_computation|apply Hblocked; by_computation].
Defined.

Lemma CleanupEntry_below_visible_version_is_unobservable_witness :
  (directory_named (map set_altered_t1)
   /\ map_GetEntry (map set_altered_t1) "t1" = Some altered_t1
   /\ node_at 2 altered_t1 = Some (mkNode (placeholder "t1") None)
   /\ node_at 1 altered_t1
      = Some (mkNode (table "t1" 1 5) (Some (mkNode (placeholder "t1") None)))
   /\ UseTimestamp tx9 5 = true)
  /\ exists s',
       CleanupEntry (mkRef "t1" 2) set_altered_t1 = (Ret tt, s')
       /\ map s'
          = {[ "t1" := mkNode (table "t1" 2 10) (Some (mkNode (table "t1" 1 5) None)) ]}
       /\ fst (GetEntry 1 tx9 "t1" s') = fst (GetEntry 1 tx9 "t1" set_altered_t1).
Proof.
  assert (Hnamed : directory_named (map set_altered_t1)).
  { intros key head. unfold set_altered_t1, set_of. cbn [map].
    rewrite lookup_singleton. case_decide as Hkey; [|discriminate].
    intros Heq. inversion Heq; subst. repeat constructor. }
  split; [split; [exact Hnamed|repeat split; by_computation]|].
  destruct (CleanupEntry_below_visible_version_is_unobservable
              0%nat tx9 "t1" 1%nat 1%nat set_altered_t1 altered_t1
              (mkNode (placeholder "t1") None)
              (mkNode (table "t1" 1 5) (Some (mkNode (placeholder "t1") None)))
              Hnamed ltac:(by_computation) ltac:(by_computation) ltac:(by_computation)
              ltac:(apply le_n) ltac:(by_computation) ltac:(by_computation))
    as (s' & Hrun & Hsame).
  exists s'. split; [exact Hrun|].
  assert (Hs' : snd (CleanupEntry (mkRef "t1" 2) set_altered_t1) = s')
    by exact (f_equal snd Hrun).
  split; [rewrite <- Hs'; by_computation|exact Hsame].
Defined.

Lemma CleanupEntry_removes_orphaned_tombstone_witness :
  map set_live_t1 !! "t1"
  = Some (mkNode (table "t1" 1 5) (Some (mkNode (placeholder "t1") None)))
  /\ exists s',
       CleanupEntry (mkRef "t1" 1) set_live_t1 = (Ret tt, s')
       /\ map s' !! "t1" = Some committed_t1
       /\ undo_buffer s' = [].
Proof.
  split; [by_computation|].
  destruct (CleanupEntry_removes_orphaned_tombstone "t1" set_live_t1 (table "t1" 1 5)
              (placeholder "t1")
              ltac:(by_computation) ltac:(by_computation) ltac:(by_computation))
    as (s' & Hrun & Hkey & _ & Hlog).
  exists s'. split; [exact Hrun|]. split; [exact Hkey|exact Hlog].
Defined.

Lemma GetEntry_materialises_default_once_witness :
  (map_GetEntry (map set_with_default_x) "x" = None
   /\ default_for set_with_default_x tx9 "x" = Some default_x)
  /\ exists s1,
       GetEntry 1 tx9 "x" set_with_default_x = (Ret (Some default_x), s1)
       /\ map s1 = {[ "x" := mkNode default_x None ]}
       /\ undo_buffer s1 = []
       /\ GetEntry 1 system_snapshot "x" s1 = (Ret (Some default_x), s1).
Proof.
  split; [split; by_computation|].
  destruct (GetEntry_materialises_default_once 0%nat tx9 "x" set_with_default_x default_x
              ltac:(by_computation) ltac:(by_computation) ltac:(by_computation))
    as (s1 & Hrun & Hmap & Hlog & Hlater).
  exists s1. split; [exact Hrun|]. split; [rewrite Hmap; by_computation|].
  split; [exact Hlog|exact (Hlater 0%nat system_snapshot)].
Defined.

Lemma CreateEntry_yields_to_default_witness :
  (map_GetEntry (map set_with_default_x) "x" = None
   /\ default_for set_with_default_x tx9 "x" = Some default_x)
  /\ exists s1,
       CreateEntry duckdb_TRANSACTION_ID_START duckdb_DEFAULT_SCHEMA 1 tx9 "x"
         (table "x" 1 0) [] set_with_default_x = (Ret false, s1)
       /\ map s1 = {[ "x" := mkNode default_x None ]}
       /\ undo_buffer s1 = []
       /\ GetEntry 1 tx9 "x" s1 = (Ret (Some default_x), s1).
Proof.
  split; [split; by_computation|].
  destruct (CreateEntry_yields_to_default
              duckdb_TRANSACTION_ID_START duckdb_DEFAULT_SCHEMA 1%nat tx9 "x"
              (table "x" 1 0) [] set_with_default_x default_x
              ltac:(by_computation) ltac:(by_computation) ltac:(by_computation)
              ltac:(by_computation) ltac:(by_computation))
    as (s1 & Hrun & Hmap & Hlog & Hlater).
  exists s1. split; [exact Hrun|]. split; [rewrite Hmap; by_computation|].
  split; [exact Hlog|exact (Hlater 0%nat tx9)].
Defined.

Lemma Undo_of_CreateEntry_over_tombstone_witness :
  (map_GetEntry (map set_recreated_t1) "t1" = Some recreated_t1
   /\ HasConflict duckdb_TRANSACTION_ID_START tx7 (timestamp (entry recreated_t1)) = false
   /\ deleted (entry recreated_t1) = true)
  /\ exists s1 s2,
       CreateEntry duckdb_TRANSACTION_ID_START duckdb_DEFAULT_SCHEMA 1 tx7 "t1"
         (table "t1" 3 0) [] set_recreated_t1 = (Ret true, s1)
       /\ map_GetEntry (map s1) "t1"
          = Some (mkNode (table "t1" 3 (duckdb_TRANSACTION_ID_START + 1))
                    (Some recreated_t1))
       /\ Undo (mkRef "t1" 1) s1 = (Ret tt, s2)
       /\ map s2 = map set_recreated_t1.
Proof.
  split; [repeat split; by_computation|].
  exact (Undo_of_CreateEntry_over_tombstone
           duckdb_TRANSACTION_ID_START duckdb_DEFAULT_SCHEMA 1%nat tx7 "t1"
           (table "t1" 3 0) [] set_recreated_t1 recreated_t1
           ltac:(by_computation) ltac:(by_computation) ltac:(by_computation)
           ltac:(by_computation) ltac:(by_computation) ltac:(by_computation)
           ltac:(by_computation)).
Defined.

Lemma DropEntry_guards_witness :
  (map_GetEntry (map empty_main) "t1" = None
   /\ map_GetEntry (map set_internal_f) "f" = Some internal_f
   /\ internal (entry (GetEntryForTransaction tx9 internal_f)) = true
   /\ map_GetEntry (map set_guarded_t1) "t1" = Some live_t1
   /\ DropObject (GetDependencyManager (catalog set_guarded_t1)) tx9
        (table "t1" 1 5) true = Some Collaborator_Raised
   /\ map_GetEntry (map set_with_default_x) "x" = None
   /\ default_for set_with_default_x tx9 "x" = Some default_x
   /\ internal default_x = true)
  /\ DropEntry duckdb_TRANSACTION_ID_START 1 tx9 "t1" false false empty_main
     = (Ret false, empty_main)
  /\ DropEntry duckdb_TRANSACTION_ID_START 1 tx9 "f" false false set_internal_f
     = (Throw Catalog_DropInternal, set_internal_f)
  /\ DropEntry duckdb_TRANSACTION_ID_START 1 tx9 "t1" true false set_guarded_t1
     = (Throw Collaborator_Raised,
        with_calls [Call_DropObject (table "t1" 1 5) true] set_guarded_t1)
  /\ DropEntry duckdb_TRANSACTION_ID_START 1 tx9 "x" false false set_with_default_x
     = (Throw Catalog_DropInternal,
        mkSet main_catalog (Some defaults_x) {[ "x" := mkNode default_x None ]} [] []).
Proof.
  split; [repeat split; by_computation|].
  split; [|split; [|split]].
  - apply (proj1 (DropEntry_guards duckdb_TRANSACTION_ID_START 0%nat tx9 "t1" false false
                    empty_main)); by_computation.
  - destruct (proj1 (proj2 (DropEntry_guards duckdb_TRANSACTION_ID_START 0%nat tx9 "f"
                              false false set_internal_f))
                internal_f ltac:(by_computation) ltac:(by_computation))
      as [Hinternal _].
    apply Hinternal; by_computation.
  - destruct (proj1 (proj2 (DropEntry_guards duckdb_TRANSACTION_ID_START 0%nat tx9 "t1"
                              true false set_guarded_t1))
                live_t1 ltac:(by_computation) ltac:(by_computation))
      as [_ Hrefused].
    apply (Hrefused Collaborator_Raised); by_computation.
  - destruct (proj2 (proj2 (DropEntry_guards duckdb_TRANSACTION_ID_START 0%nat tx9 "x"
                              false false set_with_default_x))
                default_x ltac:(by_computation) ltac:(by_computation)
                ltac:(by_computation))
      as [Hinternal _].
    rewrite Hinternal by by_computation. by_computation.
Defined.

Lemma GetEntry_returns_newest_visible_version_witness :
  (map_GetEntry (map set_altered_t1) "t1" = Some altered_t1
   /\ Exists (fun e => visible tx9 e = true) (versions altered_t1)
   /\ last (versions altered_t1) = Some (placeholder "t1"))
  /\ GetEntry 1 tx9 "t1" set_altered_t1 = (Ret (Some (table "t1" 1 5)), set_altered_t1).
Proof.
  destruct (GetEntry_returns_newest_visible_version 0%nat tx9 "t1" set_altered_t1
              altered_t1 ltac:(by_computation))
    as [Hnewest Hbottom].
  assert (Hsome : Exists (fun e => visible tx9 e = true) (versions altered_t1)).
  { apply (Hbottom (placeholder "t1")); by_computation. }
  split; [split; [by_computation|split; [exact Hsome|by_computation]]|].
  exact (Hnewest Hsome).
Defined.

Lemma Scan_chain_visits_newest_committed_version_witness :
  (Exists (fun e => committed duckdb_TRANSACTION_ID_START e = true) (versions altered_t1)
   /\ last (versions altered_t1) = Some (placeholder "t1"))
  /\ Scan_chain duckdb_TRANSACTION_ID_START cons [] altered_t1 = [table "t1" 2 10].
Proof.
  destruct (Scan_chain_visits_newest_committed_version duckdb_TRANSACTION_ID_START
              cons [] altered_t1)
    as [Hnewest Hbottom].
  assert (Hsome : Exists (fun e => committed duckdb_TRANSACTION_ID_START e = true)
                    (versions altered_t1)).
  { apply (Hbottom (placeholder "t1")); by_computation. }
  split; [split; [exact Hsome|by_computation]|].
  exact (Hnewest Hsome).
Defined.

Lemma committed_and_cleaned_version_is_seen_by_all_witness :
  (map_GetEntry (map empty_main) "t1" = None
   /\ fst (CreateEntry duckdb_TRANSACTION_ID_START duckdb_DEFAULT_SCHEMA 1 tx7 "t1"
             (table "t1" 1 0) [] empty_main) = Ret true)
  /\ exists s1 s2 s3,
       CreateEntry duckdb_TRANSACTION_ID_START duckdb_DEFAULT_SCHEMA 1 tx7 "t1"
         (table "t1" 1 0) [] empty_main = (Ret true, s1)
       /\ UpdateTimestamp (mkRef "t1" 0) 8 s1 = (Ret tt, s2)
       /\ CleanupEntry (mkRef "t1" 1) s2 = (Ret tt, s3)
       /\ map s3 = {[ "t1" := mkNode (table "t1" 1 8) None ]}
       /\ GetEntry 1 tx6 "t1" s3 = (Ret (Some (table "t1" 1 8)), s3)
       /\ GetEntry 1 system_snapshot "t1" s3 = (Ret (Some (table "t1" 1 8)), s3).
Proof.
  split; [split; by_computation|].
  exists (snd (CreateEntry duckdb_TRANSACTION_ID_START duckdb_DEFAULT_SCHEMA 1 tx7 "t1"
                 (table "t1" 1 0) [] empty_main)).
  destruct (committed_and_cleaned_version_is_seen_by_all
              duckdb_TRANSACTION_ID_START duckdb_DEFAULT_SCHEMA 1%nat tx7 "t1"
              (table "t1" 1 0) [] 8 empty_main
              (snd (CreateEntry duckdb_TRANSACTION_ID_START duckdb_DEFAULT_SCHEMA 1 tx7
                      "t1" (table "t1" 1 0) [] empty_main))
              ltac:(by_computation) ltac:(by_computation) ltac:(by_computation)
              ltac:(by_computation))
    as (s2 & s3 & Hcommit & Hclean & Hmap & Hall).
  exists s2, s3. split; [by_computation|]. split; [exact Hcommit|].
  split; [exact Hclean|]. split; [rewrite Hmap; by_computation|].
  split; [exact (Hall 0%nat tx6)|exact (Hall 0%nat system_snapshot)].
Defined.
